(** * Battle arena: lifecycle, countdown and submission logic

    A shallow embedding of [src/pages/BattleArena.tsx] (the arena view and
    its mutations) together with the rows of the hosted store it talks to
    ([lib/supabase.ts]).

    - Identifiers and the [status] column are text; the code only compares
      them with [===] and tests them for truthiness, so they are [string]s.
    - The editor text is trimmed by [String.prototype.trim], so it is kept
      as the sequence of its UTF-16 code units.
    - Instants ([new Date(x).getTime()], [new Date().toISOString()]) are
      integer milliseconds since the epoch.  The numbers the countdown
      handles are integers far below 2^53, where the arithmetic of JS
      numbers is exact; they are modelled in [Z].
    - The store is a set of tables (lists of rows).  A request built with
      [.select().single()] answers one row or the error [PGRST116].
    - A client is a state transformer over a [World]: the shared store, the
      React state of the view, the clock, and a log of what the handler
      did (requests sent, toasts, navigations, cache invalidations). *)

From Stdlib Require Import ZArith NArith List String Ascii Bool Lia.
From Stdlib Require Import DecimalString.
From Stdlib Require Decimal DecimalPos DecimalZ.
Import ListNotations.

Open Scope string_scope.
Open Scope Z_scope.
Open Scope list_scope.

(* ================================================================== *)
(** ** JavaScript values *)
(* ================================================================== *)

(** A JS string as its UTF-16 code units. *)
Definition jsstring := list N.

(** ECMAScript [WhiteSpace] and [LineTerminator] code points, the characters
    [trim] strips.  All of them lie in the basic plane, so each is one code
    unit. *)
Definition isWhiteSpace (c : N) : bool :=
  (N.eqb c 9 || N.eqb c 10 || N.eqb c 11 || N.eqb c 12 || N.eqb c 13
   || N.eqb c 32 || N.eqb c 160 || N.eqb c 5760
   || (N.leb 8192 c && N.leb c 8202)
   || N.eqb c 8232 || N.eqb c 8233 || N.eqb c 8239 || N.eqb c 8287
   || N.eqb c 12288 || N.eqb c 65279)%bool.

Fixpoint trimStart (s : jsstring) : jsstring :=
  match s with
  | [] => []
  | c :: r => if isWhiteSpace c then trimStart r else s
  end.

Definition trimEnd (s : jsstring) : jsstring := rev (trimStart (rev s)).

(** [s.trim()] *)
Definition trim (s : jsstring) : jsstring := trimEnd (trimStart s).

(** Truthiness of a JS string: only the empty string is falsy. *)
Definition truthy_jsstring (s : jsstring) : bool :=
  match s with [] => false | _ :: _ => true end.

Definition truthy_string (s : string) : bool :=
  match s with EmptyString => false | String _ _ => true end.

(** Truthiness of a [string | null | undefined] value. *)
Definition truthy (v : option string) : bool :=
  match v with None => false | Some s => truthy_string s end.

(** [a === b] for a string [a] and a [string | null] value [b]. *)
Definition strict_eq (a : string) (b : option string) : bool :=
  match b with None => false | Some s => String.eqb a s end.

(** [Math.ceil(a / b)] for integers [a] and a positive integer [b]. *)
Definition Math_ceil_div (a b : Z) : Z := - ((- a) / b).

(** Code units of an ASCII literal, for writing examples. *)
Fixpoint code_units (s : string) : jsstring :=
  match s with
  | EmptyString => []
  | String c r => Ascii.N_of_ascii c :: code_units r
  end.

(* ================================================================== *)
(** ** Rows *)
(* ================================================================== *)

(** A row of [battles], with the columns the arena view reads and writes.
    [b_id] is the column [id]. *)
Record Battle := mkBattle {
  b_id : string;
  creator_id : string;
  defender_id : option string;
  problem_id : Z;
  language : string;
  difficulty : string;
  duration : Z;
  is_rated : bool;
  status : string;
  winner_id : option string;
  start_time : option Z;
  end_time : option Z
}.

(** A row of [solutions] ([Solution] in lib/supabase.ts).  [sol_id] is the
    row identifier the store mints. *)
Record Solution := mkSolution {
  sol_id : N;
  sol_battle_id : string;
  sol_user_id : string;
  sol_code : jsstring;
  sol_submitted_at : Z
}.

(** A row of [profiles] as the view reads it. *)
Record Profile := mkProfile {
  prof_id : string;
  prof_name : option string;
  prof_avatar_url : option string;
  prof_rating : Z
}.

(** [interface Participant] *)
Record Participant := mkParticipant {
  part_id : string;
  part_name : option string;
  part_avatar_url : option string;
  part_rating : Z
}.

(** The authenticated user; the view reads [user.id] only. *)
Record User := mkUser { user_id : string }.

(* ================================================================== *)
(** ** The hosted store *)
(* ================================================================== *)

Inductive StoreError :=
| PGRST116          (* .single(): no row, or more than one *)
| UniqueViolation   (* 23505: a unique constraint refused the row *)
| Thrown (msg : string).  (* an Error the client threw before any request *)

Inductive result (A : Type) :=
| Ok (a : A)
| Err (e : StoreError).
Arguments Ok {A} a.
Arguments Err {A} e.

Definition is_ok {A} (r : result A) : bool :=
  match r with Ok _ => true | Err _ => false end.

(** Modelled from the spec: the declaration of the [solutions] table is not
    among the sources (the schema code provisions [submissions], a table the
    arena view never touches, and there without a key on the pair).  The
    data model gives the table the invariant "at most one Solution per
    (battle, user) pair", owned and enforced by the store;
    [solutions_unique] says whether the table declares that key. *)
Record Store := mkStore {
  battles : list Battle;
  solutions : list Solution;
  profiles : list Profile;
  solutions_unique : bool
}.

Definition with_battles (st : Store) (bs : list Battle) : Store :=
  mkStore bs (solutions st) (profiles st) (solutions_unique st).

Definition with_solutions (st : Store) (ss : list Solution) : Store :=
  mkStore (battles st) ss (profiles st) (solutions_unique st).

(** [from(t).select('*')...filters....single()] *)
Definition select_single {A} (p : A -> bool) (rows : list A) : result A :=
  match filter p rows with
  | [r] => Ok r
  | _ => Err PGRST116
  end.

(** [from(t).update(patch)...filters....select().single()]: the rows that
    pass the filters are patched; when they are not exactly one the request
    is answered [PGRST116] and leaves the table as it was. *)
Definition update_single {A} (p : A -> bool) (patch : A -> A)
    (rows : list A) : result A * list A :=
  match filter p rows with
  | [r] => (Ok (patch r), map (fun x => if p x then patch x else x) rows)
  | _ => (Err PGRST116, rows)
  end.

Definition same_pair (battleId userId : string) (s : Solution) : bool :=
  (String.eqb (sol_battle_id s) battleId
   && String.eqb (sol_user_id s) userId)%bool.

Definition fresh_id (ss : list Solution) : N :=
  N.succ (fold_right N.max 0%N (map sol_id ss)).

(** [from('solutions').insert([row]).select().single()] *)
Definition insert_solution (battleId userId : string) (code : jsstring)
    (submitted_at : Z) (st : Store) : result Solution * Store :=
  if (solutions_unique st
      && existsb (same_pair battleId userId) (solutions st))%bool
  then (Err UniqueViolation, st)
  else
    let row := mkSolution (fresh_id (solutions st)) battleId userId code
                 submitted_at in
    (Ok row, with_solutions st (solutions st ++ [row])).

(* ================================================================== *)
(** ** The client: view state, world and effects *)
(* ================================================================== *)

(** The React state of the arena view ([useState] cells). *)
Record View := mkView {
  code : jsstring;
  view_language : string;
  isSubmitting : bool;
  isBattleReady : bool;
  isBattleActive : bool;
  isBattleOver : bool;
  timeRemaining : option Z;
  winner : option Participant;
  loser : option Participant
}.

(** The state a freshly mounted view starts from. *)
Definition initial_view : View :=
  mkView [] "javascript" false false false false None None None.

Inductive Request :=
| SelectProfile (id : string)
| SelectSolution (battleId userId : string)
| InsertSolution (battleId userId : string) (code : jsstring) (at_ : Z)
| UpdateJoin (battleId userId : string) (at_ : Z)
| UpdateEnd (battleId winnerId : string) (at_ : Z).

Inductive Event :=
| Sent (r : Request)
| ToastError (msg : string)
| ToastSuccess (msg : string)
| Navigate (path : string)
| Invalidate (queryKey : string).

Record World := mkWorld {
  store : Store;
  view : View;
  clock : Z;
  log : list Event
}.

Definition Client (A : Type) : Type := World -> A * World.

Definition ret {A} (a : A) : Client A := fun w => (a, w).

Definition bind {A B} (c : Client A) (k : A -> Client B) : Client B :=
  fun w => let (a, w') := c w in k a w'.

Notation "x <- c1 ;; c2" := (bind c1 (fun x => c2))
  (at level 61, c1 at next level, right associativity).
Notation "c1 ;; c2" := (bind c1 (fun _ => c2))
  (at level 61, right associativity).

Definition exec {A} (c : Client A) (w : World) : World := snd (c w).

Definition emit (e : Event) : Client unit :=
  fun w => (tt, mkWorld (store w) (view w) (clock w) (log w ++ [e])).

(** [new Date().getTime()] *)
Definition Date_now : Client Z := fun w => (clock w, w).

Definition getView : Client View := fun w => (view w, w).

Definition modify_view (f : View -> View) : Client unit :=
  fun w => (tt, mkWorld (store w) (f (view w)) (clock w) (log w)).

(** One request to the store: it is logged, and the store answers it
    atomically. *)
Definition request {A} (r : Request) (f : Store -> result A * Store)
  : Client (result A) :=
  fun w => let (res, st') := f (store w) in
           (res, mkWorld st' (view w) (clock w) (log w ++ [Sent r])).

Definition setCode (c : jsstring) : Client unit :=
  modify_view (fun v => mkView c (view_language v) (isSubmitting v)
    (isBattleReady v) (isBattleActive v) (isBattleOver v) (timeRemaining v)
    (winner v) (loser v)).

Definition setLanguage (l : string) : Client unit :=
  modify_view (fun v => mkView (code v) l (isSubmitting v)
    (isBattleReady v) (isBattleActive v) (isBattleOver v) (timeRemaining v)
    (winner v) (loser v)).

Definition setIsSubmitting (b : bool) : Client unit :=
  modify_view (fun v => mkView (code v) (view_language v) b
    (isBattleReady v) (isBattleActive v) (isBattleOver v) (timeRemaining v)
    (winner v) (loser v)).

Definition setIsBattleReady (b : bool) : Client unit :=
  modify_view (fun v => mkView (code v) (view_language v) (isSubmitting v)
    b (isBattleActive v) (isBattleOver v) (timeRemaining v)
    (winner v) (loser v)).

Definition setIsBattleActive (b : bool) : Client unit :=
  modify_view (fun v => mkView (code v) (view_language v) (isSubmitting v)
    (isBattleReady v) b (isBattleOver v) (timeRemaining v)
    (winner v) (loser v)).

Definition setIsBattleOver (b : bool) : Client unit :=
  modify_view (fun v => mkView (code v) (view_language v) (isSubmitting v)
    (isBattleReady v) (isBattleActive v) b (timeRemaining v)
    (winner v) (loser v)).

Definition setTimeRemaining (t : option Z) : Client unit :=
  modify_view (fun v => mkView (code v) (view_language v) (isSubmitting v)
    (isBattleReady v) (isBattleActive v) (isBattleOver v) t
    (winner v) (loser v)).

Definition setWinner (p : option Participant) : Client unit :=
  modify_view (fun v => mkView (code v) (view_language v) (isSubmitting v)
    (isBattleReady v) (isBattleActive v) (isBattleOver v) (timeRemaining v)
    p (loser v)).

Definition setLoser (p : option Participant) : Client unit :=
  modify_view (fun v => mkView (code v) (view_language v) (isSubmitting v)
    (isBattleReady v) (isBattleActive v) (isBattleOver v) (timeRemaining v)
    (winner v) p).

(** [useMutation]'s [mutateAsync]: the mutation function, then [onSuccess]
    or [onError], then [onSettled]; the outcome goes back to the caller. *)
Definition mutateAsync {A} (mutationFn : Client (result A))
    (onSuccess onError onSettled : Client unit) : Client (result A) :=
  r <- mutationFn ;;
  (match r with Ok _ => onSuccess | Err _ => onError end) ;;
  onSettled ;;
  ret r.

(** What the component is mounted with: the route parameter and the
    authenticated user. *)
Record Props := mkProps {
  battleId : option string;
  user : option User
}.

(** [user?.id] *)
Definition user_id_opt (u : option User) : option string :=
  option_map user_id u.

(* ------------------------------------------------------------------ *)
(** *** Store requests the view builds *)

(** [.from('solutions').select('*').eq('battle_id', b).eq('user_id', u)
     .single()] *)
Definition fetchSolution (b u : string) (st : Store)
  : result Solution * Store :=
  (select_single (same_pair b u) (solutions st), st).

(** [.from('profiles').select('*').eq('id', id).single()] *)
Definition fetchProfile (id : string) (st : Store)
  : result Profile * Store :=
  (select_single (fun p => String.eqb (prof_id p) id) (profiles st), st).

Definition join_patch (u : string) (now : Z) (b : Battle) : Battle :=
  mkBattle (b_id b) (creator_id b) (Some u) (problem_id b) (language b)
    (difficulty b) (duration b) (is_rated b) "in_progress" (winner_id b)
    (Some now) (end_time b).

(** [.from('battles').update({defender_id, status: 'in_progress',
     start_time}).eq('id', b).eq('status', 'waiting').select().single()] *)
Definition updateBattleJoin (b u : string) (now : Z) (st : Store)
  : result Battle * Store :=
  let (r, bs) :=
    update_single
      (fun x => (String.eqb (b_id x) b && String.eqb (status x) "waiting")%bool)
      (join_patch u now) (battles st) in
  (r, with_battles st bs).

Definition end_patch (winnerId : string) (now : Z) (b : Battle) : Battle :=
  mkBattle (b_id b) (creator_id b) (defender_id b) (problem_id b)
    (language b) (difficulty b) (duration b) (is_rated b) "completed"
    (Some winnerId) (start_time b) (Some now).

(** [.from('battles').update({status: 'completed', end_time, winner_id})
     .eq('id', b).select().single()] *)
Definition updateBattleEnd (b winnerId : string) (now : Z) (st : Store)
  : result Battle * Store :=
  let (r, bs) :=
    update_single (fun x => String.eqb (b_id x) b)
      (end_patch winnerId now) (battles st) in
  (r, with_battles st bs).

(* ------------------------------------------------------------------ *)
(** *** Queries and mutations *)

(** The [solution] query: an absent row ([PGRST116]) is [null], not an
    error. *)
Definition solutionQuery (p : Props) : Client (result (option Solution)) :=
  match battleId p, user_id_opt (user p) with
  | Some b, Some u =>
      if (truthy_string b && truthy_string u)%bool then
        r <- request (SelectSolution b u) (fetchSolution b u) ;;
        match r with
        | Ok s => ret (Ok (Some s))
        | Err PGRST116 => ret (Ok None)
        | Err e => ret (Err e)
        end
      else ret (Err (Thrown "Battle ID and User ID are required"))
  | _, _ => ret (Err (Thrown "Battle ID and User ID are required"))
  end.

(** [data] of a query: [undefined] when it failed. *)
Definition query_data {A} (r : result (option A)) : option A :=
  match r with Ok d => d | Err _ => None end.

Definition submitSolutionMutation (p : Props) : Client (result Solution) :=
  mutateAsync
    (match battleId p, user_id_opt (user p) with
     | Some b, Some u =>
         if (truthy_string b && truthy_string u)%bool then
           v <- getView ;;
           now <- Date_now ;;
           request (InsertSolution b u (code v) now)
                   (insert_solution b u (code v) now)
         else ret (Err (Thrown "Battle ID and User ID are required"))
     | _, _ => ret (Err (Thrown "Battle ID and User ID are required"))
     end)
    (emit (ToastSuccess "Solution submitted successfully!") ;;
     emit (Invalidate "solution"))
    (emit (ToastError "Failed to submit solution. Please try again."))
    (setIsSubmitting false).

Definition joinBattleMutation (p : Props) : Client (result Battle) :=
  mutateAsync
    (match battleId p, user_id_opt (user p) with
     | Some b, Some u =>
         if (truthy_string b && truthy_string u)%bool then
           now <- Date_now ;;
           request (UpdateJoin b u now) (updateBattleJoin b u now)
         else ret (Err (Thrown "Battle ID and User ID are required"))
     | _, _ => ret (Err (Thrown "Battle ID and User ID are required"))
     end)
    (emit (ToastSuccess "Joined battle successfully!") ;;
     emit (Invalidate "battle"))
    (emit (ToastError "Failed to join battle. Please try again."))
    (ret tt).

Definition endBattleMutation (p : Props) (winnerId : string)
  : Client (result Battle) :=
  mutateAsync
    (match battleId p with
     | Some b =>
         if truthy_string b then
           now <- Date_now ;;
           request (UpdateEnd b winnerId now) (updateBattleEnd b winnerId now)
         else ret (Err (Thrown "Battle ID is required"))
     | None => ret (Err (Thrown "Battle ID is required"))
     end)
    (emit (ToastSuccess "Battle ended successfully!") ;;
     emit (Invalidate "battle"))
    (emit (ToastError "Failed to end battle. Please try again."))
    (ret tt).

(* ------------------------------------------------------------------ *)
(** *** Handlers *)

Definition handleJoinBattle (p : Props) : Client unit :=
  match user p with
  | None =>
      emit (ToastError "You must be logged in to join a battle") ;;
      emit (Navigate "/login")
  | Some _ => _ <- joinBattleMutation p ;; ret tt
  end.

Definition handleSubmitSolution (p : Props) : Client unit :=
  v <- getView ;;
  if negb (truthy_jsstring (trim (code v))) then
    emit (ToastError "Your solution cannot be empty")
  else
    setIsSubmitting true ;;
    _ <- submitSolutionMutation p ;;
    ret tt.

Definition handleEndBattle (p : Props) (winnerId : string) : Client unit :=
  _ <- endBattleMutation p winnerId ;; ret tt.

(* ------------------------------------------------------------------ *)
(** *** Effects *)

Definition participant_of (d : Profile) : Participant :=
  mkParticipant (prof_id d) (prof_name d) (prof_avatar_url d) (prof_rating d).

(** [loserId] of [setParticipants], for a recorded winner [w]. *)
Definition loserId (battle : Battle) (w : string) : option string :=
  if String.eqb (creator_id battle) w then defender_id battle
  else Some (creator_id battle).

Definition setParticipants (battle : Battle) : Client unit :=
  match winner_id battle with
  | Some w =>
      if truthy_string w then
        r <- request (SelectProfile w) (fetchProfile w) ;;
        match r with
        | Err _ => ret tt
        | Ok winnerData =>
            setWinner (Some (participant_of winnerData)) ;;
            match loserId battle w with
            | Some l =>
                if truthy_string l then
                  r' <- request (SelectProfile l) (fetchProfile l) ;;
                  match r' with
                  | Err _ => ret tt
                  | Ok loserData => setLoser (Some (participant_of loserData))
                  end
                else ret tt
            | None => ret tt
            end
        end
      else ret tt
  | None => ret tt
  end.

(** The effect on [[battle]]: derive the status flags, and resolve the
    participants of a completed battle. *)
Definition battleEffect (battle : option Battle) : Client unit :=
  match battle with
  | None => ret tt
  | Some b =>
      setIsBattleReady (String.eqb (status b) "in_progress"
                        || String.eqb (status b) "completed") ;;
      setIsBattleActive (String.eqb (status b) "in_progress") ;;
      setIsBattleOver (String.eqb (status b) "completed") ;;
      (if truthy_string (language b) then setLanguage (language b)
       else ret tt) ;;
      if String.eqb (status b) "completed" then setParticipants b
      else ret tt
  end.

(** [determineWinner], closed over the rendered [battle], [user] and
    [solution]. *)
Definition determineWinner (p : Props) (battle : Battle) (u : User)
    (solution : option Solution) : Client unit :=
  match solution with
  | None =>
      let opponentId :=
        if String.eqb (creator_id battle) (user_id u)
        then defender_id battle else Some (creator_id battle) in
      match opponentId with
      | Some o =>
          if truthy_string o then _ <- endBattleMutation p o ;; ret tt
          else ret tt
      | None => ret tt
      end
  | Some _ => _ <- endBattleMutation p (user_id u) ;; ret tt
  end.

(** [calculateTimeRemaining], the callback of the countdown. *)
Definition calculateTimeRemaining (p : Props) (battle : Battle)
    (solution : option Solution) : Client unit :=
  match start_time battle with
  | None => ret tt
  | Some startTime =>
      let endTime := startTime + duration battle * 60 * 1000 in
      now <- Date_now ;;
      let timeLeft := endTime - now in
      if 0 <? timeLeft then
        setTimeRemaining (Some (Math_ceil_div timeLeft 1000))
      else
        setTimeRemaining (Some 0) ;;
        match user p with
        | Some u =>
            if negb (truthy (winner_id battle))
            then determineWinner p battle u solution
            else ret tt
        | None => ret tt
        end
  end.

(** The guard of the countdown effect:
    [battle && battle.duration && battle.start_time && isBattleActive]. *)
Definition countdown_enabled (battle : option Battle) (v : View) : bool :=
  match battle with
  | None => false
  | Some b =>
      negb (duration b =? 0)
      && match start_time b with Some _ => true | None => false end
      && isBattleActive v
  end.

(** The countdown effect when it is (re)run: one immediate call of the
    callback, after which the interval is armed. *)
Definition countdownEffect (p : Props) (battle : option Battle)
    (solution : option Solution) : Client unit :=
  v <- getView ;;
  match battle with
  | Some b =>
      if countdown_enabled battle v then calculateTimeRemaining p b solution
      else ret tt
  | None => ret tt
  end.

(** The environment moves the clock between two callbacks. *)
Definition at_time (t : Z) : Client unit :=
  fun w => (tt, mkWorld (store w) (view w) t (log w)).

(** The interval firing at the given instants while the view keeps the
    same rendered [battle] and [solution] (no refetch has delivered a new
    snapshot in between). *)
Fixpoint intervalTicks (p : Props) (battle : Battle)
    (solution : option Solution) (times : list Z) : Client unit :=
  match times with
  | [] => ret tt
  | t :: ts =>
      at_time t ;;
      calculateTimeRemaining p battle solution ;;
      intervalTicks p battle solution ts
  end.

(* ------------------------------------------------------------------ *)
(** *** Derived role predicates (computed at render) *)

Definition isCreator (u : option User) (battle : Battle) : bool :=
  match u with
  | Some x => String.eqb (user_id x) (creator_id battle)
  | None => false
  end.

Definition isDefender (u : option User) (battle : Battle) : bool :=
  match u with
  | Some x => strict_eq (user_id x) (defender_id battle)
  | None => false
  end.

Definition hasJoined (u : option User) (battle : Battle) : bool :=
  isCreator u battle || isDefender u battle.

Definition canJoin (u : option User) (battle : Battle) : bool :=
  negb (hasJoined u battle) && String.eqb (status battle) "waiting".

Definition canSubmit (u : option User) (battle : Battle) (v : View)
    (solution : option Solution) : bool :=
  hasJoined u battle && isBattleActive v
  && match solution with None => true | Some _ => false end.

Definition canEnd (u : option User) (battle : Battle) (v : View)
    (solution : option Solution) : bool :=
  hasJoined u battle && isBattleActive v
  && match solution with None => false | Some _ => true end.

(** How many end requests a log holds. *)
Definition is_end_request (e : Event) : bool :=
  match e with Sent (UpdateEnd _ _ _) => true | _ => false end.

Definition end_requests (l : list Event) : list Event :=
  filter is_end_request l.

Definition is_request (e : Event) : bool :=
  match e with Sent _ => true | _ => false end.

(* ------------------------------------------------------------------ *)
(** *** Vocabulary of the data model, for stating properties *)

(** [o] is the viewer's opponent: a participant of the battle who is not
    the viewer. *)
Definition is_opponent (battle : Battle) (viewer o : string) : Prop :=
  (o = creator_id battle \/ defender_id battle = Some o) /\ o <> viewer.

(** The viewer is the creator or the defender of the battle. *)
Definition is_participant (u : option User) (battle : Battle) : Prop :=
  exists x, u = Some x /\
    (user_id x = creator_id battle \/ defender_id battle = Some (user_id x)).


(** The [battles] table holds exactly one row with this identifier (its
    primary key), and it is [battle]. *)
Definition the_battle (st : Store) (bid : string) (battle : Battle) : Prop :=
  filter (fun x => String.eqb (b_id x) bid) (battles st) = [battle].

(** The remaining milliseconds of the countdown at instant [now]. *)
Definition remaining (battle : Battle) (T now : Z) : Z :=
  T + duration battle * 60 * 1000 - now.

(** The two effects of a render, in the order they are declared: the
    countdown effect sees the flags the battle effect has set. *)
Definition effects (p : Props) (battle : option Battle)
    (solution : option Solution) : Client unit :=
  battleEffect battle ;; countdownEffect p battle solution.

(** Another client's world, seen after this client's requests reached the
    store they share. *)
Definition sharing_store (other : World) (w : World) : World :=
  mkWorld (store w) (view other) (clock other) (log other).

(* ------------------------------------------------------------------ *)
(** *** A small store to run the code on *)

(** A challenge opened by C, ten minutes long. *)
Definition battle_waiting : Battle :=
  mkBattle "b1" "C" None 1 "javascript" "Easy" 10 false "waiting"
    None None None.

(** D has joined at instant 0: the countdown ends at 600000 ms. *)
Definition battle_running : Battle := join_patch "D" 0 battle_waiting.

(** ... and the battle was ended at 601 s with C as winner. *)
Definition battle_done : Battle := end_patch "C" 601000 battle_running.

Definition profile_C : Profile := mkProfile "C" (Some "Carol") None 1000.
Definition profile_D : Profile := mkProfile "D" (Some "Dave") None 1200.

Definition store_of (battle : Battle) (ss : list Solution) : Store :=
  mkStore [battle] ss [profile_C; profile_D] true.

Definition world_of (st : Store) (text : jsstring) (now : Z) : World :=
  mkWorld st
    (mkView text "javascript" false false false false None None None)
    now [].

Definition props_C : Props := mkProps (Some "b1") (Some (mkUser "C")).
Definition props_D : Props := mkProps (Some "b1") (Some (mkUser "D")).

Definition solution_of_D : Solution :=
  mkSolution 1 "b1" "D" (code_units "return 42;") 300000.

(* ------------------------------------------------------------------ *)
(** *** The rest of the arena view *)

(** The [battle] query:
    [.from('battles').select('*').eq('id', battleId).single()]; its [data]
    is the row, or nothing when the request failed. *)
Definition battleQuery (p : Props) (st : Store) : result Battle :=
  match battleId p with
  | Some b =>
      if truthy_string b
      then select_single (fun x => String.eqb (b_id x) b) (battles st)
      else Err (Thrown "Battle ID is required")
  | None => Err (Thrown "Battle ID is required")
  end.

Definition battle_data (r : result Battle) : option Battle :=
  match r with Ok b => Some b | Err _ => None end.

(** [onChange] of the editor: [if (value) setCode(value)]. *)
Definition editorOnChange (value : option jsstring) : Client unit :=
  match value with
  | Some s => if truthy_jsstring s then setCode s else ret tt
  | None => ret tt
  end.

(** The effect on [[solution]]:
    [if (solution && solution.code) setCode(solution.code)]. *)
Definition solutionEffect (solution : option Solution) : Client unit :=
  match solution with
  | Some s => if truthy_jsstring (sol_code s) then setCode (sol_code s)
              else ret tt
  | None => ret tt
  end.

(** The winners the rendered End buttons pass to [handleEndBattle]: the
    creator's menu ([canEnd && isCreator]) lists the creator and, when
    present, the defender; the defender's button ([canEnd && isDefender])
    names the viewer. *)
Definition endBattleChoices (u : option User) (battle : Battle) (v : View)
    (solution : option Solution) : list string :=
  (if canEnd u battle v solution && isCreator u battle
   then creator_id battle ::
        match defender_id battle with
        | Some d => if truthy_string d then [d] else []
        | None => []
        end
   else [])
  ++
  (if canEnd u battle v solution && isDefender u battle
   then match u with Some x => [user_id x] | None => [] end
   else []).

(** [String(n)] for an integer [n]. *)
Definition js_String (n : Z) : string := NilZero.string_of_int (Z.to_int n).

Fixpoint pad (k : nat) (c : ascii) (s : string) : string :=
  match k with
  | O => s
  | S k' => String c (pad k' c s)
  end.

(** [s.padStart(n, c)] for a one-character filler [c]. *)
Definition padStart (n : nat) (c : ascii) (s : string) : string :=
  pad (n - String.length s) c s.

(** The countdown text:
    [{Math.floor(timeRemaining / 60)}:{String(timeRemaining % 60)
      .padStart(2, '0')}]; [%] truncates towards zero. *)
Definition timeRemainingText (t : Z) : string :=
  (js_String (t / 60) ++ ":" ++ padStart 2 "0" (js_String (Z.rem t 60)))%string.

(** The countdown is rendered when
    [timeRemaining !== null && isBattleActive]. *)
Definition countdownShown (v : View) : option string :=
  match timeRemaining v with
  | Some t => if isBattleActive v then Some (timeRemainingText t) else None
  | None => None
  end.

(** Reading the countdown text back: the two fields around the colon, as
    decimal numbers, in seconds. *)
Fixpoint split_colon (s : string) : option (string * string) :=
  match s with
  | EmptyString => None
  | String c r =>
      if Ascii.eqb c ":" then Some (EmptyString, r)
      else match split_colon r with
           | Some (a, b) => Some (String c a, b)
           | None => None
           end
  end.

Definition parse_int (s : string) : option Z :=
  option_map Z.of_int (NilZero.int_of_string s).

Definition readTimeRemaining (txt : string) : option Z :=
  match split_colon txt with
  | Some (m, s) =>
      match parse_int m, parse_int s with
      | Some a, Some b => Some (a * 60 + b)
      | _, _ => None
      end
  | None => None
  end.

(** [toLowerCase] on the letters A-Z.  The labels compared below hold no
    [k] and no character outside a-z, [+] and [#], so no other character
    lowercases into them: the branch taken is the one JS takes. *)
Definition toLowerAscii (c : ascii) : ascii :=
  let n := nat_of_ascii c in
  if (Nat.leb 65 n && Nat.leb n 90)%bool then ascii_of_nat (n + 32) else c.

Fixpoint toLowerCase (s : string) : string :=
  match s with
  | EmptyString => EmptyString
  | String c r => String (toLowerAscii c) (toLowerCase r)
  end.

Definition getLanguageMode (language : string) : string :=
  let l := toLowerCase language in
  if String.eqb l "javascript" then "javascript"
  else if String.eqb l "python" then "python"
  else if String.eqb l "java" then "java"
  else if (String.eqb l "c++" || String.eqb l "cpp")%bool then "cpp"
  else if (String.eqb l "c#" || String.eqb l "csharp")%bool then "csharp"
  else "javascript".

Definition getDifficultyColor (difficulty : string) : string :=
  let d := toLowerCase difficulty in
  if String.eqb d "easy" then "bg-green-500"
  else if String.eqb d "medium" then "bg-yellow-500"
  else if String.eqb d "hard" then "bg-red-500"
  else "bg-gray-500".

Definition getDifficultyPoints (difficulty : string) : string :=
  let d := toLowerCase difficulty in
  if String.eqb d "easy" then "10"
  else if String.eqb d "medium" then "25"
  else if String.eqb d "hard" then "50"
  else "0".

(* ------------------------------------------------------------------ *)
(** *** The store under the requests of any number of views *)

(** What one request of the arena view does to the store. *)
Definition serve (st : Store) (r : Request) : Store :=
  match r with
  | SelectProfile _ => st
  | SelectSolution _ _ => st
  | InsertSolution b u c t => snd (insert_solution b u c t st)
  | UpdateJoin b u t => snd (updateBattleJoin b u t st)
  | UpdateEnd b w t => snd (updateBattleEnd b w t st)
  end.

(** The store after a sequence of requests, served in order. *)
Definition serve_all (rs : list Request) (st : Store) : Store :=
  fold_left serve rs st.

(** The requests recorded in a log, in order. *)
Definition sent (l : list Event) : list Request :=
  flat_map (fun e => match e with Sent r => [r] | _ => [] end) l.

(** A client action changes the store through the requests it logs, and
    in no other way. *)
Definition by_requests {A} (c : Client A) : Prop :=
  forall w, exists rs,
    sent (log (snd (c w))) = sent (log w) ++ rs /\
    store (snd (c w)) = serve_all rs (store w).

(** Position of a status in the lifecycle; any status other than
    [waiting] and [completed] counts as started. *)
Definition status_rank (s : string) : nat :=
  if String.eqb s "completed" then 2
  else if String.eqb s "waiting" then 0
  else 1.

(** How a row of [battles] may differ from an earlier state of itself. *)
Definition evolves (b b' : Battle) : Prop :=
  b_id b' = b_id b /\
  creator_id b' = creator_id b /\
  problem_id b' = problem_id b /\
  duration b' = duration b /\
  (status_rank (status b) <= status_rank (status b'))%nat /\
  (status b <> "waiting" ->
   defender_id b' = defender_id b /\ start_time b' = start_time b).

(** The invariants of the data model on one row. *)
Definition row_complete (b : Battle) : Prop :=
  (status b = "in_progress" ->
   defender_id b <> None /\ start_time b <> None) /\
  (status b = "completed" ->
   winner_id b <> None /\ end_time b <> None).

(** What can run in one arena view: the three handlers, typing in the
    editor, a render (the effects on the fetched battle and solution, in
    the order they are declared) and a tick of the countdown interval. *)
Inductive Action :=
| Join
| Submit
| End_ (winnerId : string)
| Typing (value : option jsstring)
| Render (battle : option Battle) (solution : option Solution)
| Tick (battle : Battle) (solution : option Solution) (now : Z).

Definition perform (p : Props) (a : Action) : Client unit :=
  match a with
  | Join => handleJoinBattle p
  | Submit => handleSubmitSolution p
  | End_ w => handleEndBattle p w
  | Typing v => editorOnChange v
  | Render battle solution =>
      effects p battle solution ;; solutionEffect solution
  | Tick battle solution now =>
      at_time now ;; calculateTimeRemaining p battle solution
  end.

(* ================================================================== *)
(** ** The store client library (lib/supabase.ts) *)
(* ================================================================== *)

(** [initializeDatabase], [tableExists] and [optimizedFetch], over any
    backend.  The backend is given by how it answers the three kinds of
    request the library sends; an awaited request either is fulfilled with
    a response or throws. *)
Module Lib.

(** The five statements [initializeDatabase] sends through
    [rpc('exec_sql', { sql })], in the order of the source. *)
Inductive Statement :=
| CreateProfilesTable
| CreateRatingHistoryTable
| CreateBattlesTable
| CreateSubmissionsTable
| CreateJoinBattleFunction.

Definition statements : list Statement :=
  [CreateProfilesTable; CreateRatingHistoryTable; CreateBattlesTable;
   CreateSubmissionsTable; CreateJoinBattleFunction].

Inductive Settled (A : Type) :=
| Fulfilled (a : A)
| Threw.
Arguments Fulfilled {A} a.
Arguments Threw {A}.

Inductive Console :=
| Log (msg : string)
| Warn (msg : string)
| Error (msg : string).

(** [options] of [optimizedFetch]; every field is optional. *)
Record Options := mkOptions {
  single : option bool;
  limit : option Z;
  order : option (string * bool)
}.

Section Backend.

Variable S : Type.    (* states of the backend *)
Variable Row : Type.  (* rows *)
Variable Val : Type.  (* values compared by [eq] *)

(** The request [optimizedFetch] builds on [from(table).select('*')]. *)
Record Query := mkQuery {
  q_table : string;
  q_eq : list (string * Val);
  q_order : option (string * bool);
  q_limit : option Z
}.

Inductive Call :=
| CallRpc (stmt : Statement)
| CallHead (table : string)
| CallSelect (q : Query) (single_ : bool).

Record Env := mkEnv {
  backend : S;
  calls : list Call;
  console : list Console
}.

(** [rpc('exec_sql', ...)]: fulfilled (with or without an error in the
    response, which the library does not look at) or thrown; it may change
    the backend. *)
Variable exec_sql : Statement -> S -> Settled bool * S.

(** [from(t).select('*', { count: 'exact', head: true }).limit(1)]:
    whether the response carries an error. *)
Variable head_select : string -> S -> Settled bool.

(** The rows a query answers, or [None] when the response carries an
    error. *)
Variable select_rows : Query -> S -> Settled (option (list Row)).

Definition M (A : Type) : Type := Env -> A * Env.

Definition ret {A} (a : A) : M A := fun e => (a, e).

Definition bind {A B} (c : M A) (k : A -> M B) : M B :=
  fun e => let (a, e') := c e in k a e'.

Definition say (m : Console) : M unit :=
  fun e => (tt, mkEnv (backend e) (calls e) (console e ++ [m])).

Definition rpc (stmt : Statement) : M (Settled bool) :=
  fun e => let (r, s') := exec_sql stmt (backend e) in
           (r, mkEnv s' (calls e ++ [CallRpc stmt]) (console e)).

Definition head (table : string) : M (Settled bool) :=
  fun e => (head_select table (backend e),
            mkEnv (backend e) (calls e ++ [CallHead table]) (console e)).

(** The built query, awaited as it is or through [.single()]: with
    [.single()] the response is the row when the rows are exactly one, and
    an error otherwise. *)
Definition select (q : Query) (single_ : bool)
  : M (Settled (option (list Row))) :=
  fun e => (select_rows q (backend e),
            mkEnv (backend e) (calls e ++ [CallSelect q single_]) (console e)).

(** One guarded statement: [try { await rpc(...); console.log(ok) }
    catch (err) { console.warn(failed, err) }]. *)
Definition try_exec (stmt : Statement) (ok failed : string) : M unit :=
  bind (rpc stmt) (fun r =>
  match r with
  | Fulfilled _ => say (Log ok)
  | Threw => say (Warn failed)
  end).

(** [initializeDatabase].  Every statement that can throw sits in its own
    [try]; the outer [catch], the only place that returns [false], has
    nothing left to catch. *)
Definition initializeDatabase : M bool :=
  bind (say (Log "Initializing database tables...")) (fun _ =>
  bind (try_exec CreateProfilesTable
          "Profiles table created or already exists"
          "Failed to create profiles table:") (fun _ =>
  bind (try_exec CreateRatingHistoryTable
          "Rating history table created or already exists"
          "Failed to create rating_history table:") (fun _ =>
  bind (try_exec CreateBattlesTable
          "Battles table created or already exists"
          "Failed to create battles table:") (fun _ =>
  bind (try_exec CreateSubmissionsTable
          "Submissions table created or already exists"
          "Failed to create submissions table:") (fun _ =>
  bind (try_exec CreateJoinBattleFunction
          "join_battle function created or already exists"
          "Failed to create join_battle function:") (fun _ =>
  bind (say (Log "Database initialization completed")) (fun _ =>
  ret true))))))).

(** Whether the backend, in state [s], answers the existence check of
    [tableExists] without an error. *)
Definition table_found (table : string) (s : S) : bool :=
  match head_select table s with
  | Fulfilled error => negb error
  | Threw => false
  end.

(** [tableExists] *)
Definition tableExists (tableName : string) : M bool :=
  bind (head tableName) (fun r =>
  match r with
  | Fulfilled error => ret (negb error)
  | Threw =>
      bind (say (Error ("Error checking if table " ++ tableName
                        ++ " exists:")%string)) (fun _ =>
      ret false)
  end).

(** What [optimizedFetch] returns: [T | T[] | null]. *)
Inductive Fetched :=
| Null
| One (r : Row)
| Many (rs : list Row).

(** [options?.limit] is applied when truthy: a limit of [0] is not. *)
Definition limit_of (options : option Options) : option Z :=
  match options with
  | Some o => match limit o with
              | Some n => if n =? 0 then None else Some n
              | None => None
              end
  | None => None
  end.

Definition single_of (options : option Options) : bool :=
  match options with
  | Some o => match single o with Some b => b | None => false end
  | None => false
  end.

Definition order_of (options : option Options) : option (string * bool) :=
  match options with Some o => order o | None => None end.

(** The query built from [Object.entries(query)], [options.order] and
    [options.limit]. *)
Definition build_query (table : string) (query : list (string * Val))
    (options : option Options) : Query :=
  mkQuery table query (order_of options) (limit_of options).

(** [optimizedFetch] *)
Definition optimizedFetch (table : string) (query : list (string * Val))
    (options : option Options) : M Fetched :=
  bind (tableExists table) (fun exists_ =>
  bind (if exists_ then ret true
        else
          bind (say (Warn ("Table " ++ table
                  ++ " does not exist. Initializing database...")%string))
            (fun _ =>
          bind initializeDatabase (fun _ =>
          bind (tableExists table) (fun again =>
          if again then ret true
          else
            bind (say (Error ("Table " ++ table
                    ++ " still does not exist after initialization")%string))
              (fun _ =>
            ret false))))) (fun proceed =>
  if proceed then
    bind (select (build_query table query options) (single_of options))
      (fun r =>
    match r with
    | Fulfilled (Some rows) =>
        if single_of options then
          match rows with
          | [row] => ret (One row)
          | _ => bind (say (Error ("Error fetching from " ++ table
                                   ++ ":")%string)) (fun _ => ret Null)
          end
        else ret (Many rows)
    | _ => bind (say (Error ("Error fetching from " ++ table ++ ":")%string))
             (fun _ => ret Null)
    end)
  else ret Null)).

End Backend.

Arguments build_query {Val} _ _ _.
Arguments mkQuery {Val} _ _ _ _.
Arguments q_table {Val} _.
Arguments q_eq {Val} _.
Arguments q_order {Val} _.
Arguments q_limit {Val} _.
Arguments CallRpc {Val} _.
Arguments CallHead {Val} _.
Arguments CallSelect {Val} _ _.
Arguments mkEnv {S Val} _ _ _.
Arguments backend {S Val} _.
Arguments calls {S Val} _.
Arguments console {S Val} _.
Arguments Null {Row}.
Arguments One {Row} _.
Arguments Many {Row} _.

End Lib.

(* ================================================================== *)
(** ** The authentication context (contexts/AuthContext.tsx) *)
(* ================================================================== *)

(** The profile bookkeeping of [AuthProvider], on a provisioned database:
    the tables [profiles] and [rating_history] exist with the keys the
    schema code declares ([profiles.id] is the primary key,
    [rating_history.user_id] references it), so the statements of
    [initializeDatabase], all [IF NOT EXISTS] or [OR REPLACE], leave their
    rows alone whatever they answer. *)
Module Auth.

Record ProfileRow := mkProfileRow {
  id : string;
  username : string;
  email : option string;
  avatar_url : option string;
  rating : Z;
  created_at : Z;
  updated_at : option Z
}.

Record RatingRow := mkRatingRow {
  h_id : N;
  h_user_id : string;
  h_rating : Z;
  h_battle_id : option string;
  h_notes : option string;
  h_created_at : Z
}.

(** [User] of the identity provider, with the fields the context reads:
    [id], [email] and, in [user_metadata], [name], [full_name] and
    [avatar_url]. *)
Record AuthUser := mkAuthUser {
  uid : string;
  user_email : option string;
  meta_name : option string;
  meta_full_name : option string;
  meta_avatar_url : option string
}.

Record Session := mkSession { session_user : AuthUser }.

Record Db := mkDb {
  profile_rows : list ProfileRow;
  rating_rows : list RatingRow;
  rpc_outcome : Lib.Statement -> Lib.Settled bool
}.

(** The [useState] cells of the provider. *)
Record State := mkState {
  user : option AuthUser;
  profile : option ProfileRow;
  session : option Session;
  loading : bool;
  dbInitialized : bool
}.

Inductive Notice :=
| ToastError (msg : string)
| ToastSuccess (msg : string)
| ToastInfo (msg : string)
| Navigate (path : string).

Record World := mkWorld {
  env : Lib.Env Db unit;
  state : State;
  server_user : option AuthUser;                 (* auth.getUser() *)
  stored_session : Lib.Settled (option Session); (* auth.getSession() *)
  sign_out_error : bool;                         (* auth.signOut() *)
  clock : Z;
  notices : list Notice
}.

Definition db (w : World) : Db := Lib.backend (env w).

Definition App (A : Type) : Type := World -> A * World.

Definition ret {A} (a : A) : App A := fun w => (a, w).

Definition bind {A B} (c : App A) (k : A -> App B) : App B :=
  fun w => let (a, w') := c w in k a w'.

Declare Scope auth_scope.
Notation "x <- c1 ;; c2" := (bind c1 (fun x => c2))
  (at level 61, c1 at next level, right associativity) : auth_scope.
Notation "c1 ;; c2" := (bind c1 (fun _ => c2))
  (at level 61, right associativity) : auth_scope.
Local Open Scope auth_scope.

Definition exec {A} (c : App A) (w : World) : World := snd (c w).

Definition notify (n : Notice) : App unit :=
  fun w => (tt, mkWorld (env w) (state w) (server_user w) (stored_session w)
                  (sign_out_error w) (clock w) (notices w ++ [n])).

Definition getState : App State := fun w => (state w, w).

Definition modify (f : State -> State) : App unit :=
  fun w => (tt, mkWorld (env w) (f (state w)) (server_user w)
                  (stored_session w) (sign_out_error w) (clock w)
                  (notices w)).

Definition setUser (u : option AuthUser) : App unit :=
  modify (fun s => mkState u (profile s) (session s) (loading s)
                     (dbInitialized s)).

Definition setProfile (p : option ProfileRow) : App unit :=
  modify (fun s => mkState (user s) p (session s) (loading s)
                     (dbInitialized s)).

Definition setSession (x : option Session) : App unit :=
  modify (fun s => mkState (user s) (profile s) x (loading s)
                     (dbInitialized s)).

Definition setLoading (b : bool) : App unit :=
  modify (fun s => mkState (user s) (profile s) (session s) b
                     (dbInitialized s)).

Definition setDbInitialized (b : bool) : App unit :=
  modify (fun s => mkState (user s) (profile s) (session s) (loading s) b).

(** A request on the tables: it reads or rewrites the backend. *)
Definition on_db {A} (f : Db -> A * Db) : App A :=
  fun w => let (a, d) := f (db w) in
           (a, mkWorld (Lib.mkEnv d (Lib.calls (env w)) (Lib.console (env w)))
                 (state w) (server_user w) (stored_session w)
                 (sign_out_error w) (clock w) (notices w)).

(** [initializeDatabase] of the library, on this backend: each statement
    is answered as the backend decides and changes no row. *)
Definition initializeDatabase : App bool :=
  fun w => let (b, e) :=
             Lib.initializeDatabase Db unit
               (fun stmt d => (rpc_outcome d stmt, d)) (env w) in
           (b, mkWorld e (state w) (server_user w) (stored_session w)
                 (sign_out_error w) (clock w) (notices w)).

(** [.from('profiles').select('*').eq('id', userId).single()] *)
Definition select_profile (userId : string) (d : Db)
  : result ProfileRow * Db :=
  (select_single (fun r => String.eqb (id r) userId) (profile_rows d), d).

(** [.from('rating_history').select('*', { count: 'exact', head: true })
     .eq('user_id', userId)] *)
Definition count_ratings (userId : string) (d : Db) : nat * Db :=
  (List.length (filter (fun r => String.eqb (h_user_id r) userId)
                  (rating_rows d)), d).

(** [.from('profiles').insert(row).select().single()]; [id] is the
    primary key. *)
Definition insert_profile (row : ProfileRow) (d : Db)
  : result ProfileRow * Db :=
  if existsb (fun r => String.eqb (id r) (id row)) (profile_rows d)
  then (Err UniqueViolation, d)
  else (Ok row, mkDb (profile_rows d ++ [row]) (rating_rows d)
                  (rpc_outcome d)).

Definition fresh_rating_id (rs : list RatingRow) : N :=
  N.succ (fold_right N.max 0%N (map h_id rs)).

(** [.from('rating_history').insert({ user_id, rating, notes,
     created_at })]; [user_id] references [profiles(id)].  The context
    does not look at the answer. *)
Definition insert_rating (userId : string) (r : Z) (notes : string)
    (at_ : Z) (d : Db) : unit * Db :=
  if existsb (fun p => String.eqb (id p) userId) (profile_rows d)
  then (tt, mkDb (profile_rows d)
              (rating_rows d
               ++ [mkRatingRow (fresh_rating_id (rating_rows d)) userId r
                     None (Some notes) at_])
              (rpc_outcome d))
  else (tt, d).

(** [a || b] on optional strings. *)
Definition or_else (a b : option string) : option string :=
  if truthy a then a else b.

(** [name || full_name || 'Anonymous Coder'] *)
Definition username_of (u : AuthUser) : string :=
  match or_else (or_else (meta_name u) (meta_full_name u))
          (Some "Anonymous Coder") with
  | Some s => s
  | None => "Anonymous Coder"
  end.

(** [newProfile] of [createUserProfile], created at instant [now]. *)
Definition newProfile (u : AuthUser) (now : Z) : ProfileRow :=
  mkProfileRow (uid u) (username_of u) (user_email u)
    (or_else (meta_avatar_url u) None) 1000 now None.

(** [createUserProfile] *)
Definition createUserProfile (userId : string) : App unit :=
  fun w =>
  (match server_user w with
   | Some u =>
       let now := clock w in
       r <- on_db (insert_profile (newProfile u now)) ;;
       match r with
       | Err _ => notify (ToastError "Failed to create user profile")
       | Ok data =>
           setProfile (Some data) ;;
           on_db (insert_rating (uid u) 1000 "Initial rating" now)
       end
   | None => ret tt
   end) w.

(** [ensureRatingHistory] *)
Definition ensureRatingHistory (userId : string) : App unit :=
  count <- on_db (count_ratings userId) ;;
  match count with
  | O =>
      r <- on_db (select_profile userId) ;;
      match r with
      | Ok profileData =>
          on_db (insert_rating userId (rating profileData) "Initial rating"
                   (created_at profileData))
      | Err _ => ret tt
      end
  | S _ => ret tt
  end.

(** [fetchProfile].  [dbInitialized] is the value the closure holds: the
    state at the render that created it, not what a [setDbInitialized]
    since then has asked for. *)
Definition fetchProfile (dbInitialized : bool) (userId : string)
  : App unit :=
  (if negb dbInitialized
   then _ <- initializeDatabase ;; setDbInitialized true
   else ret tt) ;;
  r <- on_db (select_profile userId) ;;
  match r with
  | Err _ => createUserProfile userId
  | Ok data => setProfile (Some data) ;; ensureRatingHistory userId
  end.

(** The second half of the [try] block of [initApp]: the session is read
    ("regardless of database initialization") and the profile fetched; a
    throw lands in the [catch]. *)
Definition readSession (dbInitialized : bool) : App unit :=
  fun w =>
    match stored_session w with
    | Lib.Fulfilled sess =>
        (setSession sess ;;
         setUser (option_map session_user sess) ;;
         match sess with
         | Some x => fetchProfile dbInitialized (uid (session_user x))
         | None => ret tt
         end) w
    | Lib.Threw =>
        notify (ToastError "Something went wrong. Please try again later.") w
    end.

(** [initApp], the start of the provider's effect. *)
Definition initApp : App unit :=
  s0 <- getState ;;
  setLoading true ;;
  initialized <- initializeDatabase ;;
  setDbInitialized initialized ;;
  (if negb initialized
   then notify (ToastError
                  "Failed to initialize database. Please try again later.")
   else ret tt) ;;
  readSession (dbInitialized s0) ;;
  setLoading false.

(** The listener given to [onAuthStateChange]. *)
Definition onAuthStateChange (event : string) (sess : option Session)
  : App unit :=
  s0 <- getState ;;
  setSession sess ;;
  setUser (option_map session_user sess) ;;
  match (if String.eqb event "SIGNED_IN" then sess else None) with
  | Some x =>
      (if negb (dbInitialized s0)
       then initialized <- initializeDatabase ;; setDbInitialized initialized
       else ret tt) ;;
      fetchProfile (dbInitialized s0) (uid (session_user x)) ;;
      notify (ToastSuccess "Signed in successfully!") ;;
      notify (Navigate "/")
  | None =>
      if String.eqb event "SIGNED_OUT"
      then setProfile None ;; notify (ToastInfo "Signed out successfully")
      else ret tt
  end ;;
  setLoading false.

(** [signOut] *)
Definition signOut : App unit :=
  fun w =>
  (if sign_out_error w
   then notify (ToastError "Failed to sign out")
   else setUser None ;; setProfile None ;; setSession None ;;
        notify (Navigate "/")) w.

(** The environment moves the clock between two calls. *)
Definition at_time (t : Z) : App unit :=
  fun w => (tt, mkWorld (env w) (state w) (server_user w) (stored_session w)
                  (sign_out_error w) t (notices w)).

(** For stating properties: what [fetchProfile userId] does to the tables,
    with [su] the user the identity provider reports and [now] the
    instant of the call. *)
Definition fetch_db (userId : string) (su : option AuthUser) (now : Z)
    (d : Db) : Db :=
  match fst (select_profile userId d) with
  | Ok data =>
      match fst (count_ratings userId d) with
      | O => snd (insert_rating userId (rating data) "Initial rating"
                    (created_at data) d)
      | S _ => d
      end
  | Err _ =>
      match su with
      | Some u =>
          match insert_profile (newProfile u now) d with
          | (Ok _, d') => snd (insert_rating (uid u) 1000 "Initial rating"
                                 now d')
          | (Err _, _) => d
          end
      | None => d
      end
  end.

(** The primary key of [profiles]. *)
Definition profiles_keyed (d : Db) : Prop :=
  NoDup (map id (profile_rows d)).

End Auth.

(* ================================================================== *)
(** ** Example backends and users *)
(* ================================================================== *)

(** A backend without state that refuses every statement. *)
Definition refusing_exec_sql (stmt : Lib.Statement) (s : unit)
  : Lib.Settled bool * unit := (Lib.Threw, s).

(** The existence check answers with an error: no such table. *)
Definition head_missing (table : string) (s : unit) : Lib.Settled bool :=
  Lib.Fulfilled true.

(** The existence check answers without an error. *)
Definition head_found (table : string) (s : unit) : Lib.Settled bool :=
  Lib.Fulfilled false.

Definition one_row_select (q : Lib.Query string) (s : unit)
  : Lib.Settled (option (list nat)) := Lib.Fulfilled (Some [7%nat]).

Definition fresh_env : Lib.Env unit string := Lib.mkEnv tt [] [].

Definition carol : Auth.AuthUser :=
  Auth.mkAuthUser "C" (Some "carol@example.org") None (Some "Carol") None.

Definition empty_db : Auth.Db :=
  Auth.mkDb [] [] (fun _ => Lib.Fulfilled false).

(** The provider as mounted: nothing in the cells, [loading] set. *)
Definition auth_world (d : Auth.Db) (su : option Auth.AuthUser) (now : Z)
  : Auth.World :=
  Auth.mkWorld (Lib.mkEnv d [] []) (Auth.mkState None None None true false)
    su (Lib.Fulfilled None) false now [].

(* ================================================================== *)
(** ** Basic facts *)
(* ================================================================== *)

Ltac run := unfold exec, bind, ret, emit, request, modify_view, getView,
  Date_now, at_time in *; simpl in *.

Lemma trimStart_nil_iff (s : jsstring) :
  trimStart s = [] <-> forallb isWhiteSpace s = true.
Proof.
  induction s as [|c r IH]; simpl.
  - tauto.
  - destruct (isWhiteSpace c); simpl.
    + exact IH.
    + split; discriminate.
Qed.

Lemma forallb_trimStart (s : jsstring) :
  forallb isWhiteSpace (trimStart s) = forallb isWhiteSpace s.
Proof.
  induction s as [|c r IH]; simpl; [reflexivity|].
  destruct (isWhiteSpace c) eqn:E; simpl; [exact IH|].
  now rewrite E.
Qed.

Lemma forallb_rev {A} (f : A -> bool) (l : list A) :
  forallb f (rev l) = forallb f l.
Proof.
  induction l as [|a l IH]; simpl; [reflexivity|].
  rewrite forallb_app, IH; simpl.
  rewrite andb_true_r. apply andb_comm.
Qed.

(** A text trims to the empty string exactly when it is made of white
    space only (the empty text included). *)
Lemma trim_nil_iff (s : jsstring) :
  trim s = [] <-> forallb isWhiteSpace s = true.
Proof.
  unfold trim, trimEnd.
  rewrite <- (forallb_trimStart s), <- (forallb_rev _ (trimStart s)).
  rewrite <- trimStart_nil_iff.
  split; intro H.
  - apply (f_equal (@rev N)) in H. now rewrite rev_involutive in H.
  - now rewrite H.
Qed.

Lemma truthy_trim_false (s : jsstring) :
  trim s = [] -> truthy_jsstring (trim s) = false.
Proof. intros ->. reflexivity. Qed.

Lemma truthy_trim_true (s : jsstring) :
  trim s <> [] -> truthy_jsstring (trim s) = true.
Proof. destruct (trim s); [congruence|reflexivity]. Qed.

Lemma Math_ceil_div_spec (a b : Z) :
  0 < b -> b * (Math_ceil_div a b - 1) < a <= b * Math_ceil_div a b.
Proof.
  intros Hb. unfold Math_ceil_div.
  pose proof (Z.div_mod (- a) b ltac:(lia)) as E.
  pose proof (Z.mod_pos_bound (- a) b Hb) as M.
  nia.
Qed.

(* ================================================================== *)
(** ** Submitting *)
(* ================================================================== *)

(** C8. An empty or white-space-only text is refused by the submit handler
    before anything is sent: when the editor text trims to the empty
    string, the handler only raises its error toast; it sends no request
    (no insert in particular), and the store and the view are unchanged. *)
Theorem handleSubmitSolution_empty (p : Props) (w : World) :
  trim (code (view w)) = [] ->
  let w' := exec (handleSubmitSolution p) w in
  store w' = store w /\
  view w' = view w /\
  log w' = log w ++ [ToastError "Your solution cannot be empty"] /\
  filter is_request (log w') = filter is_request (log w).
Proof.
  intros H. unfold handleSubmitSolution. run.
  rewrite (truthy_trim_false _ H). simpl.
  repeat split.
  rewrite filter_app. simpl. now rewrite app_nil_r.
Qed.

Lemma filter_existsb_false {A} (f : A -> bool) (l : list A) :
  existsb f l = false -> filter f l = [].
Proof.
  induction l as [|a l IH]; simpl; [reflexivity|].
  destruct (f a); simpl; [discriminate|exact IH].
Qed.

Lemma existsb_filter_cons {A} (f : A -> bool) (l : list A) a r :
  filter f l = a :: r -> existsb f l = true.
Proof.
  intros H. destruct (existsb f l) eqn:E; [reflexivity|].
  rewrite (filter_existsb_false _ _ E) in H. discriminate.
Qed.

Lemma same_pair_refl (b u : string) (i : N) (c : jsstring) (t : Z) :
  same_pair b u (mkSolution i b u c t) = true.
Proof. unfold same_pair; simpl. now rewrite !String.eqb_refl. Qed.

(** The store accepts a row for a pair that has none. *)
Lemma insert_solution_fresh (b u : string) (c : jsstring) (t : Z) (st : Store) :
  existsb (same_pair b u) (solutions st) = false ->
  insert_solution b u c t st =
    (Ok (mkSolution (fresh_id (solutions st)) b u c t),
     with_solutions st
       (solutions st ++ [mkSolution (fresh_id (solutions st)) b u c t])).
Proof.
  intros H. unfold insert_solution. rewrite H, andb_false_r. reflexivity.
Qed.

(** With the key on the pair declared, the store refuses a second row and
    stays as it was. *)
Lemma insert_solution_duplicate (b u : string) (c : jsstring) (t : Z)
    (st : Store) :
  solutions_unique st = true ->
  existsb (same_pair b u) (solutions st) = true ->
  insert_solution b u c t st = (Err UniqueViolation, st).
Proof.
  intros U H. unfold insert_solution. rewrite U, H. reflexivity.
Qed.

(** Without that key the same request is accepted and the pair gets a
    second row: nothing on the client side refuses it. *)
Lemma insert_solution_no_key (b u : string) (c : jsstring) (t : Z)
    (st : Store) :
  solutions_unique st = false ->
  exists row,
    insert_solution b u c t st =
      (Ok row, with_solutions st (solutions st ++ [row])) /\
    sol_code row = c.
Proof.
  intros U. unfold insert_solution. rewrite U. simpl.
  eexists; split; reflexivity.
Qed.

Lemma filter_length_le1_app {A} (f : A -> bool) (l : list A) (a : A) :
  filter f l = [] ->
  (List.length (filter f (l ++ [a])) <= 1)%nat.
Proof.
  intros H. rewrite filter_app, H. simpl. destruct (f a); simpl; lia.
Qed.


(** C6. With the store keeping one Solution per (battle, user): a first
    submit by a participant without a Solution creates exactly one row,
    holding the submitted text; any later submit for the same pair, from
    any view sharing the store and with any text, is answered with an
    error by the store's key on the pair, and the store (the first row and
    its text included) is left exactly as it was. *)
Theorem submit_at_most_once (b u : string) (w : World) :
  let p := mkProps (Some b) (Some (mkUser u)) in
  truthy_string b = true ->
  truthy_string u = true ->
  solutions_unique (store w) = true ->
  existsb (same_pair b u) (solutions (store w)) = false ->
  trim (code (view w)) <> [] ->
  let w1 := exec (handleSubmitSolution p) w in
  exists row,
    solutions (store w1) = solutions (store w) ++ [row] /\
    sol_code row = code (view w) /\
    filter (same_pair b u) (solutions (store w1)) = [row] /\
    forall w2,
      store w2 = store w1 ->
      trim (code (view w2)) <> [] ->
      let w3 := exec (handleSubmitSolution p) w2 in
      fst (submitSolutionMutation p w2) = Err UniqueViolation /\
      store w3 = store w1 /\
      log w3 = log w2 ++
        [Sent (InsertSolution b u (code (view w2)) (clock w2));
         ToastError "Failed to submit solution. Please try again."] /\
      filter (same_pair b u) (solutions (store w3)) = [row].
Proof.
  intros p Hb Hu U Hnone Hc w1.
  assert (F1 : filter (same_pair b u) (solutions (store w1)) =
               [mkSolution (fresh_id (solutions (store w))) b u
                  (code (view w)) (clock w)]).
  { subst w1 p. unfold handleSubmitSolution, submitSolutionMutation,
      mutateAsync. run.
    rewrite (truthy_trim_true _ Hc). simpl. rewrite Hb, Hu. simpl.
    rewrite (insert_solution_fresh _ _ _ _ _ Hnone). simpl.
    rewrite filter_app, (filter_existsb_false _ _ Hnone). simpl.
    now rewrite same_pair_refl. }
  exists (mkSolution (fresh_id (solutions (store w))) b u
            (code (view w)) (clock w)).
  split; [|split; [reflexivity|split; [exact F1|]]].
  - subst w1 p. unfold handleSubmitSolution, submitSolutionMutation,
      mutateAsync. run.
    rewrite (truthy_trim_true _ Hc). simpl. rewrite Hb, Hu. simpl.
    rewrite (insert_solution_fresh _ _ _ _ _ Hnone). reflexivity.
  - intros w2 Hst Hc2 w3.
    assert (U1 : solutions_unique (store w2) = true).
    { rewrite Hst. subst w1 p. unfold handleSubmitSolution,
        submitSolutionMutation, mutateAsync. run.
      rewrite (truthy_trim_true _ Hc). simpl. rewrite Hb, Hu. simpl.
      rewrite (insert_solution_fresh _ _ _ _ _ Hnone). simpl. exact U. }
    assert (E2 : existsb (same_pair b u) (solutions (store w2)) = true).
    { rewrite Hst. eapply existsb_filter_cons. exact F1. }
    subst w3 p. unfold handleSubmitSolution, submitSolutionMutation,
      mutateAsync. run.
    rewrite (truthy_trim_true _ Hc2). simpl. rewrite Hb, Hu. simpl.
    rewrite (insert_solution_duplicate _ _ _ _ _ U1 E2). simpl.
    repeat split; try assumption.
    + now rewrite <- app_assoc.
    + rewrite Hst. exact F1.
Qed.

(** C9. Round trip: when the submit mutation succeeds with editor text
    [s], the Solution query for the same battle and user, run on the
    resulting store, answers the row just created, whose code is exactly
    [s] (the text is stored as typed, untrimmed). *)
Theorem submit_fetch_roundtrip (p : Props) (w w1 : World) (row : Solution) :
  solutions_unique (store w) = true ->
  submitSolutionMutation p w = (Ok row, w1) ->
  sol_code row = code (view w) /\
  fst (solutionQuery p w1) = Ok (Some row) /\
  option_map sol_code (query_data (fst (solutionQuery p w1)))
    = Some (code (view w)).
Proof.
  intros U H.
  unfold submitSolutionMutation, mutateAsync, solutionQuery in *.
  destruct (battleId p) as [b|]; [|run; discriminate].
  destruct (user_id_opt (user p)) as [u|]; [|run; discriminate].
  destruct (truthy_string b && truthy_string u)%bool; [|run; discriminate].
  run. unfold insert_solution in H. rewrite U in H. simpl in H.
  destruct (existsb (same_pair b u) (solutions (store w))) eqn:E;
    simpl in H; [discriminate|].
  injection H as <- <-. simpl.
  unfold fetchSolution, select_single. simpl.
  rewrite filter_app, (filter_existsb_false _ _ E). simpl.
  rewrite same_pair_refl. simpl. auto.
Qed.

(* ================================================================== *)
(** ** Joining and ending *)
(* ================================================================== *)

Lemma filter_and_split {A} (f g : A -> bool) (l : list A) :
  filter (fun x => (f x && g x)%bool) l = filter g (filter f l).
Proof.
  induction l as [|a l IH]; simpl; [reflexivity|].
  destruct (f a); simpl; [|exact IH].
  destruct (g a); simpl; now rewrite IH.
Qed.

Lemma filter_map_patch {A} (f g : A -> bool) (patch : A -> A) (l : list A) :
  (forall x, f x = true -> g (patch x) = true) ->
  (forall x, f x = false -> g x = false) ->
  (forall x, f x = true -> g x = true) ->
  filter g (map (fun x => if f x then patch x else x) l)
  = map patch (filter f l).
Proof.
  intros H1 H2 H3. induction l as [|a l IH]; simpl; [reflexivity|].
  destruct (f a) eqn:E.
  - rewrite (H1 _ E). simpl. now rewrite IH.
  - rewrite (H2 _ E). exact IH.
Qed.

(** The end request looks at the identifier only: whatever the status of
    the battle, it is answered with the patched row. *)
Lemma updateBattleEnd_any_status (st : Store) (bid winnerId : string)
    (now : Z) (battle : Battle) :
  the_battle st bid battle ->
  fst (updateBattleEnd bid winnerId now st) = Ok (end_patch winnerId now battle)
  /\ the_battle (snd (updateBattleEnd bid winnerId now st)) bid
       (end_patch winnerId now battle).
Proof.
  unfold the_battle, updateBattleEnd, update_single. intros H.
  rewrite H. simpl. split; [reflexivity|].
  rewrite (filter_map_patch (fun x => String.eqb (b_id x) bid)
             (fun x => String.eqb (b_id x) bid)); auto.
  now rewrite H.
Qed.

(** The join request is answered only for a battle that is still
    [waiting]. *)
Lemma updateBattleJoin_waiting (st : Store) (bid u : string) (now : Z)
    (battle : Battle) :
  the_battle st bid battle ->
  status battle = "waiting"%string ->
  fst (updateBattleJoin bid u now st) = Ok (join_patch u now battle)
  /\ the_battle (snd (updateBattleJoin bid u now st)) bid
       (join_patch u now battle).
Proof.
  unfold the_battle, updateBattleJoin, update_single. intros H S.
  rewrite filter_and_split, H. simpl. rewrite S. simpl.
  split; [reflexivity|].
  induction (battles st) as [|a l IH]; simpl in *; [discriminate|].
  destruct (String.eqb (b_id a) bid) eqn:E; simpl in *.
  - injection H as -> H. rewrite S. simpl. rewrite E. f_equal.
    clear - H. induction l as [|a l IH]; simpl in *; [reflexivity|].
    destruct (String.eqb (b_id a) bid) eqn:E; simpl in *; [discriminate|].
    rewrite E. auto.
  - rewrite E. auto.
Qed.

Lemma updateBattleJoin_not_waiting (st : Store) (bid u : string) (now : Z)
    (battle : Battle) :
  the_battle st bid battle ->
  status battle <> "waiting"%string ->
  updateBattleJoin bid u now st = (Err PGRST116, st).
Proof.
  unfold the_battle, updateBattleJoin, update_single. intros H S.
  rewrite filter_and_split, H. simpl.
  destruct (String.eqb (status battle) "waiting") eqn:E.
  - apply String.eqb_eq in E. contradiction.
  - now destruct st.
Qed.

(** C2. Two clients join the same waiting battle; the store serves their
    requests one after the other.  The first one served succeeds and sets
    defender, status [in_progress] and the start instant; the second finds
    no row with that identifier still [waiting], is answered with an error
    (surfaced as a failure toast) and changes nothing: the battle keeps the
    first defender. *)
Theorem join_race (bid uA uB : string) (battle : Battle) (wA wB : World) :
  truthy_string bid = true ->
  truthy_string uA = true ->
  truthy_string uB = true ->
  the_battle (store wA) bid battle ->
  status battle = "waiting"%string ->
  let pA := mkProps (Some bid) (Some (mkUser uA)) in
  let pB := mkProps (Some bid) (Some (mkUser uB)) in
  let wA' := exec (joinBattleMutation pA) wA in
  let wB0 := sharing_store wB wA' in
  let wB' := exec (joinBattleMutation pB) wB0 in
  let joined := join_patch uA (clock wA) battle in
  fst (joinBattleMutation pA wA) = Ok joined /\
  fst (joinBattleMutation pB wB0) = Err PGRST116 /\
  store wB' = store wA' /\
  the_battle (store wB') bid joined /\
  defender_id joined = Some uA /\
  status joined = "in_progress"%string /\
  start_time joined = Some (clock wA) /\
  log wB' = log wB ++
    [Sent (UpdateJoin bid uB (clock wB));
     ToastError "Failed to join battle. Please try again."].
Proof.
  intros Hb HA HB Hrow Hst pA pB wA' wB0 wB' joined.
  destruct (updateBattleJoin_waiting _ bid uA (clock wA) _ Hrow Hst)
    as [R1 T1].
  assert (EA : joinBattleMutation pA wA =
               (Ok joined,
                mkWorld (snd (updateBattleJoin bid uA (clock wA) (store wA)))
                  (view wA) (clock wA)
                  (log wA ++ [Sent (UpdateJoin bid uA (clock wA));
                              ToastSuccess "Joined battle successfully!";
                              Invalidate "battle"]))).
  { unfold joinBattleMutation, mutateAsync, pA. run. rewrite Hb, HA. simpl.
    destruct (updateBattleJoin bid uA (clock wA) (store wA)) as [r st'].
    simpl in R1. subst r. simpl. now rewrite <- !app_assoc. }
  assert (SA : store wA' =
               snd (updateBattleJoin bid uA (clock wA) (store wA))).
  { unfold wA', exec. now rewrite EA. }
  assert (NW : status joined <> "waiting"%string) by (simpl; discriminate).
  assert (TB : the_battle (store wB0) bid joined).
  { unfold wB0, sharing_store. simpl. now rewrite SA. }
  pose proof (updateBattleJoin_not_waiting _ bid uB (clock wB) _ TB NW) as RB.
  assert (EB : joinBattleMutation pB wB0 =
               (Err PGRST116,
                mkWorld (store wB0) (view wB) (clock wB)
                  (log wB ++ [Sent (UpdateJoin bid uB (clock wB));
                     ToastError "Failed to join battle. Please try again."]))).
  { unfold joinBattleMutation, mutateAsync, pB. run. rewrite Hb, HB. simpl.
    rewrite RB. simpl. now rewrite <- !app_assoc. }
  rewrite EA. unfold wB', exec. rewrite EB. simpl.
  repeat split; auto.
Qed.

(** C1, evaluated: the end mutation sent for a battle that is already
    completed (winner C) is answered with success and rewrites the row:
    the winner becomes D and the end instant moves. *)
Theorem endBattleMutation_overwrites_completed :
  let w := world_of (store_of battle_done []) [] 700000 in
  winner_id battle_done = Some "C"%string /\
  status battle_done = "completed"%string /\
  fst (endBattleMutation props_D "D" w)
    = Ok (end_patch "D" 700000 battle_done) /\
  battles (store (exec (endBattleMutation props_D "D") w))
    = [end_patch "D" 700000 battle_done] /\
  winner_id (end_patch "D" 700000 battle_done) = Some "D"%string /\
  end_time (end_patch "D" 700000 battle_done) = Some 700000 /\
  battles (store (exec (endBattleMutation props_D "D") w))
    <> battles (store w).
Proof.
  cbv zeta. repeat split; try reflexivity.
  vm_compute. discriminate.
Qed.

(* ================================================================== *)
(** ** Effects of a render *)
(* ================================================================== *)

Lemma exec_seq {A B} (c1 : Client A) (c2 : Client B) (w : World) :
  exec (c1 ;; c2) w = exec c2 (exec c1 w).
Proof. unfold exec, bind. now destruct (c1 w). Qed.

(** Resolving the participants touches the [winner] and [loser] cells
    only, and never writes to the store. *)
Lemma setParticipants_frame (battle : Battle) (w : World) :
  let w' := exec (setParticipants battle) w in
  store w' = store w /\ clock w' = clock w /\
  isBattleActive (view w') = isBattleActive (view w) /\
  timeRemaining (view w') = timeRemaining (view w) /\
  code (view w') = code (view w).
Proof.
  unfold setParticipants. run.
  destruct (winner_id battle) as [wid|]; simpl; auto.
  destruct (truthy_string wid); simpl; auto.
  unfold fetchProfile.
  destruct (select_single _ (profiles (store w))); simpl; auto.
  destruct (loserId battle wid) as [l|]; simpl; auto.
  destruct (truthy_string l); simpl; auto.
  destruct (select_single _ (profiles (store w))); simpl; auto.
Qed.

(** After the battle effect, [isBattleActive] says whether the fetched
    battle is [in_progress]. *)
Lemma battleEffect_active (battle : Battle) (w : World) :
  isBattleActive (view (exec (battleEffect (Some battle)) w))
  = String.eqb (status battle) "in_progress".
Proof.
  unfold battleEffect.
  rewrite !exec_seq.
  destruct (String.eqb (status battle) "completed") eqn:E.
  - destruct (setParticipants_frame battle
      (exec (if truthy_string (language battle)
             then setLanguage (language battle) else ret tt)
        (exec (setIsBattleOver true)
          (exec (setIsBattleActive
                   (String.eqb (status battle) "in_progress"))
            (exec (setIsBattleReady
                     (String.eqb (status battle) "in_progress" || true))
               w))))) as (_ & _ & H & _).
    etransitivity; [exact H|].
    destruct (truthy_string (language battle)); reflexivity.
  - destruct (truthy_string (language battle)); reflexivity.
Qed.

(** For a battle in progress the battle effect only sets flags. *)
Lemma battleEffect_in_progress (battle : Battle) (w : World) :
  status battle = "in_progress" ->
  let w' := exec (battleEffect (Some battle)) w in
  store w' = store w /\ clock w' = clock w /\ log w' = log w /\
  isBattleActive (view w') = true.
Proof.
  intros S. unfold battleEffect. rewrite S. simpl.
  destruct (truthy_string (language battle)); run; auto.
Qed.

(** C7. Derived role predicates, read after the battle effect has run for
    the fetched battle: [hasJoined] holds exactly for the creator and the
    defender; [canJoin = not hasJoined and status = waiting];
    [canSubmit = hasJoined and status = in_progress and no solution];
    [canEnd = hasJoined and status = in_progress and a solution].  A user
    who is neither creator nor defender of a waiting battle can join, and
    can neither submit nor end. *)
Theorem role_predicates (u : option User) (battle : Battle)
    (solution : option Solution) (w : World) :
  let v := view (exec (battleEffect (Some battle)) w) in
  let hasSolution := match solution with Some _ => true | None => false end in
  (hasJoined u battle = true <-> is_participant u battle) /\
  canJoin u battle
    = negb (hasJoined u battle) && String.eqb (status battle) "waiting" /\
  canSubmit u battle v solution
    = hasJoined u battle && String.eqb (status battle) "in_progress"
      && negb hasSolution /\
  canEnd u battle v solution
    = hasJoined u battle && String.eqb (status battle) "in_progress"
      && hasSolution /\
  (~ is_participant u battle -> status battle = "waiting" ->
   canJoin u battle = true /\ canSubmit u battle v solution = false /\
   canEnd u battle v solution = false).
Proof.
  intros v hasSolution.
  assert (HJ : hasJoined u battle = true <-> is_participant u battle).
  { unfold hasJoined, isCreator, isDefender, is_participant, strict_eq.
    destruct u as [x|]; simpl.
    - rewrite orb_true_iff. split.
      + intros [H|H]; exists x; split; auto.
        * left. now apply String.eqb_eq.
        * destruct (defender_id battle) as [d|]; [|discriminate].
          apply String.eqb_eq in H. right. now subst.
      + intros (y & [= <-] & [H|H]).
        * left. now apply String.eqb_eq.
        * right. rewrite H. apply String.eqb_refl.
    - split; [discriminate|]. now intros (y & [=] & _). }
  assert (HA : isBattleActive v = String.eqb (status battle) "in_progress")
    by apply battleEffect_active.
  unfold canJoin, canSubmit, canEnd. rewrite HA.
  split; [exact HJ|].
  split; [reflexivity|].
  split; [now destruct solution|].
  split; [now destruct solution|].
  intros NP SW.
  destruct (hasJoined u battle) eqn:E.
  - exfalso. apply NP. now apply HJ.
  - rewrite SW. simpl. auto.
Qed.

(* ================================================================== *)
(** ** Countdown and timeout resolution *)
(* ================================================================== *)

Lemma end_requests_app (l1 l2 : list Event) :
  end_requests (l1 ++ l2) = end_requests l1 ++ end_requests l2.
Proof. apply filter_app. Qed.

(** The end mutation never touches the view or the clock. *)
Lemma endBattleMutation_frame (p : Props) (winnerId : string) (w : World) :
  let w' := exec (endBattleMutation p winnerId) w in
  view w' = view w /\ clock w' = clock w.
Proof.
  unfold endBattleMutation, mutateAsync. run.
  destruct (battleId p) as [b|]; simpl; auto.
  destruct (truthy_string b); simpl; auto.
  destruct (updateBattleEnd b winnerId (clock w) (store w)) as [[r|e] st];
    simpl; auto.
Qed.

(** Called with a battle identifier, the end mutation sends exactly one
    end request, whatever the store answers. *)
Lemma endBattleMutation_sends (p : Props) (bid winnerId : string) (w : World) :
  battleId p = Some bid ->
  truthy_string bid = true ->
  end_requests (log (exec (endBattleMutation p winnerId) w))
  = end_requests (log w) ++ [Sent (UpdateEnd bid winnerId (clock w))].
Proof.
  intros Hp Hb. unfold endBattleMutation, mutateAsync. run.
  rewrite Hp, Hb. simpl.
  destruct (updateBattleEnd bid winnerId (clock w) (store w)) as [[r|e] st];
    simpl; rewrite !end_requests_app; simpl; now rewrite !app_nil_r.
Qed.

Lemma determineWinner_frame (p : Props) (battle : Battle) (u : User)
    (solution : option Solution) (w : World) :
  let w' := exec (determineWinner p battle u solution) w in
  view w' = view w /\ clock w' = clock w.
Proof.
  unfold determineWinner.
  destruct solution as [s|].
  - rewrite exec_seq. apply endBattleMutation_frame.
  - destruct (if String.eqb (creator_id battle) (user_id u)
              then defender_id battle else Some (creator_id battle))
      as [o|]; [|now run].
    destruct (truthy_string o); [|now run].
    rewrite exec_seq. apply endBattleMutation_frame.
Qed.

(** The callback before the deadline: the countdown is refreshed, nothing
    else happens. *)
Lemma calculateTimeRemaining_running (p : Props) (battle : Battle)
    (solution : option Solution) (w : World) (T : Z) :
  start_time battle = Some T ->
  0 < remaining battle T (clock w) ->
  calculateTimeRemaining p battle solution w
  = setTimeRemaining
      (Some (Math_ceil_div (remaining battle T (clock w)) 1000)) w.
Proof.
  intros HT Hpos. unfold calculateTimeRemaining, remaining in *. rewrite HT.
  apply Z.ltb_lt in Hpos. unfold bind, Date_now. now rewrite Hpos.
Qed.

(** The callback at or after the deadline. *)
Lemma calculateTimeRemaining_expired (p : Props) (battle : Battle)
    (solution : option Solution) (w : World) (T : Z) :
  start_time battle = Some T ->
  remaining battle T (clock w) <= 0 ->
  calculateTimeRemaining p battle solution w
  = (setTimeRemaining (Some 0) ;;
     match user p with
     | Some u =>
         if negb (truthy (winner_id battle))
         then determineWinner p battle u solution else ret tt
     | None => ret tt
     end) w.
Proof.
  intros HT Hneg. unfold calculateTimeRemaining, remaining in *. rewrite HT.
  apply Z.ltb_ge in Hneg. unfold bind at 1, Date_now. now rewrite Hneg.
Qed.

(** What one call of the countdown callback leaves in [timeRemaining]. *)
Lemma calculateTimeRemaining_value (p : Props) (battle : Battle)
    (solution : option Solution) (w : World) (T : Z) :
  start_time battle = Some T ->
  timeRemaining (view (exec (calculateTimeRemaining p battle solution) w))
  = Some (if 0 <? remaining battle T (clock w)
          then Math_ceil_div (remaining battle T (clock w)) 1000 else 0).
Proof.
  intros HT.
  destruct (0 <? remaining battle T (clock w)) eqn:E.
  - apply Z.ltb_lt in E. unfold exec.
    now rewrite (calculateTimeRemaining_running _ _ _ _ T HT E).
  - apply Z.ltb_ge in E. unfold exec at 1.
    rewrite (calculateTimeRemaining_expired _ _ _ _ T HT E).
    fold (exec (setTimeRemaining (Some 0) ;;
                match user p with
                | Some u =>
                    if negb (truthy (winner_id battle))
                    then determineWinner p battle u solution else ret tt
                | None => ret tt
                end) w).
    rewrite exec_seq.
    destruct (user p) as [u|]; [|reflexivity].
    destruct (negb (truthy (winner_id battle))); [|reflexivity].
    destruct (determineWinner_frame p battle u solution
                (exec (setTimeRemaining (Some 0)) w)) as [V _].
    now rewrite V.
Qed.

Lemma countdownEffect_runs (p : Props) (battle : Battle)
    (solution : option Solution) (w : World) (T : Z) :
  duration battle <> 0 ->
  start_time battle = Some T ->
  isBattleActive (view w) = true ->
  countdownEffect p (Some battle) solution w
  = calculateTimeRemaining p battle solution w.
Proof.
  intros HD HT HA. unfold countdownEffect, countdown_enabled. run.
  rewrite HT, HA. apply Z.eqb_neq in HD. now rewrite HD.
Qed.

(** A battle whose duration is [0] never starts the countdown: the guard
    of the effect reads the duration for truthiness. *)
Lemma countdownEffect_zero_duration (p : Props) (battle : Battle)
    (solution : option Solution) (w : World) :
  duration battle = 0 ->
  countdownEffect p (Some battle) solution w = (tt, w).
Proof.
  intros HD. unfold countdownEffect, countdown_enabled. run.
  now rewrite HD.
Qed.

(** The two effects of a render of a battle in progress amount to one
    call of the countdown callback, on the same store, clock and log. *)
Lemma effects_in_progress (p : Props) (battle : Battle)
    (solution : option Solution) (w : World) (T : Z) :
  status battle = "in_progress" ->
  duration battle <> 0 ->
  start_time battle = Some T ->
  exists w0,
    exec (effects p (Some battle) solution) w
    = exec (calculateTimeRemaining p battle solution) w0 /\
    store w0 = store w /\ clock w0 = clock w /\ log w0 = log w.
Proof.
  intros S HD HT. unfold effects. rewrite exec_seq.
  destruct (battleEffect_in_progress battle w S) as (H1 & H2 & H3 & H4).
  exists (exec (battleEffect (Some battle)) w).
  split; [|auto].
  unfold exec at 1. now rewrite (countdownEffect_runs _ _ _ _ T).
Qed.

(** C5. Countdown arithmetic.  For a battle in progress started at [T]
    and lasting [D] minutes (a non-zero duration, as the countdown requires
    to run at all), a render at instant [now] exposes in [timeRemaining]
    the remaining milliseconds [T + D*60*1000 - now] rounded up to whole
    seconds while they are positive, and [0] otherwise; 5000 ms before the
    deadline it shows [5], and 1 ms after it shows [0]. *)
Theorem countdown_arithmetic (p : Props) (battle : Battle)
    (solution : option Solution) (w : World) (T : Z) :
  status battle = "in_progress" ->
  duration battle <> 0 ->
  start_time battle = Some T ->
  let w' := exec (effects p (Some battle) solution) w in
  let rem := T + duration battle * 60 * 1000 - clock w in
  (0 < rem ->
   exists s, timeRemaining (view w') = Some s /\
             1000 * (s - 1) < rem <= 1000 * s) /\
  (rem <= 0 -> timeRemaining (view w') = Some 0) /\
  (clock w = T + duration battle * 60 * 1000 - 5000 ->
   timeRemaining (view w') = Some 5) /\
  (clock w = T + duration battle * 60 * 1000 + 1 ->
   timeRemaining (view w') = Some 0).
Proof.
  intros S HD HT w' rem.
  destruct (effects_in_progress p battle solution w T S HD HT)
    as (w0 & E & _ & C & _).
  pose proof (calculateTimeRemaining_value p battle solution w0 T HT) as V.
  unfold remaining in V. rewrite C in V. fold rem in V.
  unfold w'. rewrite E, V.
  repeat split.
  - intros Hpos. apply Z.ltb_lt in Hpos. rewrite Hpos.
    eexists; split; [reflexivity|].
    apply Math_ceil_div_spec. lia.
  - intros Hneg. assert (F : (0 <? rem) = false) by (apply Z.ltb_ge; lia).
    now rewrite F.
  - intros Hc. assert (R : rem = 5000) by (unfold rem; lia).
    rewrite R. reflexivity.
  - intros Hc. assert (R : rem = -1) by (unfold rem; lia).
    rewrite R. reflexivity.
Qed.

(** The winner [determineWinner] claims, and the single end request it
    sends. *)
Lemma determineWinner_sends (p : Props) (battle : Battle) (u : User)
    (solution : option Solution) (w : World) (bid o : string) :
  battleId p = Some bid ->
  truthy_string bid = true ->
  match solution with
  | Some _ => o = user_id u
  | None =>
      (if String.eqb (creator_id battle) (user_id u)
       then defender_id battle else Some (creator_id battle)) = Some o
      /\ truthy_string o = true
  end ->
  end_requests (log (exec (determineWinner p battle u solution) w))
  = end_requests (log w) ++ [Sent (UpdateEnd bid o (clock w))].
Proof.
  intros Hp Hb Ho. unfold determineWinner.
  destruct solution as [s|].
  - subst o. rewrite exec_seq. unfold exec at 1, ret. simpl.
    now apply endBattleMutation_sends.
  - destruct Ho as [-> Ht]. rewrite Ht.
    rewrite exec_seq. unfold exec at 1, ret. simpl.
    now apply endBattleMutation_sends.
Qed.

(** One call of the callback at or after the deadline, by a logged-in
    viewer whose snapshot of the battle shows no winner. *)
Lemma calculateTimeRemaining_attempt (p : Props) (battle : Battle) (u : User)
    (solution : option Solution) (w : World) (bid o : string) (T : Z) :
  battleId p = Some bid ->
  truthy_string bid = true ->
  user p = Some u ->
  start_time battle = Some T ->
  truthy (winner_id battle) = false ->
  remaining battle T (clock w) <= 0 ->
  match solution with
  | Some _ => o = user_id u
  | None =>
      (if String.eqb (creator_id battle) (user_id u)
       then defender_id battle else Some (creator_id battle)) = Some o
      /\ truthy_string o = true
  end ->
  let w' := exec (calculateTimeRemaining p battle solution) w in
  end_requests (log w')
  = end_requests (log w) ++ [Sent (UpdateEnd bid o (clock w))]
  /\ timeRemaining (view w') = Some 0.
Proof.
  intros Hp Hb Hu HT HW Hneg Ho w'. split.
  - unfold w', exec at 1.
    rewrite (calculateTimeRemaining_expired _ _ _ _ T HT Hneg).
    rewrite Hu, HW. simpl negb. cbv iota.
    fold (exec (setTimeRemaining (Some 0) ;;
                determineWinner p battle u solution) w).
    rewrite exec_seq.
    now rewrite (determineWinner_sends p battle u solution _ bid o Hp Hb Ho).
  - unfold w'. rewrite (calculateTimeRemaining_value _ _ _ _ T HT).
    apply Z.ltb_ge in Hneg. now rewrite Hneg.
Qed.

(** C3. Timeout resolution.  A render of a battle in progress (creator and
    defender distinct, no winner recorded) by one of its participants, at or
    after the deadline, sets the countdown to [0] and sends exactly one end
    request: with the viewer's opponent as winner when the viewer has no
    Solution, with the viewer as winner when the viewer has one.  In
    particular on the defender's client, with no Solution, the claimed
    winner is the creator.  A tick of the interval at that instant sends
    the same request as the render does. *)
Theorem timeout_winner (p : Props) (battle : Battle) (u : User)
    (solution : option Solution) (w : World) (bid d : string) (T : Z) :
  battleId p = Some bid ->
  truthy_string bid = true ->
  user p = Some u ->
  status battle = "in_progress" ->
  duration battle <> 0 ->
  start_time battle = Some T ->
  truthy (winner_id battle) = false ->
  truthy_string (creator_id battle) = true ->
  defender_id battle = Some d ->
  truthy_string d = true ->
  creator_id battle <> d ->
  user_id u = creator_id battle \/ user_id u = d ->
  T + duration battle * 60 * 1000 - clock w <= 0 ->
  let w' := exec (effects p (Some battle) solution) w in
  timeRemaining (view w') = Some 0 /\
  match solution with
  | None =>
      exists o, is_opponent battle (user_id u) o /\
        end_requests (log w')
        = end_requests (log w) ++ [Sent (UpdateEnd bid o (clock w))]
  | Some _ =>
      end_requests (log w')
      = end_requests (log w) ++ [Sent (UpdateEnd bid (user_id u) (clock w))]
  end /\
  (user_id u = d -> solution = None ->
   end_requests (log w')
   = end_requests (log w)
     ++ [Sent (UpdateEnd bid (creator_id battle) (clock w))]) /\
  end_requests
    (log (exec (intervalTicks p battle solution [clock w]) w))
  = end_requests (log w').
Proof.
  intros Hp Hb Hu S HD HT HW HC Hd Htd Hne Hpart Hneg w'.
  destruct (effects_in_progress p battle solution w T S HD HT)
    as (w0 & E & _ & C & L).
  assert (Hneg0 : remaining battle T (clock w0) <= 0)
    by (unfold remaining; rewrite C; exact Hneg).
  set (o := match solution with
            | Some _ => user_id u
            | None => if String.eqb (creator_id battle) (user_id u)
                      then d else creator_id battle
            end).
  assert (Ho : match solution with
               | Some _ => o = user_id u
               | None =>
                   (if String.eqb (creator_id battle) (user_id u)
                    then defender_id battle else Some (creator_id battle))
                   = Some o /\ truthy_string o = true
               end).
  { unfold o. destruct solution; [reflexivity|].
    destruct (String.eqb (creator_id battle) (user_id u)); auto. }
  destruct (calculateTimeRemaining_attempt p battle u solution w0 bid o T
              Hp Hb Hu HT HW Hneg0 Ho) as [R V].
  rewrite C, L in R. unfold w'. rewrite E.
  split; [exact V|]. split; [|split].
  - destruct solution as [s|]; [exact R|].
    exists o. split; [|exact R].
    unfold is_opponent, o.
    destruct (String.eqb (creator_id battle) (user_id u)) eqn:Q.
    + apply String.eqb_eq in Q. split; [now right|]. congruence.
    + apply String.eqb_neq in Q. split; [now left|]. congruence.
  - intros Hud ->. unfold o in R.
    assert (Q : String.eqb (creator_id battle) (user_id u) = false)
      by (apply String.eqb_neq; congruence).
    now rewrite Q in R.
  - simpl. rewrite !exec_seq.
    set (w1 := exec (at_time (clock w)) w).
    assert (Hneg1 : remaining battle T (clock w1) <= 0) by exact Hneg.
    destruct (calculateTimeRemaining_attempt p battle u solution w1 bid o T
                Hp Hb Hu HT HW Hneg1 Ho) as [R1 _].
    unfold exec at 1, ret. simpl snd.
    rewrite R1, R. reflexivity.
Qed.

(** C4, as the code has it.  Nothing makes the timeout attempt happen
    once: every call of the countdown callback at or after the deadline, by
    a logged-in viewer whose snapshot of the battle still shows no winner
    (creator and defender present), sends one more end request.  Over the
    ticks of a session under one snapshot there are as many end requests
    as ticks past the deadline. *)
Theorem timeout_attempt_every_tick (p : Props) (battle : Battle) (u : User)
    (solution : option Solution) (bid d : string) (T : Z) (times : list Z)
    (w : World) :
  battleId p = Some bid ->
  truthy_string bid = true ->
  user p = Some u ->
  start_time battle = Some T ->
  truthy (winner_id battle) = false ->
  truthy_string (creator_id battle) = true ->
  defender_id battle = Some d ->
  truthy_string d = true ->
  Forall (fun t => T + duration battle * 60 * 1000 - t <= 0) times ->
  List.length
    (end_requests (log (exec (intervalTicks p battle solution times) w)))
  = (List.length (end_requests (log w)) + List.length times)%nat.
Proof.
  intros Hp Hb Hu HT HW HC Hd Htd Hall. revert w.
  induction Hall as [|t ts Ht Hts IH]; intros w; simpl.
  - unfold exec, ret. simpl. lia.
  - rewrite !exec_seq. rewrite IH.
    set (w1 := exec (at_time t) w).
    assert (C1 : clock w1 = t) by reflexivity.
    assert (L1 : log w1 = log w) by reflexivity.
    set (o := match solution with
              | Some _ => user_id u
              | None => if String.eqb (creator_id battle) (user_id u)
                        then d else creator_id battle
              end).
    assert (Ho : match solution with
                 | Some _ => o = user_id u
                 | None =>
                     (if String.eqb (creator_id battle) (user_id u)
                      then defender_id battle else Some (creator_id battle))
                     = Some o /\ truthy_string o = true
                 end).
    { unfold o. destruct solution; [reflexivity|].
      destruct (String.eqb (creator_id battle) (user_id u)); auto. }
    assert (Hneg : remaining battle T (clock w1) <= 0)
      by (unfold remaining; rewrite C1; exact Ht).
    destruct (calculateTimeRemaining_attempt p battle u solution w1 bid o T
                Hp Hb Hu HT HW Hneg Ho) as [R _].
    rewrite R, L1, length_app. simpl. lia.
Qed.

(** C4, as stated, fails: D's view of the running battle, mounted one
    second before the deadline, fires its interval 1 ms and 1001 ms after
    the deadline while still holding the same snapshot of the battle (the
    refetch prompted by the first attempt has not come back); both ticks
    send an end request. *)
Lemma timeout_attempt_not_once :
  let w0 := world_of (store_of battle_running []) [] 599000 in
  let w' := exec (effects props_D (Some battle_running) None ;;
                  intervalTicks props_D battle_running None [600001; 601001])
              w0 in
  end_requests (log w')
  = [Sent (UpdateEnd "b1" "C" 600001); Sent (UpdateEnd "b1" "C" 601001)]
  /\ List.length (end_requests (log w')) <> 1%nat.
Proof.
  vm_compute. split; [reflexivity|discriminate].
Qed.

(* ================================================================== *)
(** ** Winner and loser of a completed battle *)
(* ================================================================== *)

Lemma battleEffect_completed (battle : Battle) (w : World) :
  status battle = "completed" ->
  exists w0,
    exec (battleEffect (Some battle)) w = exec (setParticipants battle) w0 /\
    store w0 = store w /\ log w0 = log w /\
    winner (view w0) = winner (view w) /\ loser (view w0) = loser (view w).
Proof.
  intros S. unfold battleEffect. rewrite S. simpl.
  rewrite !exec_seq.
  eexists; split; [reflexivity|].
  destruct (truthy_string (language battle)); run; auto.
Qed.

(** C10. For a completed battle with a recorded winner, the loser is
    looked up under the identifier of the other participant: the defender
    when the winner is the creator, the creator otherwise.  Once the
    winner's profile is found, the loser shown is the profile stored under
    that identifier; when the identifier is absent (no defender) no loser
    is looked up and the [loser] cell is left as it was.  The [loser] cell
    never receives anyone else. *)
Theorem loser_is_other_participant (battle : Battle) (w : World)
    (wid : string) :
  status battle = "completed" ->
  winner_id battle = Some wid ->
  truthy_string wid = true ->
  let w' := exec (battleEffect (Some battle)) w in
  (wid = creator_id battle -> loserId battle wid = defender_id battle) /\
  (wid <> creator_id battle ->
   loserId battle wid = Some (creator_id battle)) /\
  (forall wp, fst (fetchProfile wid (store w)) = Ok wp ->
     winner (view w') = Some (participant_of wp) /\
     (forall l lp,
        loserId battle wid = Some l -> truthy_string l = true ->
        fst (fetchProfile l (store w)) = Ok lp ->
        loser (view w') = Some (participant_of lp)) /\
     (loserId battle wid = None ->
      loser (view w') = loser (view w) /\
      filter is_request (log w')
      = filter is_request (log w) ++ [Sent (SelectProfile wid)])) /\
  (loser (view w') = loser (view w) \/
   exists l lp, loserId battle wid = Some l /\
     fst (fetchProfile l (store w)) = Ok lp /\
     loser (view w') = Some (participant_of lp)).
Proof.
  intros S HW Ht w'.
  destruct (battleEffect_completed battle w S) as (w0 & E & St & L & Wi & Lo).
  unfold w'. rewrite E. clear E w'.
  split; [|split].
  - intros ->. unfold loserId. now rewrite String.eqb_refl.
  - intros N. unfold loserId.
    destruct (String.eqb (creator_id battle) wid) eqn:Q; [|reflexivity].
    apply String.eqb_eq in Q. congruence.
  - rewrite <- St, <- L, <- Lo.
    unfold setParticipants. rewrite HW, Ht. run.
    unfold fetchProfile. simpl.
    destruct (select_single (fun p => String.eqb (prof_id p) wid)
                (profiles (store w0))) as [wp|e] eqn:F1; simpl.
    + split.
      * intros wp' [= <-].
        destruct (loserId battle wid) as [l|] eqn:LI; simpl.
        -- destruct (truthy_string l) eqn:Tl; simpl.
           ++ destruct (select_single (fun p => String.eqb (prof_id p) l)
                          (profiles (store w0))) as [lp|e] eqn:F2; simpl.
              ** split; [reflexivity|]. split; [|discriminate].
                 intros l' lp' [= <-] _. rewrite F2. now intros [= <-].
              ** split; [reflexivity|]. split; [|discriminate].
                 intros l' lp' [= <-] _. rewrite F2. discriminate.
           ++ split; [reflexivity|]. split; [|discriminate].
              intros l' lp' [= <-]. congruence.
        -- split; [reflexivity|]. split; [discriminate|].
           intros _. split; [reflexivity|].
           rewrite filter_app. reflexivity.
      * destruct (loserId battle wid) as [l|] eqn:LI; simpl; auto.
        destruct (truthy_string l) eqn:Tl; simpl; auto.
        destruct (select_single (fun p => String.eqb (prof_id p) l)
                    (profiles (store w0))) as [lp|e] eqn:F2; simpl; auto.
        right. exists l, lp. rewrite F2. auto.
    + split; [discriminate|]. now left.
Qed.

(* ================================================================== *)
(** ** The theorems at work on the small store *)
(* ================================================================== *)

(** A text of a space, a tab, a line feed and a no-break space is refused
    without a request. *)
Lemma handleSubmitSolution_empty_witness :
  let w := world_of (store_of battle_running []) [32; 9; 10; 160]%N 1000 in
  trim (code (view w)) = [] /\
  store (exec (handleSubmitSolution props_D) w) = store w /\
  log (exec (handleSubmitSolution props_D) w)
  = [ToastError "Your solution cannot be empty"].
Proof.
  intro w. split; [reflexivity|].
  destruct (handleSubmitSolution_empty props_D w eq_refl) as (A & _ & C & _).
  split; [exact A|exact C].
Defined.

(** D submits, then tries to submit another text 100 s later. *)
Lemma submit_at_most_once_witness :
  let w := world_of (store_of battle_running []) (code_units "return 42;")
             300000 in
  let w1 := exec (handleSubmitSolution props_D) w in
  let w2 := world_of (store w1) (code_units "return 43;") 400000 in
  let w3 := exec (handleSubmitSolution props_D) w2 in
  map sol_code (solutions (store w1)) = [code_units "return 42;"] /\
  store w3 = store w1 /\
  map sol_code (solutions (store w3)) = [code_units "return 42;"].
Proof.
  intros w w1 w2 w3.
  destruct (submit_at_most_once "b1" "D" w eq_refl eq_refl eq_refl eq_refl
              ltac:(vm_compute; discriminate))
    as (row & A & B & C & D).
  destruct (D w2 eq_refl ltac:(vm_compute; discriminate))
    as (_ & S3 & _ & _).
  split; [reflexivity|]. split; [exact S3|reflexivity].
Defined.

Lemma submit_fetch_roundtrip_witness :
  let w := world_of (store_of battle_running []) (code_units "return 42;")
             300000 in
  fst (solutionQuery props_D (exec (submitSolutionMutation props_D) w))
  = Ok (Some solution_of_D).
Proof.
  intro w.
  refine (proj1 (proj2 (submit_fetch_roundtrip props_D w
            (exec (submitSolutionMutation props_D) w) solution_of_D
            eq_refl _))).
  vm_compute. reflexivity.
Defined.

(** D and E both try to join C's waiting battle; D's request is served
    first. *)
Lemma join_race_witness :
  let wD := world_of (store_of battle_waiting []) [] 1000 in
  let wE := world_of (store_of battle_waiting []) [] 1001 in
  let pE := mkProps (Some "b1") (Some (mkUser "E")) in
  let wD' := exec (joinBattleMutation props_D) wD in
  fst (joinBattleMutation props_D wD) = Ok (join_patch "D" 1000 battle_waiting)
  /\ fst (joinBattleMutation pE (sharing_store wE wD')) = Err PGRST116
  /\ battles (store (exec (joinBattleMutation pE) (sharing_store wE wD')))
     = [join_patch "D" 1000 battle_waiting].
Proof.
  intros wD wE pE wD'.
  destruct (join_race "b1" "D" "E" battle_waiting wD wE
              eq_refl eq_refl eq_refl eq_refl eq_refl)
    as (A & B & _ & T & _).
  split; [exact A|]. split; [exact B|].
  reflexivity.
Defined.

(** Five seconds before the deadline of the ten-minute battle. *)
Lemma countdown_arithmetic_witness :
  let w := world_of (store_of battle_running []) [] 595000 in
  timeRemaining (view (exec (effects props_D (Some battle_running) None) w))
  = Some 5.
Proof.
  intro w.
  destruct (countdown_arithmetic props_D battle_running None w 0
              eq_refl ltac:(discriminate) eq_refl) as (_ & _ & A & _).
  apply A. reflexivity.
Defined.

(** Creator C, defender D, ten minutes from instant 0; D never submits and
    D's client renders at 601 s: the claimed winner is C. *)
Lemma timeout_winner_witness :
  let w := world_of (store_of battle_running []) [] 601000 in
  end_requests
    (log (exec (effects props_D (Some battle_running) None) w))
  = [Sent (UpdateEnd "b1" "C" 601000)].
Proof.
  intro w.
  destruct (timeout_winner props_D battle_running (mkUser "D") None w
              "b1" "D" 0 eq_refl eq_refl eq_refl eq_refl
              ltac:(discriminate) eq_refl eq_refl eq_refl eq_refl eq_refl
              ltac:(discriminate) (or_intror eq_refl)
              ltac:(vm_compute; discriminate))
    as (_ & _ & A & _).
  exact (A eq_refl eq_refl).
Defined.

Lemma timeout_attempt_every_tick_witness :
  let w := world_of (store_of battle_running []) [] 599000 in
  List.length
    (end_requests
       (log (exec (intervalTicks props_D battle_running None
                     [600001; 601001; 602001]) w)))
  = 3%nat.
Proof.
  intro w.
  refine (timeout_attempt_every_tick props_D battle_running (mkUser "D") None
            "b1" "D" 0 [600001; 601001; 602001] w
            eq_refl eq_refl eq_refl eq_refl eq_refl eq_refl eq_refl eq_refl _).
  repeat constructor; vm_compute; discriminate.
Defined.

(** The battle C won: the loser shown is D. *)
Lemma loser_is_other_participant_witness :
  let w := world_of (store_of battle_done []) [] 700000 in
  let w' := exec (battleEffect (Some battle_done)) w in
  winner (view w') = Some (participant_of profile_C) /\
  loser (view w') = Some (participant_of profile_D).
Proof.
  intros w w'.
  destruct (loser_is_other_participant battle_done w "C"
              eq_refl eq_refl eq_refl) as (_ & _ & A & _).
  destruct (A profile_C eq_refl) as (W & L & _).
  split; [exact W|].
  exact (L "D" profile_D eq_refl eq_refl eq_refl).
Defined.

(* ================================================================== *)
(** ** The store under arbitrary requests *)
(* ================================================================== *)

Lemma sent_app (l1 l2 : list Event) : sent (l1 ++ l2) = sent l1 ++ sent l2.
Proof. apply flat_map_app. Qed.

Lemma serve_all_app (rs1 rs2 : list Request) (st : Store) :
  serve_all (rs1 ++ rs2) st = serve_all rs2 (serve_all rs1 st).
Proof. apply fold_left_app. Qed.

Lemma by_requests_ret {A} (a : A) : by_requests (ret a).
Proof. intros w. exists []. simpl. now rewrite app_nil_r. Qed.

Lemma by_requests_bind {A B} (c : Client A) (k : A -> Client B) :
  by_requests c -> (forall a, by_requests (k a)) -> by_requests (bind c k).
Proof.
  intros Hc Hk w. unfold bind.
  destruct (Hc w) as (rs1 & L1 & S1).
  destruct (c w) as [a w1]. simpl in *.
  destruct (Hk a w1) as (rs2 & L2 & S2).
  exists (rs1 ++ rs2). rewrite L2, L1, S2, S1.
  now rewrite app_assoc, serve_all_app.
Qed.

Lemma by_requests_emit (e : Event) :
  is_request e = false -> by_requests (emit e).
Proof.
  intros He w. exists []. unfold emit. simpl.
  rewrite sent_app. destruct e; try discriminate; simpl; auto.
Qed.

Lemma by_requests_modify_view (f : View -> View) :
  by_requests (modify_view f).
Proof. intros w. exists []. simpl. now rewrite app_nil_r. Qed.

Lemma by_requests_getView : by_requests getView.
Proof. intros w. exists []. simpl. now rewrite app_nil_r. Qed.

Lemma by_requests_Date_now : by_requests Date_now.
Proof. intros w. exists []. simpl. now rewrite app_nil_r. Qed.

Lemma by_requests_at_time (t : Z) : by_requests (at_time t).
Proof. intros w. exists []. simpl. now rewrite app_nil_r. Qed.

Lemma by_requests_request {A} (r : Request)
    (f : Store -> result A * Store) :
  (forall st, snd (f st) = serve st r) -> by_requests (request r f).
Proof.
  intros Hf w. exists [r]. unfold request.
  specialize (Hf (store w)). destruct (f (store w)) as [res st'].
  simpl in *. rewrite sent_app. simpl. now subst.
Qed.

Ltac by_req :=
  repeat first
    [ apply by_requests_ret
    | apply by_requests_modify_view
    | apply by_requests_getView
    | apply by_requests_Date_now
    | apply by_requests_at_time
    | apply by_requests_emit; reflexivity
    | apply by_requests_request; intros; reflexivity
    | apply by_requests_bind; [|intros ?]
    | match goal with
      | |- by_requests (match ?x with _ => _ end) => destruct x
      end ].

Lemma by_requests_endBattleMutation (p : Props) (winnerId : string) :
  by_requests (endBattleMutation p winnerId).
Proof. unfold endBattleMutation, mutateAsync. by_req. Qed.

Lemma by_requests_calculateTimeRemaining (p : Props) (battle : Battle)
    (solution : option Solution) :
  by_requests (calculateTimeRemaining p battle solution).
Proof.
  unfold calculateTimeRemaining, determineWinner, setTimeRemaining.
  pose proof (by_requests_endBattleMutation p) as HE.
  by_req; apply HE.
Qed.

Lemma by_requests_setParticipants (battle : Battle) :
  by_requests (setParticipants battle).
Proof. unfold setParticipants, setWinner, setLoser. by_req. Qed.

(** Whatever runs in an arena view, in whatever state, changes the store
    only through the requests it logs: the store afterwards is the store
    before with those requests served in order. *)
Theorem actions_by_requests (p : Props) (a : Action) :
  by_requests (perform p a).
Proof.
  pose proof (by_requests_endBattleMutation p) as HE.
  pose proof (by_requests_calculateTimeRemaining p) as HC.
  pose proof by_requests_setParticipants as HP.
  destruct a as [| |w|v|battle solution|battle solution now]; simpl.
  - unfold handleJoinBattle, joinBattleMutation, mutateAsync. by_req.
  - unfold handleSubmitSolution, submitSolutionMutation, mutateAsync,
      setIsSubmitting. by_req.
  - unfold handleEndBattle. by_req; apply HE.
  - unfold editorOnChange, setCode. by_req.
  - unfold effects, battleEffect, countdownEffect, solutionEffect,
      setIsBattleReady, setIsBattleActive, setIsBattleOver, setLanguage,
      setCode.
    by_req; first [apply HC | apply HP].
  - by_req; apply HC.
Qed.

Lemma update_single_Forall2 {A} (R : A -> A -> Prop) (f : A -> bool)
    (patch : A -> A) (rows : list A) :
  (forall x, R x x) ->
  (forall x, f x = true -> R x (patch x)) ->
  Forall2 R rows (snd (update_single f patch rows)).
Proof.
  intros Hrefl Hpatch. unfold update_single.
  assert (I : Forall2 R rows rows)
    by (induction rows; constructor; auto).
  assert (G : Forall2 R rows (map (fun x => if f x then patch x else x) rows)).
  { clear I. induction rows as [|a l IH]; simpl; constructor; auto.
    destruct (f a) eqn:E; auto. }
  destruct (filter f rows) as [|r [|r' l]]; simpl; auto.
Qed.

Lemma update_single_Forall {A} (P : A -> Prop) (f : A -> bool)
    (patch : A -> A) (rows : list A) :
  (forall x, f x = true -> P (patch x)) ->
  Forall P rows ->
  Forall P (snd (update_single f patch rows)).
Proof.
  intros Hpatch H. unfold update_single.
  assert (G : Forall P (map (fun x => if f x then patch x else x) rows)).
  { induction H as [|a l Ha Hl IH]; simpl; constructor; auto.
    destruct (f a) eqn:E; auto. }
  destruct (filter f rows) as [|r [|r' l]]; simpl; auto.
Qed.

Lemma evolves_refl (b : Battle) : evolves b b.
Proof. unfold evolves. repeat split; auto. Qed.

Lemma status_rank_waiting (s : string) :
  status_rank s = 0%nat <-> s = "waiting".
Proof.
  unfold status_rank.
  destruct (String.eqb s "completed") eqn:E1.
  - apply String.eqb_eq in E1. subst. split; discriminate.
  - destruct (String.eqb s "waiting") eqn:E2.
    + apply String.eqb_eq in E2. tauto.
    + apply String.eqb_neq in E2. split; [discriminate|contradiction].
Qed.

Lemma status_rank_completed (s : string) :
  status_rank s = 2%nat <-> s = "completed".
Proof.
  unfold status_rank.
  destruct (String.eqb s "completed") eqn:E1.
  - apply String.eqb_eq in E1. tauto.
  - apply String.eqb_neq in E1.
    destruct (String.eqb s "waiting"); split; try discriminate;
      contradiction.
Qed.

Lemma status_rank_le2 (s : string) : (status_rank s <= 2)%nat.
Proof.
  unfold status_rank.
  destruct (String.eqb s "completed"); [lia|].
  destruct (String.eqb s "waiting"); lia.
Qed.

Lemma evolves_trans (a b c : Battle) :
  evolves a b -> evolves b c -> evolves a c.
Proof.
  intros (I1 & C1 & P1 & D1 & R1 & F1) (I2 & C2 & P2 & D2 & R2 & F2).
  unfold evolves.
  split; [congruence|]. split; [congruence|]. split; [congruence|].
  split; [congruence|]. split; [lia|].
  intros N. destruct (F1 N) as [E1 E1'].
  assert (N' : status b <> "waiting").
  { intros Hb. apply status_rank_waiting in Hb.
    assert (H : status_rank (status a) = 0%nat) by lia.
    now apply status_rank_waiting in H. }
  destruct (F2 N') as [E2 E2']. split; congruence.
Qed.

Lemma Forall2_evolves_trans (l1 l2 l3 : list Battle) :
  Forall2 evolves l1 l2 -> Forall2 evolves l2 l3 -> Forall2 evolves l1 l3.
Proof.
  intros H. revert l3. induction H as [|a b l1 l2 Hab H IH]; intros l3 H3.
  - inversion H3. constructor.
  - inversion H3 as [|b' c l2' l3' Hbc H3']; subst. constructor.
    + eapply evolves_trans; eauto.
    + auto.
Qed.

Lemma Forall2_evolves_refl (l : list Battle) : Forall2 evolves l l.
Proof. induction l; constructor; auto using evolves_refl. Qed.

Lemma serve_evolves (st : Store) (r : Request) :
  Forall2 evolves (battles st) (battles (serve st r)).
Proof.
  destruct r as [i|b u|b u c t|b u t|b w t]; simpl;
    try apply Forall2_evolves_refl.
  - unfold insert_solution.
    destruct (solutions_unique st && _)%bool; simpl;
      apply Forall2_evolves_refl.
  - unfold updateBattleJoin.
    pose proof (update_single_Forall2 evolves
      (fun x => (String.eqb (b_id x) b && String.eqb (status x) "waiting")%bool)
      (join_patch u t) (battles st) evolves_refl) as H.
    destruct (update_single _ _ (battles st)) as [res bs]. simpl in *.
    apply H. intros x Hx. apply andb_true_iff in Hx as [_ Hw].
    apply String.eqb_eq in Hw. unfold evolves. simpl.
    split; [reflexivity|]. split; [reflexivity|]. split; [reflexivity|].
    split; [reflexivity|]. split.
    + rewrite Hw. unfold status_rank. simpl. lia.
    + intros N. contradiction.
  - unfold updateBattleEnd.
    pose proof (update_single_Forall2 evolves
      (fun x => String.eqb (b_id x) b)
      (end_patch w t) (battles st) evolves_refl) as H.
    destruct (update_single _ _ (battles st)) as [res bs]. simpl in *.
    apply H. intros x Hx. unfold evolves. simpl.
    split; [reflexivity|]. split; [reflexivity|]. split; [reflexivity|].
    split; [reflexivity|]. split; [|auto].
    change (status_rank "completed") with 2%nat. apply status_rank_le2.
Qed.

Lemma serve_all_evolves (rs : list Request) (st : Store) :
  Forall2 evolves (battles st) (battles (serve_all rs st)).
Proof.
  revert st. induction rs as [|r rs IH]; intros st; simpl.
  - apply Forall2_evolves_refl.
  - eapply Forall2_evolves_trans; [apply serve_evolves|apply IH].
Qed.

(** Under any sequence of requests of arena views (joins, ends, submits,
    reads, by anyone and in any order) the [battles] table keeps its rows
    in place, and each row keeps its identifier, creator, problem and
    duration; its status never moves back ([waiting], then started, then
    [completed]); and once it has left [waiting] its defender and start
    instant are fixed. *)
Theorem requests_keep_lifecycle (rs : list Request) (st : Store) :
  Forall2 evolves (battles st) (battles (serve_all rs st)) /\
  List.length (battles (serve_all rs st)) = List.length (battles st).
Proof.
  pose proof (serve_all_evolves rs st) as H. split; [exact H|].
  symmetry. eapply Forall2_length; eauto.
Qed.

Lemma Forall2_filter {A} (R : A -> A -> Prop) (f : A -> bool)
    (l l' : list A) :
  (forall x y, R x y -> f y = f x) ->
  Forall2 R l l' -> Forall2 R (filter f l) (filter f l').
Proof.
  intros Hf H. induction H as [|x y l l' Hxy H IH]; simpl; [constructor|].
  rewrite (Hf _ _ Hxy). destruct (f x); auto.
Qed.

(** A completed battle stays completed: after any sequence of requests of
    arena views the row is still there, still [completed], with the same
    creator, defender and start instant.  No join can reopen it. *)
Theorem completed_is_terminal (rs : list Request) (st : Store)
    (bid : string) (battle : Battle) :
  the_battle st bid battle ->
  status battle = "completed" ->
  exists battle',
    the_battle (serve_all rs st) bid battle' /\
    status battle' = "completed" /\
    creator_id battle' = creator_id battle /\
    defender_id battle' = defender_id battle /\
    start_time battle' = start_time battle.
Proof.
  intros Hrow Hst. unfold the_battle in *.
  pose proof (Forall2_filter evolves (fun x => String.eqb (b_id x) bid)
                _ _ ltac:(intros x y (I & _); now rewrite I)
                (serve_all_evolves rs st)) as H.
  rewrite Hrow in H.
  inversion H as [|x b' l l' Hev Hnil E1 E2]; subst.
  inversion Hnil; subst.
  exists b'. split; [reflexivity|].
  destruct Hev as (_ & C & _ & _ & R & F).
  assert (N : status battle <> "waiting") by (rewrite Hst; discriminate).
  destruct (F N) as [Fd Fs].
  repeat split; auto.
  apply status_rank_completed.
  pose proof (status_rank_le2 (status b')).
  apply status_rank_completed in Hst. lia.
Qed.

Lemma serve_rows_complete (st : Store) (r : Request) :
  Forall row_complete (battles st) ->
  Forall row_complete (battles (serve st r)).
Proof.
  intros H. destruct r as [i|b u|b u c t|b u t|b w t]; simpl; auto.
  - unfold insert_solution.
    destruct (solutions_unique st && _)%bool; simpl; auto.
  - unfold updateBattleJoin.
    pose proof (update_single_Forall row_complete
      (fun x => (String.eqb (b_id x) b && String.eqb (status x) "waiting")%bool)
      (join_patch u t) (battles st)) as G.
    destruct (update_single _ _ (battles st)) as [res bs]. simpl in *.
    apply G; auto. intros x _. unfold row_complete. simpl.
    split; [intros _; split; discriminate|discriminate].
  - unfold updateBattleEnd.
    pose proof (update_single_Forall row_complete
      (fun x => String.eqb (b_id x) b)
      (end_patch w t) (battles st)) as G.
    destruct (update_single _ _ (battles st)) as [res bs]. simpl in *.
    apply G; auto. intros x _. unfold row_complete. simpl.
    split; [discriminate|intros _; split; discriminate].
Qed.

(** The invariants of the data model survive every request: if each
    battle in progress has a defender and a start instant, and each
    completed battle a winner and an end instant, the same holds after
    any sequence of requests of arena views. *)
Theorem requests_keep_rows_complete (rs : list Request) (st : Store) :
  Forall row_complete (battles st) ->
  Forall row_complete (battles (serve_all rs st)).
Proof.
  revert st. induction rs as [|r rs IH]; intros st H; simpl; auto.
  apply IH. now apply serve_rows_complete.
Qed.

Lemma serve_solutions (st : Store) (r : Request) :
  profiles (serve st r) = profiles st /\
  solutions_unique (serve st r) = solutions_unique st /\
  (solutions (serve st r) = solutions st \/
   exists b u c t i,
     r = InsertSolution b u c t /\
     solutions (serve st r) = solutions st ++ [mkSolution i b u c t]).
Proof.
  destruct r as [i|b u|b u c t|b u t|b w t]; simpl; auto.
  - unfold insert_solution.
    destruct (solutions_unique st && _)%bool; simpl; auto.
    repeat split; auto. right. now exists b, u, c, t, (fresh_id (solutions st)).
  - unfold updateBattleJoin.
    destruct (update_single _ _ (battles st)) as [res bs]. simpl. auto.
  - unfold updateBattleEnd.
    destruct (update_single _ _ (battles st)) as [res bs]. simpl. auto.
Qed.

(** Stored Solutions are never changed, removed or reordered, and the
    [profiles] table is never written: after any sequence of requests of
    arena views the [solutions] table is the old one followed by new rows,
    each holding the battle, user, text and instant of a submit request of
    the sequence. *)
Theorem solutions_append_only (rs : list Request) (st : Store) :
  profiles (serve_all rs st) = profiles st /\
  exists ext,
    solutions (serve_all rs st) = solutions st ++ ext /\
    Forall (fun s => In (InsertSolution (sol_battle_id s) (sol_user_id s)
                           (sol_code s) (sol_submitted_at s)) rs) ext.
Proof.
  revert st. induction rs as [|r rs IH]; intros st; simpl.
  - split; [reflexivity|]. exists []. now rewrite app_nil_r.
  - destruct (IH (serve st r)) as (P & ext & S & F).
    destruct (serve_solutions st r) as (P1 & _ & [S1|S1]).
    + split; [congruence|]. exists ext. rewrite S, S1. split; auto.
      eapply Forall_impl; [|exact F]. simpl. auto.
    + destruct S1 as (b & u & c & t & i & -> & S1).
      split; [congruence|].
      exists (mkSolution i b u c t :: ext). rewrite S, S1, <- app_assoc.
      split; [reflexivity|]. constructor; simpl; auto.
      eapply Forall_impl; [|exact F]. simpl. auto.
Qed.


(* ================================================================== *)
(** ** Handlers at their edges *)
(* ================================================================== *)

(** An anonymous visitor who presses Join is told to log in and sent to
    the login page; nothing is sent to the store. *)
Theorem handleJoinBattle_anonymous (p : Props) (w : World) :
  user p = None ->
  let w' := exec (handleJoinBattle p) w in
  store w' = store w /\ view w' = view w /\
  log w' = log w ++ [ToastError "You must be logged in to join a battle";
                     Navigate "/login"].
Proof.
  intros H. unfold handleJoinBattle. rewrite H. run.
  repeat split. now rewrite <- app_assoc.
Qed.

(** Without a route identifier, or without a user identifier for join and
    submit, the mutations fail before any request: the store is untouched,
    nothing is sent, and only the failure toast is raised. *)
Theorem mutations_need_ids (p : Props) (winnerId : string) (w : World) :
  (truthy (battleId p) = false ->
   fst (endBattleMutation p winnerId w) = Err (Thrown "Battle ID is required")
   /\ store (exec (endBattleMutation p winnerId) w) = store w
   /\ log (exec (endBattleMutation p winnerId) w)
      = log w ++ [ToastError "Failed to end battle. Please try again."]) /\
  (truthy (battleId p) = false \/ truthy (user_id_opt (user p)) = false ->
   (fst (joinBattleMutation p w)
      = Err (Thrown "Battle ID and User ID are required")
    /\ store (exec (joinBattleMutation p) w) = store w
    /\ log (exec (joinBattleMutation p) w)
       = log w ++ [ToastError "Failed to join battle. Please try again."])
   /\
   (fst (submitSolutionMutation p w)
      = Err (Thrown "Battle ID and User ID are required")
    /\ store (exec (submitSolutionMutation p) w) = store w
    /\ log (exec (submitSolutionMutation p) w)
       = log w ++ [ToastError "Failed to submit solution. Please try again."]
    /\ isSubmitting (view (exec (submitSolutionMutation p) w)) = false)).
Proof.
  split.
  - intros H. unfold endBattleMutation, mutateAsync, truthy in *.
    destruct (battleId p) as [b|]; [rewrite H|]; run; auto.
  - intros H.
    assert (G : match battleId p, user_id_opt (user p) with
                | Some b, Some u => (truthy_string b && truthy_string u)%bool
                | _, _ => false
                end = false).
    { unfold truthy in H.
      destruct (battleId p) as [b|]; auto.
      destruct (user_id_opt (user p)) as [u|]; auto.
      destruct H as [H|H]; rewrite H; auto using andb_false_r. }
    unfold joinBattleMutation, submitSolutionMutation, mutateAsync.
    destruct (battleId p) as [b|];
      [destruct (user_id_opt (user p)) as [u|]; [rewrite G|]|];
      run; auto 10.
Qed.

Lemma update_single_no_row {A} (f : A -> bool) (patch : A -> A)
    (rows : list A) :
  filter f rows = [] ->
  update_single f patch rows = (Err PGRST116, rows).
Proof. unfold update_single. now intros ->. Qed.

Lemma with_battles_same (st : Store) : with_battles st (battles st) = st.
Proof. now destruct st. Qed.

(** A battle that has left [waiting] cannot be joined: the handler's
    request is answered with an error, the store stays as it was, and the
    user sees the failure toast. *)
Theorem handleJoinBattle_not_waiting (bid u : string) (battle : Battle)
    (w : World) :
  truthy_string bid = true ->
  truthy_string u = true ->
  the_battle (store w) bid battle ->
  status battle <> "waiting" ->
  let p := mkProps (Some bid) (Some (mkUser u)) in
  let w' := exec (handleJoinBattle p) w in
  store w' = store w /\
  log w' = log w ++ [Sent (UpdateJoin bid u (clock w));
                     ToastError "Failed to join battle. Please try again."].
Proof.
  intros Hb Hu Hrow Hst p w'. unfold w', p, handleJoinBattle,
    joinBattleMutation, mutateAsync. run. rewrite Hb, Hu. simpl.
  rewrite (updateBattleJoin_not_waiting _ _ _ _ _ Hrow Hst). simpl.
  split; [reflexivity|]. now rewrite <- app_assoc.
Qed.

(** A join or an end that names an identifier with no row in [battles]
    changes nothing and is reported as a failure. *)
Theorem requests_for_unknown_battle (bid u winnerId : string) (w : World) :
  truthy_string bid = true ->
  truthy_string u = true ->
  filter (fun x => String.eqb (b_id x) bid) (battles (store w)) = [] ->
  let p := mkProps (Some bid) (Some (mkUser u)) in
  (store (exec (handleJoinBattle p) w) = store w /\
   log (exec (handleJoinBattle p) w)
   = log w ++ [Sent (UpdateJoin bid u (clock w));
               ToastError "Failed to join battle. Please try again."]) /\
  (store (exec (handleEndBattle p winnerId) w) = store w /\
   log (exec (handleEndBattle p winnerId) w)
   = log w ++ [Sent (UpdateEnd bid winnerId (clock w));
               ToastError "Failed to end battle. Please try again."]).
Proof.
  intros Hb Hu Hnone p. split.
  - unfold p, handleJoinBattle, joinBattleMutation, mutateAsync,
      updateBattleJoin. run. rewrite Hb, Hu. simpl.
    rewrite update_single_no_row
      by (rewrite filter_and_split, Hnone; reflexivity).
    simpl. rewrite with_battles_same.
    split; [reflexivity|]. now rewrite <- app_assoc.
  - unfold p, handleEndBattle, endBattleMutation, mutateAsync,
      updateBattleEnd. run. rewrite Hb. simpl.
    rewrite update_single_no_row by exact Hnone.
    simpl. rewrite with_battles_same.
    split; [reflexivity|]. now rewrite <- app_assoc.
Qed.

(* ================================================================== *)
(** ** More on the countdown *)
(* ================================================================== *)

Lemma Math_ceil_div_mono (a b : Z) :
  a <= b -> Math_ceil_div a 1000 <= Math_ceil_div b 1000.
Proof.
  intros H. unfold Math_ceil_div.
  assert (- b / 1000 <= - a / 1000) by (apply Z.div_le_mono; lia). lia.
Qed.

Lemma Math_ceil_div_mul (n : Z) : Math_ceil_div (n * 1000) 1000 = n.
Proof.
  unfold Math_ceil_div.
  replace (- (n * 1000)) with ((- n) * 1000) by lia.
  rewrite Z.div_mul by lia. lia.
Qed.


(** The countdown only goes down: of two calls of the callback on the
    same battle, the one at the later instant shows no more seconds than
    the earlier one. *)
Theorem countdown_monotone (p : Props) (battle : Battle)
    (solution : option Solution) (w1 w2 : World) (T : Z) :
  start_time battle = Some T ->
  clock w1 <= clock w2 ->
  exists s1 s2,
    timeRemaining (view (exec (calculateTimeRemaining p battle solution) w1))
    = Some s1 /\
    timeRemaining (view (exec (calculateTimeRemaining p battle solution) w2))
    = Some s2 /\
    s2 <= s1.
Proof.
  intros HT Hc.
  rewrite !(calculateTimeRemaining_value p battle solution _ T HT).
  do 2 eexists. split; [reflexivity|]. split; [reflexivity|].
  unfold remaining.
  destruct (0 <? T + duration battle * 60 * 1000 - clock w2) eqn:E2.
  - apply Z.ltb_lt in E2.
    assert (E1 : (0 <? T + duration battle * 60 * 1000 - clock w1) = true)
      by (apply Z.ltb_lt; lia).
    rewrite E1. apply Math_ceil_div_mono. lia.
  - destruct (0 <? T + duration battle * 60 * 1000 - clock w1) eqn:E1;
      [|lia].
    apply Z.ltb_lt in E1.
    pose proof (Math_ceil_div_spec
                  (T + duration battle * 60 * 1000 - clock w1) 1000
                  ltac:(lia)). lia.
Qed.





(** Timeout by a bystander.  The countdown does not ask whether the
    viewer takes part: a logged-in viewer who is neither creator nor
    defender (and so has no Solution), rendering a battle in progress at
    or after the deadline, sends an end request naming the creator as
    winner. *)
Theorem timeout_by_spectator (p : Props) (battle : Battle) (u : User)
    (w : World) (bid : string) (T : Z) :
  battleId p = Some bid ->
  truthy_string bid = true ->
  user p = Some u ->
  ~ is_participant (Some u) battle ->
  status battle = "in_progress" ->
  duration battle <> 0 ->
  start_time battle = Some T ->
  truthy (winner_id battle) = false ->
  truthy_string (creator_id battle) = true ->
  T + duration battle * 60 * 1000 - clock w <= 0 ->
  end_requests (log (exec (effects p (Some battle) None) w))
  = end_requests (log w)
    ++ [Sent (UpdateEnd bid (creator_id battle) (clock w))].
Proof.
  intros Hp Hb Hu Hnp S HD HT HW HC Hneg.
  destruct (effects_in_progress p battle None w T S HD HT)
    as (w0 & E & _ & C & L).
  rewrite E.
  assert (Q : String.eqb (creator_id battle) (user_id u) = false).
  { apply String.eqb_neq. intros Heq. apply Hnp.
    exists u. split; auto. }
  destruct (calculateTimeRemaining_attempt p battle u None w0 bid
              (creator_id battle) T Hp Hb Hu HT HW) as [R _].
  - unfold remaining. now rewrite C.
  - rewrite Q. auto.
  - now rewrite R, C, L.
Qed.

Lemma parse_int_js_String (n : Z) : parse_int (js_String n) = Some n.
Proof.
  unfold parse_int, js_String.
  rewrite NilZero.isi.
  - simpl. now rewrite DecimalZ.of_to.
  - destruct n; simpl; try discriminate.
    intros [= H]. now apply (DecimalPos.Unsigned.to_uint_nonnil p).
  - destruct n; simpl; try discriminate.
    intros [= H]. now apply (DecimalPos.Unsigned.to_uint_nonnil p).
Qed.

Lemma split_colon_uint (d : Decimal.uint) (rest : string) :
  split_colon (NilEmpty.string_of_uint d ++ String ":" rest)%string
  = Some (NilEmpty.string_of_uint d, rest).
Proof.
  induction d; simpl; try rewrite IHd; reflexivity.
Qed.

Lemma split_colon_js_String (n : Z) (rest : string) :
  0 <= n ->
  split_colon (js_String n ++ String ":" rest)%string
  = Some (js_String n, rest).
Proof.
  intros H. unfold js_String.
  destruct n as [|p|p]; [reflexivity| |lia].
  simpl. destruct (Pos.to_uint p) eqn:E; try apply split_colon_uint.
  reflexivity.
Qed.

Lemma seconds_field (k : Z) :
  0 <= k < 60 ->
  String.length (padStart 2 "0" (js_String k)) = 2%nat /\
  parse_int (padStart 2 "0" (js_String k)) = Some k.
Proof.
  intros H. rewrite <- (Z2Nat.id k) by lia.
  assert (Hn : (Z.to_nat k < 60)%nat) by lia.
  revert Hn. generalize (Z.to_nat k). clear H k. intros n Hn.
  do 60 (destruct n as [|n]; [vm_compute; auto|]). lia.
Qed.

(** The countdown text can be read back.  For a non-negative number of
    seconds [t] the text is minutes, a colon and a seconds field of
    exactly two digits, below 60; reading the two numbers back gives [t]. *)
Theorem countdown_text_roundtrip (t : Z) :
  0 <= t ->
  readTimeRemaining (timeRemainingText t) = Some t /\
  exists m s,
    timeRemainingText t = (m ++ ":" ++ s)%string /\
    String.length s = 2%nat /\
    parse_int m = Some (t / 60) /\
    parse_int s = Some (t mod 60) /\
    0 <= t mod 60 < 60.
Proof.
  intros Ht.
  assert (Hq : 0 <= t / 60) by (apply Z.div_pos; lia).
  assert (Hr : Z.rem t 60 = t mod 60) by (apply Z.rem_mod_nonneg; lia).
  assert (Hm : 0 <= t mod 60 < 60) by (apply Z.mod_pos_bound; lia).
  destruct (seconds_field (t mod 60) Hm) as [L P].
  unfold readTimeRemaining, timeRemainingText. rewrite Hr.
  split.
  - simpl String.append at 2.
    rewrite (split_colon_js_String _ _ Hq), parse_int_js_String, P.
    f_equal. pose proof (Z.div_mod t 60). lia.
  - exists (js_String (t / 60)), (padStart 2 "0" (js_String (t mod 60))).
    repeat split; auto; try lia. apply parse_int_js_String.
Qed.

(* ================================================================== *)
(** ** What the view offers *)
(* ================================================================== *)

Lemma hasJoined_participant (u : option User) (battle : Battle) :
  hasJoined u battle = true -> is_participant u battle.
Proof.
  unfold hasJoined, isCreator, isDefender, is_participant, strict_eq.
  destruct u as [x|]; simpl; [|discriminate].
  rewrite orb_true_iff. intros [H|H]; exists x; split; auto.
  - left. now apply String.eqb_eq.
  - destruct (defender_id battle) as [d|]; [|discriminate].
    apply String.eqb_eq in H. right. now subst.
Qed.

(** The End buttons.  Whatever winner a rendered End button passes to the
    end handler is the creator or the defender of the battle; buttons are
    rendered only for a participant with a Solution while the battle is
    active; and a viewer who is not the creator is offered one winner
    only: the viewer. *)
Theorem endBattleChoices_sound (u : option User) (battle : Battle)
    (v : View) (solution : option Solution) (winnerId : string) :
  In winnerId (endBattleChoices u battle v solution) ->
  (winnerId = creator_id battle \/ defender_id battle = Some winnerId) /\
  is_participant u battle /\
  isBattleActive v = true /\
  solution <> None /\
  (isCreator u battle = false ->
   exists x, u = Some x /\ winnerId = user_id x).
Proof.
  unfold endBattleChoices. intros H.
  assert (CE : canEnd u battle v solution = true).
  { destruct (canEnd u battle v solution); [reflexivity|].
    simpl in H. contradiction. }
  rewrite CE in H. simpl in H.
  unfold canEnd in CE.
  apply andb_true_iff in CE as [CE Hs].
  apply andb_true_iff in CE as [Hj Ha].
  assert (Hsol : solution <> None) by (destruct solution; congruence).
  split; [|split; [now apply hasJoined_participant|
                   split; [exact Ha|split; [exact Hsol|]]]].
  - apply in_app_or in H as [H|H].
    + destruct (isCreator u battle); [|contradiction].
      destruct H as [<-|H]; [now left|].
      destruct (defender_id battle) as [d|]; [|contradiction].
      destruct (truthy_string d); [|contradiction].
      destruct H as [<-|[]]. now right.
    + destruct (isDefender u battle) eqn:D; [|contradiction].
      destruct u as [x|]; [|contradiction].
      destruct H as [<-|[]]. unfold isDefender, strict_eq in D.
      destruct (defender_id battle) as [d|]; [|discriminate].
      apply String.eqb_eq in D. right. now subst.
  - intros NC. rewrite NC in H. simpl in H.
    destruct (isDefender u battle); [|contradiction].
    destruct u as [x|]; [|contradiction].
    destruct H as [<-|[]]. now exists x.
Qed.

(** Emptying the editor does not empty the text to be submitted: the
    change handler ignores an empty value, so the state keeps the last
    non-empty text, and Submit sends that text. *)
Theorem cleared_editor_still_submits (b u : string) (s : jsstring)
    (w : World) :
  truthy_string b = true ->
  truthy_string u = true ->
  trim s <> [] ->
  let p := mkProps (Some b) (Some (mkUser u)) in
  code (view (exec (editorOnChange (Some s) ;; editorOnChange (Some [])) w))
  = s /\
  sent (log (exec (editorOnChange (Some s) ;; editorOnChange (Some []) ;;
                   handleSubmitSolution p) w))
  = sent (log w) ++ [InsertSolution b u s (clock w)].
Proof.
  intros Hb Hu Hs p.
  assert (Hne : truthy_jsstring s = true).
  { destruct s; [|reflexivity]. exfalso. apply Hs. reflexivity. }
  unfold editorOnChange. rewrite Hne. simpl truthy_jsstring. cbv iota.
  split; [reflexivity|].
  unfold p, handleSubmitSolution, submitSolutionMutation, mutateAsync. run.
  rewrite (truthy_trim_true _ Hs). simpl. rewrite Hb, Hu. simpl.
  destruct (insert_solution b u s (clock w) (store w)) as [[r|e] st'];
    simpl; rewrite !sent_app; simpl; now rewrite !app_nil_r.
Qed.

Lemma render_isBattleActive (p : Props) (battle : Battle)
    (solution : option Solution) (w : World) :
  status battle <> "in_progress" ->
  let w' := exec (perform p (Render (Some battle) solution)) w in
  isBattleActive (view w') = false /\
  timeRemaining (view w') = timeRemaining (view w).
Proof.
  intros S. simpl. unfold effects. rewrite !exec_seq.
  set (w0 := exec (battleEffect (Some battle)) w).
  assert (A : isBattleActive (view w0) = false).
  { unfold w0. rewrite battleEffect_active.
    now apply String.eqb_neq. }
  assert (T0 : timeRemaining (view w0) = timeRemaining (view w)).
  { unfold w0, battleEffect. rewrite !exec_seq.
    destruct (String.eqb (status battle) "completed").
    - destruct (setParticipants_frame battle
        (exec (if truthy_string (language battle)
               then setLanguage (language battle) else ret tt)
          (exec (setIsBattleOver true)
            (exec (setIsBattleActive
                     (String.eqb (status battle) "in_progress"))
              (exec (setIsBattleReady
                       (String.eqb (status battle) "in_progress" || true))
                 w))))) as (_ & _ & _ & Ht & _).
      rewrite Ht. destruct (truthy_string (language battle)); reflexivity.
    - destruct (truthy_string (language battle)); reflexivity. }
  assert (E : exec (countdownEffect p (Some battle) solution) w0 = w0).
  { unfold countdownEffect, countdown_enabled, exec, bind, getView. simpl.
    rewrite A, andb_false_r. reflexivity. }
  rewrite E.
  unfold solutionEffect.
  destruct solution as [s|]; [|auto].
  destruct (truthy_jsstring (sol_code s)); auto.
Qed.

(** Only a battle in progress offers submitting, ending or a countdown,
    and only a waiting one offers joining: after a render of a fetched
    battle with any other status, Submit and End are hidden, no End
    button is rendered and no countdown is shown. *)
Theorem only_running_battles_offer_actions (p : Props) (battle : Battle)
    (solution : option Solution) (w : World) :
  let v := view (exec (perform p (Render (Some battle) solution)) w) in
  (status battle <> "in_progress" ->
   canSubmit (user p) battle v solution = false /\
   canEnd (user p) battle v solution = false /\
   endBattleChoices (user p) battle v solution = [] /\
   countdownShown v = None) /\
  (status battle <> "waiting" -> canJoin (user p) battle = false).
Proof.
  intros v. split.
  - intros S.
    destruct (render_isBattleActive p battle solution w S) as [A _].
    fold v in A.
    assert (CE : canEnd (user p) battle v solution = false).
    { unfold canEnd. rewrite A. now rewrite andb_false_r. }
    unfold canSubmit, endBattleChoices, countdownShown.
    rewrite CE, A. simpl. rewrite andb_false_r.
    repeat split; auto. destruct (timeRemaining v); reflexivity.
  - intros S. unfold canJoin.
    apply String.eqb_neq in S. rewrite S. apply andb_false_r.
Qed.

(* ================================================================== *)
(** ** Handlers followed by a refetch and a render *)
(* ================================================================== *)

Lemma battleQuery_the_battle (bid : string) (u : option User) (st : Store)
    (battle : Battle) :
  truthy_string bid = true ->
  the_battle st bid battle ->
  battleQuery (mkProps (Some bid) u) st = Ok battle.
Proof.
  intros Hb H. unfold battleQuery, select_single. simpl.
  rewrite Hb. unfold the_battle in H. now rewrite H.
Qed.

Lemma handleJoinBattle_waiting (bid u : string) (battle : Battle)
    (w : World) :
  truthy_string bid = true ->
  truthy_string u = true ->
  the_battle (store w) bid battle ->
  status battle = "waiting" ->
  let w1 := exec (handleJoinBattle (mkProps (Some bid) (Some (mkUser u)))) w in
  the_battle (store w1) bid (join_patch u (clock w) battle) /\
  view w1 = view w /\ clock w1 = clock w /\
  end_requests (log w1) = end_requests (log w).
Proof.
  intros Hb Hu Hrow Hst.
  destruct (updateBattleJoin_waiting _ bid u (clock w) _ Hrow Hst) as [R T].
  unfold handleJoinBattle, joinBattleMutation, mutateAsync. run.
  rewrite Hb, Hu. simpl.
  destruct (updateBattleJoin bid u (clock w) (store w)) as [r st'].
  simpl in *. subst r. simpl.
  repeat split; auto.
  rewrite !end_requests_app. simpl. now rewrite !app_nil_r.
Qed.

(** Right after joining, the countdown shows the whole duration.  A user
    joins a waiting battle of [D > 0] minutes; the battle is refetched and
    rendered at the same instant: the fetched row is the joined battle,
    the countdown is shown at [D * 60] seconds, the user may submit, and
    no end request has been sent. *)
Theorem join_then_render (bid u : string) (battle : Battle) (w : World) :
  truthy_string bid = true ->
  truthy_string u = true ->
  the_battle (store w) bid battle ->
  status battle = "waiting" ->
  0 < duration battle ->
  let p := mkProps (Some bid) (Some (mkUser u)) in
  let w1 := exec (handleJoinBattle p) w in
  let fetched := battle_data (battleQuery p (store w1)) in
  let w2 := exec (perform p (Render fetched None)) w1 in
  fetched = Some (join_patch u (clock w) battle) /\
  timeRemaining (view w2) = Some (duration battle * 60) /\
  countdownShown (view w2)
  = Some (timeRemainingText (duration battle * 60)) /\
  canSubmit (user p) (join_patch u (clock w) battle) (view w2) None = true /\
  end_requests (log w2) = end_requests (log w).
Proof.
  intros Hb Hu Hrow Hst HD p w1 fetched w2.
  destruct (handleJoinBattle_waiting bid u battle w Hb Hu Hrow Hst)
    as (T1 & V1 & C1 & L1).
  fold p w1 in T1, V1, C1, L1.
  set (b' := join_patch u (clock w) battle).
  assert (F : fetched = Some b').
  { unfold fetched, p. now rewrite (battleQuery_the_battle _ _ _ b' Hb T1). }
  assert (S' : status b' = "in_progress") by reflexivity.
  assert (D' : duration b' <> 0) by (simpl; lia).
  assert (T' : start_time b' = Some (clock w)) by reflexivity.
  set (w0 := exec (battleEffect (Some b')) w1).
  destruct (battleEffect_in_progress b' w1 S') as (_ & C0 & L0 & A0).
  fold w0 in C0, L0, A0.
  assert (Hpos : 0 < remaining b' (clock w) (clock w0)).
  { unfold remaining. rewrite C0, C1. simpl. lia. }
  assert (R : Math_ceil_div (remaining b' (clock w) (clock w0)) 1000
              = duration battle * 60).
  { unfold remaining. rewrite C0, C1. simpl.
    replace (clock w + duration battle * 60 * 1000 - clock w)
      with (duration battle * 60 * 1000) by lia.
    apply Math_ceil_div_mul. }
  assert (W2 : w2 = exec (setTimeRemaining (Some (duration battle * 60))) w0).
  { unfold w2. rewrite F. simpl. unfold effects. rewrite !exec_seq.
    fold w0. unfold exec at 1, solutionEffect, ret. simpl snd.
    unfold exec at 1.
    rewrite (countdownEffect_runs p b' None w0 (clock w) D' T' A0).
    rewrite (calculateTimeRemaining_running p b' None w0 _ T' Hpos).
    now rewrite R. }
  assert (A2 : isBattleActive (view w2) = true) by (rewrite W2; exact A0).
  assert (T2 : timeRemaining (view w2) = Some (duration battle * 60))
    by (rewrite W2; reflexivity).
  assert (L2 : log w2 = log w0) by (rewrite W2; reflexivity).
  split; [exact F|]. split; [exact T2|].
  unfold countdownShown. rewrite T2, A2.
  split; [reflexivity|]. split.
  - unfold canSubmit, hasJoined, isCreator, isDefender, strict_eq, p.
    simpl. rewrite A2, String.eqb_refl.
    now rewrite orb_true_r.
  - now rewrite L2, L0.
Qed.

Lemma render_completed (p : Props) (battle : Battle)
    (solution : option Solution) (w : World) (wn l : string)
    (pw pl : Profile) :
  status battle = "completed" ->
  winner_id battle = Some wn ->
  truthy_string wn = true ->
  fst (fetchProfile wn (store w)) = Ok pw ->
  loserId battle wn = Some l ->
  truthy_string l = true ->
  fst (fetchProfile l (store w)) = Ok pl ->
  let w' := exec (perform p (Render (Some battle) solution)) w in
  winner (view w') = Some (participant_of pw) /\
  loser (view w') = Some (participant_of pl) /\
  isBattleOver (view w') = true /\
  isBattleActive (view w') = false /\
  store w' = store w.
Proof.
  intros S HW Ht F1 HL Hl F2.
  unfold fetchProfile in F1, F2. simpl in F1, F2.
  simpl. unfold effects, battleEffect, countdownEffect, countdown_enabled,
    setParticipants, solutionEffect, fetchProfile.
  rewrite S, HW, Ht. simpl String.eqb. cbv iota.
  destruct (truthy_string (language battle));
    run; rewrite F1; simpl; rewrite HL, Hl; simpl; rewrite F2; simpl;
    rewrite !andb_false_r; simpl;
    (destruct solution as [s|]; simpl;
     [destruct (truthy_jsstring (sol_code s)); simpl; auto|auto]).
Qed.

Lemma handleEndBattle_row (p : Props) (bid winnerId : string)
    (battle : Battle) (w : World) :
  battleId p = Some bid ->
  truthy_string bid = true ->
  the_battle (store w) bid battle ->
  let w1 := exec (handleEndBattle p winnerId) w in
  the_battle (store w1) bid (end_patch winnerId (clock w) battle) /\
  profiles (store w1) = profiles (store w) /\
  solutions (store w1) = solutions (store w).
Proof.
  intros Hp Hb Hrow.
  destruct (updateBattleEnd_any_status _ bid winnerId (clock w) _ Hrow)
    as [R T].
  unfold handleEndBattle, endBattleMutation, mutateAsync. run.
  rewrite Hp, Hb. simpl.
  unfold updateBattleEnd in *.
  destruct (update_single _ _ (battles (store w))) as [r bs].
  simpl in *. subst r. simpl. auto.
Qed.

(** An explicit end shows up as the result.  A participant ends the
    battle naming the creator or the defender as winner; any view on the
    same store that then refetches and renders the battle gets the
    completed row with that winner, shows the winner's profile as winner
    and the other participant's as loser, marks the battle over and shows
    no countdown. *)
Theorem end_then_render (bid d winnerId : string) (battle : Battle)
    (pc pd : Profile) (solution : option Solution) (p pv : Props)
    (w wv : World) :
  battleId p = Some bid ->
  battleId pv = Some bid ->
  truthy_string bid = true ->
  the_battle (store w) bid battle ->
  defender_id battle = Some d ->
  creator_id battle <> d ->
  truthy_string (creator_id battle) = true ->
  truthy_string d = true ->
  fst (fetchProfile (creator_id battle) (store w)) = Ok pc ->
  fst (fetchProfile d (store w)) = Ok pd ->
  winnerId = creator_id battle \/ winnerId = d ->
  let w1 := exec (handleEndBattle p winnerId) w in
  store wv = store w1 ->
  let fetched := battle_data (battleQuery pv (store wv)) in
  let w2 := exec (perform pv (Render fetched solution)) wv in
  fetched = Some (end_patch winnerId (clock w) battle) /\
  (winnerId = creator_id battle ->
   winner (view w2) = Some (participant_of pc) /\
   loser (view w2) = Some (participant_of pd)) /\
  (winnerId = d ->
   winner (view w2) = Some (participant_of pd) /\
   loser (view w2) = Some (participant_of pc)) /\
  isBattleOver (view w2) = true /\
  countdownShown (view w2) = None.
Proof.
  intros Hp Hpv Hb Hrow Hd Hne Hc Htd Fc Fd Hwn w1 Hst fetched w2.
  destruct (handleEndBattle_row p bid winnerId battle w Hp Hb Hrow)
    as (T1 & P1 & _).
  fold w1 in T1, P1.
  set (b' := end_patch winnerId (clock w) battle).
  assert (F : fetched = Some b').
  { unfold fetched. destruct pv as [bv uv]. simpl in Hpv. subst bv.
    rewrite Hst. now rewrite (battleQuery_the_battle _ _ _ b' Hb T1). }
  assert (Fc' : fst (fetchProfile (creator_id battle) (store wv)) = Ok pc).
  { unfold fetchProfile in *. simpl in *. now rewrite Hst, P1. }
  assert (Fd' : fst (fetchProfile d (store wv)) = Ok pd).
  { unfold fetchProfile in *. simpl in *. now rewrite Hst, P1. }
  assert (Hres : exists pw pl l,
            (winnerId = creator_id battle -> pw = pc /\ pl = pd) /\
            (winnerId = d -> pw = pd /\ pl = pc) /\
            truthy_string winnerId = true /\
            fst (fetchProfile winnerId (store wv)) = Ok pw /\
            loserId b' winnerId = Some l /\ truthy_string l = true /\
            fst (fetchProfile l (store wv)) = Ok pl).
  { destruct Hwn as [-> | ->].
    - exists pc, pd, d. unfold loserId. simpl. rewrite String.eqb_refl.
      repeat split; auto; congruence.
    - exists pd, pc, (creator_id battle). unfold loserId. simpl.
      apply String.eqb_neq in Hne. rewrite Hne.
      apply String.eqb_neq in Hne.
      repeat split; auto; congruence. }
  destruct Hres as (pw & pl & l & H1 & H2 & Tw & Fw & HL & Tl & Fl).
  destruct (render_completed pv b' solution wv winnerId l pw pl
              eq_refl eq_refl Tw Fw HL Tl Fl) as (W & L & O & A & _).
  unfold w2. rewrite F.
  split; [reflexivity|].
  split; [intros E; destruct (H1 E) as [<- <-]; auto|].
  split; [intros E; destruct (H2 E) as [<- <-]; auto|].
  split; [exact O|].
  unfold countdownShown. rewrite A.
  now destruct (timeRemaining _).
Qed.

(* ================================================================== *)
(** ** Labels *)
(* ================================================================== *)

Lemma toLowerAscii_idem (c : ascii) :
  toLowerAscii (toLowerAscii c) = toLowerAscii c.
Proof.
  destruct c as [[] [] [] [] [] [] [] []]; reflexivity.
Qed.

Lemma toLowerCase_idem (s : string) :
  toLowerCase (toLowerCase s) = toLowerCase s.
Proof.
  induction s as [|c r IH]; simpl; [reflexivity|].
  now rewrite toLowerAscii_idem, IH.
Qed.

(** The editor mode.  Whatever language label a battle carries, the mode
    given to the editor is one of the five known ones; the letter case of
    the label does not matter; and a mode is its own mode. *)
Theorem getLanguageMode_modes (l : string) :
  In (getLanguageMode l) ["javascript"; "python"; "java"; "cpp"; "csharp"] /\
  getLanguageMode (toLowerCase l) = getLanguageMode l /\
  getLanguageMode (getLanguageMode l) = getLanguageMode l.
Proof.
  split; [|split].
  - unfold getLanguageMode.
    repeat match goal with
           | |- context [if ?c then _ else _] => destruct c
           end; simpl; auto 10.
  - unfold getLanguageMode. now rewrite toLowerCase_idem.
  - unfold getLanguageMode at 2 3.
    repeat match goal with
           | |- context [if ?c then _ else _] => destruct c
           end; reflexivity.
Qed.

(** Colour and points agree on which difficulties are known: a label
    gets the grey badge exactly when it is worth 0 points, and the letter
    case of the label matters to neither. *)
Theorem difficulty_color_and_points_agree (d : string) :
  (getDifficultyColor d = "bg-gray-500" <-> getDifficultyPoints d = "0") /\
  getDifficultyColor (toLowerCase d) = getDifficultyColor d /\
  getDifficultyPoints (toLowerCase d) = getDifficultyPoints d.
Proof.
  unfold getDifficultyColor, getDifficultyPoints.
  rewrite toLowerCase_idem.
  split; [|split; reflexivity].
  destruct (String.eqb (toLowerCase d) "easy");
    [split; discriminate|].
  destruct (String.eqb (toLowerCase d) "medium");
    [split; discriminate|].
  destruct (String.eqb (toLowerCase d) "hard");
    [split; discriminate|].
  split; reflexivity.
Qed.

(* ================================================================== *)
(** ** The further theorems at work on the small store *)
(* ================================================================== *)

(** Someone tries to join the finished battle and D ends it again: it
    stays completed, with the players it had. *)
Lemma completed_is_terminal_witness :
  exists battle',
    the_battle
      (serve_all [UpdateJoin "b1" "E" 800000; UpdateEnd "b1" "D" 900000]
         (store_of battle_done [])) "b1" battle' /\
    status battle' = "completed" /\
    creator_id battle' = "C" /\
    defender_id battle' = Some "D" /\
    start_time battle' = Some 0.
Proof.
  exact (completed_is_terminal
           [UpdateJoin "b1" "E" 800000; UpdateEnd "b1" "D" 900000]
           (store_of battle_done []) "b1" battle_done eq_refl eq_refl).
Defined.

Lemma requests_keep_rows_complete_witness :
  Forall row_complete
    (battles (serve_all [UpdateJoin "b1" "D" 0; UpdateEnd "b1" "C" 601000]
                (store_of battle_waiting []))).
Proof.
  apply requests_keep_rows_complete.
  constructor; [|constructor].
  split; intros H; vm_compute in H; discriminate.
Defined.


Lemma handleJoinBattle_anonymous_witness :
  let w := world_of (store_of battle_waiting []) [] 1000 in
  let p := mkProps (Some "b1") None in
  store (exec (handleJoinBattle p) w) = store w /\
  log (exec (handleJoinBattle p) w)
  = [ToastError "You must be logged in to join a battle"; Navigate "/login"].
Proof.
  intros w p.
  destruct (handleJoinBattle_anonymous p w eq_refl) as (A & _ & C).
  split; [exact A|exact C].
Defined.

(** E tries to join the battle D is already in. *)
Lemma handleJoinBattle_not_waiting_witness :
  let w := world_of (store_of battle_running []) [] 5000 in
  let p := mkProps (Some "b1") (Some (mkUser "E")) in
  store (exec (handleJoinBattle p) w) = store w /\
  log (exec (handleJoinBattle p) w)
  = [Sent (UpdateJoin "b1" "E" 5000);
     ToastError "Failed to join battle. Please try again."].
Proof.
  intros w p.
  exact (handleJoinBattle_not_waiting "b1" "E" battle_running w
           eq_refl eq_refl eq_refl ltac:(discriminate)).
Defined.

Lemma requests_for_unknown_battle_witness :
  let w := world_of (store_of battle_running []) [] 5000 in
  let p := mkProps (Some "b9") (Some (mkUser "D")) in
  store (exec (handleJoinBattle p) w) = store w /\
  store (exec (handleEndBattle p "D") w) = store w.
Proof.
  intros w p.
  destruct (requests_for_unknown_battle "b9" "D" "D" w
              eq_refl eq_refl eq_refl) as ((A & _) & (B & _)).
  split; [exact A|exact B].
Defined.


Lemma countdown_monotone_witness :
  let w1 := world_of (store_of battle_running []) [] 100000 in
  let w2 := world_of (store_of battle_running []) [] 100001 in
  exists s1 s2,
    timeRemaining
      (view (exec (calculateTimeRemaining props_D battle_running None) w1))
    = Some s1 /\
    timeRemaining
      (view (exec (calculateTimeRemaining props_D battle_running None) w2))
    = Some s2 /\
    s2 <= s1.
Proof.
  intros w1 w2.
  exact (countdown_monotone props_D battle_running None w1 w2 0 eq_refl
           ltac:(vm_compute; discriminate)).
Defined.

(** A logged-in visitor E watches C and D's battle run out. *)
Lemma timeout_by_spectator_witness :
  let w := world_of (store_of battle_running []) [] 600000 in
  let p := mkProps (Some "b1") (Some (mkUser "E")) in
  end_requests (log (exec (effects p (Some battle_running) None) w))
  = [Sent (UpdateEnd "b1" "C" 600000)].
Proof.
  intros w p.
  refine (timeout_by_spectator p battle_running (mkUser "E") w "b1" 0
            eq_refl eq_refl eq_refl _ eq_refl ltac:(discriminate)
            eq_refl eq_refl eq_refl ltac:(vm_compute; discriminate)).
  intros (x & [= <-] & [H|H]); discriminate.
Defined.

Lemma countdown_text_roundtrip_witness :
  timeRemainingText 605 = "10:05" /\
  readTimeRemaining (timeRemainingText 605) = Some 605.
Proof.
  split; [reflexivity|].
  exact (proj1 (countdown_text_roundtrip 605 ltac:(vm_compute; discriminate))).
Defined.

Lemma endBattleChoices_sound_witness :
  let v := mkView [] "javascript" false true true false None None None in
  endBattleChoices (Some (mkUser "C")) battle_running v (Some solution_of_D)
  = ["C"; "D"] /\
  ("D" = creator_id battle_running \/
   defender_id battle_running = Some "D").
Proof.
  intro v. split; [reflexivity|].
  exact (proj1 (endBattleChoices_sound (Some (mkUser "C")) battle_running v
                  (Some solution_of_D) "D" (or_intror (or_introl eq_refl)))).
Defined.

Lemma cleared_editor_still_submits_witness :
  let w := world_of (store_of battle_running []) [] 5000 in
  sent (log (exec (editorOnChange (Some (code_units "x")) ;;
                   editorOnChange (Some []) ;;
                   handleSubmitSolution props_D) w))
  = [InsertSolution "b1" "D" (code_units "x") 5000].
Proof.
  intro w.
  exact (proj2 (cleared_editor_still_submits "b1" "D" (code_units "x") w
                  eq_refl eq_refl ltac:(vm_compute; discriminate))).
Defined.

Lemma join_then_render_witness :
  let w := world_of (store_of battle_waiting []) [] 1000 in
  let w1 := exec (handleJoinBattle props_D) w in
  let w2 := exec (perform props_D
                    (Render (battle_data (battleQuery props_D (store w1)))
                       None)) w1 in
  timeRemaining (view w2) = Some 600 /\
  countdownShown (view w2) = Some "10:00".
Proof.
  intros w w1 w2.
  destruct (join_then_render "b1" "D" battle_waiting w
              eq_refl eq_refl eq_refl eq_refl ltac:(reflexivity))
    as (_ & A & B & _).
  split; [exact A|exact B].
Defined.

(** C ends the running battle in D's favour; D's view refetches. *)
Lemma end_then_render_witness :
  let w := world_of (store_of battle_running []) [] 300000 in
  let w1 := exec (handleEndBattle props_C "D") w in
  let wv := world_of (store w1) [] 305000 in
  let w2 := exec (perform props_D
                    (Render (battle_data (battleQuery props_D (store wv)))
                       None)) wv in
  winner (view w2) = Some (participant_of profile_D) /\
  loser (view w2) = Some (participant_of profile_C).
Proof.
  intros w w1 wv w2.
  destruct (end_then_render "b1" "D" "D" battle_running profile_C profile_D
              None props_C props_D w wv
              eq_refl eq_refl eq_refl eq_refl eq_refl ltac:(discriminate)
              eq_refl eq_refl eq_refl eq_refl (or_intror eq_refl) eq_refl)
    as (_ & _ & A & _).
  exact (A eq_refl).
Defined.

(* ================================================================== *)
(** ** The store client library *)
(* ================================================================== *)

Section LibFacts.

Variables (S Row Val : Type).
Variable exec_sql : Lib.Statement -> S -> Lib.Settled bool * S.
Variable head_select : string -> S -> Lib.Settled bool.
Variable select_rows : Lib.Query Val -> S -> Lib.Settled (option (list Row)).

Let Env := Lib.Env S Val.
Let init := Lib.initializeDatabase S Val exec_sql.
Let fetch := Lib.optimizedFetch S Row Val exec_sql head_select select_rows.
Let table_found := Lib.table_found S head_select.

Lemma try_exec_run (stmt : Lib.Statement) (ok failed : string) (e : Env) :
  exists m,
    Lib.try_exec S Val exec_sql stmt ok failed e =
      (tt, Lib.mkEnv (snd (exec_sql stmt (Lib.backend e)))
             (Lib.calls e ++ [Lib.CallRpc stmt])
             (Lib.console e ++ [m])).
Proof.
  unfold Lib.try_exec, Lib.bind, Lib.rpc, Lib.say.
  destruct (exec_sql stmt (Lib.backend e)) as [[x|] s']; simpl;
    eexists; reflexivity.
Qed.

(** A run of [initializeDatabase], spelled out. *)
Lemma initializeDatabase_run (e : Env) :
  exists msgs,
    init e =
      (true,
       Lib.mkEnv
         (fold_left (fun s stmt => snd (exec_sql stmt s)) Lib.statements
            (Lib.backend e))
         (Lib.calls e ++ map Lib.CallRpc Lib.statements)
         (Lib.console e
          ++ Lib.Log "Initializing database tables..." :: msgs
          ++ [Lib.Log "Database initialization completed"])) /\
    List.length msgs = 5%nat.
Proof.
  unfold init, Lib.initializeDatabase.
  unfold Lib.bind at 1. unfold Lib.say at 1. cbv beta iota.
  set (e0 := Lib.mkEnv _ _ _).
  unfold Lib.bind at 1.
  destruct (try_exec_run Lib.CreateProfilesTable
              "Profiles table created or already exists"
              "Failed to create profiles table:" e0) as (m1 & ->).
  set (e1 := Lib.mkEnv _ _ _).
  unfold Lib.bind at 1.
  destruct (try_exec_run Lib.CreateRatingHistoryTable
              "Rating history table created or already exists"
              "Failed to create rating_history table:" e1) as (m2 & ->).
  set (e2 := Lib.mkEnv _ _ _).
  unfold Lib.bind at 1.
  destruct (try_exec_run Lib.CreateBattlesTable
              "Battles table created or already exists"
              "Failed to create battles table:" e2) as (m3 & ->).
  set (e3 := Lib.mkEnv _ _ _).
  unfold Lib.bind at 1.
  destruct (try_exec_run Lib.CreateSubmissionsTable
              "Submissions table created or already exists"
              "Failed to create submissions table:" e3) as (m4 & ->).
  set (e4 := Lib.mkEnv _ _ _).
  unfold Lib.bind at 1.
  destruct (try_exec_run Lib.CreateJoinBattleFunction
              "join_battle function created or already exists"
              "Failed to create join_battle function:" e4) as (m5 & ->).
  exists [m1; m2; m3; m4; m5]. split; [|reflexivity].
  unfold Lib.bind, Lib.say, Lib.ret. cbv beta iota.
  subst e4 e3 e2 e1 e0. cbn [Lib.backend Lib.calls Lib.console].
  f_equal. f_equal.
  - now rewrite <- !app_assoc.
  - now rewrite <- !app_assoc.
Qed.

(** [initializeDatabase] reports success whatever happens: each of the
    five statements is sent, in the order of the source, whether the
    earlier ones were answered, answered with an error or threw; the run
    ends with the completion message; and the result is [true]. *)
Theorem initializeDatabase_attempts_all (e : Env) :
  fst (init e) = true /\
  Lib.calls (snd (init e)) = Lib.calls e ++ map Lib.CallRpc Lib.statements /\
  exists msgs,
    Lib.console (snd (init e))
    = Lib.console e ++ msgs
      ++ [Lib.Log "Database initialization completed"].
Proof.
  destruct (initializeDatabase_run e) as (msgs & E & _).
  rewrite E. simpl. repeat split.
  now exists (Lib.Log "Initializing database tables..." :: msgs).
Qed.

Lemma tableExists_run (table : string) (e : Env) :
  exists msgs,
    Lib.tableExists S Val head_select table e =
      (table_found table (Lib.backend e),
       Lib.mkEnv (Lib.backend e) (Lib.calls e ++ [Lib.CallHead table])
         (Lib.console e ++ msgs)).
Proof.
  unfold Lib.tableExists, Lib.bind, Lib.head, Lib.say, Lib.ret, table_found,
    Lib.table_found.
  destruct (head_select table (Lib.backend e)) as [err|]; simpl.
  - exists []. now rewrite app_nil_r.
  - eexists [_]. reflexivity.
Qed.

Lemma optimizedFetch_missing_run (table : string)
    (query : list (string * Val)) (options : option Lib.Options) (e : Env) :
  (forall s, table_found table s = false) ->
  exists bk cs,
    fetch table query options e =
      (Lib.Null,
       Lib.mkEnv bk
         (Lib.calls e ++ [Lib.CallHead table]
          ++ map Lib.CallRpc Lib.statements ++ [Lib.CallHead table]) cs).
Proof.
  intros Hmiss. unfold fetch, Lib.optimizedFetch.
  unfold Lib.bind at 1.
  destruct (tableExists_run table e) as (m1 & ->).
  rewrite Hmiss.
  unfold Lib.bind at 1. unfold Lib.bind at 1. unfold Lib.say at 1.
  cbv beta iota.
  set (e1 := Lib.mkEnv _ _ _).
  unfold Lib.bind at 1.
  destruct (initializeDatabase_run e1) as (m2 & E2 & _).
  unfold init in E2. rewrite E2.
  set (e2 := Lib.mkEnv _ _ _).
  unfold Lib.bind at 1.
  destruct (tableExists_run table e2) as (m3 & ->).
  rewrite Hmiss.
  unfold Lib.bind, Lib.say, Lib.ret. cbv beta iota.
  subst e2 e1. cbn [Lib.backend Lib.calls Lib.console fst snd].
  do 2 eexists. f_equal. f_equal. now rewrite <- !app_assoc.
Qed.

(** A table the backend does not report.  When the existence check fails
    before and after the initialization, [optimizedFetch] answers [null]
    without sending the query: it has sent the check, the five statements
    of [initializeDatabase], and the check again, in that order. *)
Theorem optimizedFetch_missing_table (table : string)
    (query : list (string * Val)) (options : option Lib.Options) (e : Env) :
  (forall s, table_found table s = false) ->
  fst (fetch table query options e) = Lib.Null /\
  Lib.calls (snd (fetch table query options e))
  = Lib.calls e ++ [Lib.CallHead table]
    ++ map Lib.CallRpc Lib.statements ++ [Lib.CallHead table].
Proof.
  intros Hmiss.
  destruct (optimizedFetch_missing_run table query options e Hmiss)
    as (bk & cs & ->).
  split; reflexivity.
Qed.

Lemma optimizedFetch_found_run (table : string)
    (query : list (string * Val)) (options : option Lib.Options) (e : Env) :
  table_found table (Lib.backend e) = true ->
  exists cs,
    fetch table query options e =
      (match select_rows (Lib.build_query table query options)
               (Lib.backend e) with
       | Lib.Fulfilled (Some rows) =>
           if Lib.single_of options
           then match rows with [row] => Lib.One row | _ => Lib.Null end
           else Lib.Many rows
       | _ => Lib.Null
       end,
       Lib.mkEnv (Lib.backend e)
         (Lib.calls e ++ [Lib.CallHead table;
                          Lib.CallSelect
                            (Lib.build_query table query options)
                            (Lib.single_of options)]) cs).
Proof.
  intros Hfound. unfold fetch, Lib.optimizedFetch.
  unfold Lib.bind at 1.
  destruct (tableExists_run table e) as (m1 & ->).
  rewrite Hfound.
  unfold Lib.bind at 1. unfold Lib.ret at 1. cbv beta iota.
  unfold Lib.bind at 1. unfold Lib.select.
  cbn [Lib.backend Lib.calls Lib.console].
  destruct (select_rows (Lib.build_query table query options)
              (Lib.backend e)) as [[rows|]|].
  - destruct (Lib.single_of options).
    + destruct rows as [|row [|row' rest]];
        unfold Lib.bind, Lib.say, Lib.ret;
        cbn [Lib.backend Lib.calls Lib.console fst snd];
        eexists; f_equal; f_equal; rewrite <- ?app_assoc; reflexivity.
    + unfold Lib.ret. eexists. f_equal. f_equal.
      rewrite <- ?app_assoc. reflexivity.
  - unfold Lib.bind, Lib.say, Lib.ret.
    cbn [Lib.backend Lib.calls Lib.console fst snd].
    eexists. f_equal. f_equal. rewrite <- ?app_assoc. reflexivity.
  - unfold Lib.bind, Lib.say, Lib.ret.
    cbn [Lib.backend Lib.calls Lib.console fst snd].
    eexists. f_equal. f_equal. rewrite <- ?app_assoc. reflexivity.
Qed.

(** A table that is there.  When the existence check succeeds,
    [optimizedFetch] does not initialize anything: it sends the check and
    the one query built from its arguments, and leaves the backend as it
    was.  With [single] it answers a row only when the backend answered
    exactly one row, and [null] otherwise; without it, the rows the
    backend answered, or [null] on an error. *)
Theorem optimizedFetch_existing_table (table : string)
    (query : list (string * Val)) (options : option Lib.Options) (e : Env) :
  table_found table (Lib.backend e) = true ->
  let q := Lib.build_query table query options in
  let r := fetch table query options e in
  Lib.backend (snd r) = Lib.backend e /\
  Lib.calls (snd r)
  = Lib.calls e ++ [Lib.CallHead table;
                    Lib.CallSelect q (Lib.single_of options)] /\
  Lib.q_eq q = query /\
  (forall row, fst r = Lib.One row ->
     Lib.single_of options = true /\
     select_rows q (Lib.backend e) = Lib.Fulfilled (Some [row])) /\
  (forall rows, fst r = Lib.Many rows ->
     Lib.single_of options = false /\
     select_rows q (Lib.backend e) = Lib.Fulfilled (Some rows)) /\
  (fst r = Lib.Null ->
     select_rows q (Lib.backend e) = Lib.Threw \/
     select_rows q (Lib.backend e) = Lib.Fulfilled None \/
     (Lib.single_of options = true /\
      exists rows, select_rows q (Lib.backend e) = Lib.Fulfilled (Some rows)
                   /\ List.length rows <> 1%nat)).
Proof.
  intros Hfound q r.
  destruct (optimizedFetch_found_run table query options e Hfound)
    as (cs & E).
  unfold r. rewrite E. fold q. cbn [fst snd Lib.backend Lib.calls].
  split; [reflexivity|]. split; [reflexivity|]. split; [reflexivity|].
  destruct (select_rows q (Lib.backend e)) as [[rows|]|].
  - destruct (Lib.single_of options).
    + destruct rows as [|row [|row' rest]].
      * split; [intros ? [=]|]. split; [intros ? [=]|].
        intros _. right; right. split; auto. exists []. split; auto.
      * split; [intros ? [= <-]; auto|]. split; [intros ? [=]|].
        intros [=].
      * split; [intros ? [=]|]. split; [intros ? [=]|].
        intros _. right; right. split; auto.
        exists (row :: row' :: rest). split; auto. simpl. lia.
    + split; [intros ? [=]|]. split; [intros ? [= <-]; auto|].
      intros [=].
  - split; [intros ? [=]|]. split; [intros ? [=]|]. auto.
  - split; [intros ? [=]|]. split; [intros ? [=]|]. auto.
Qed.

(** A limit of [0] is no limit: [options.limit] is applied only when
    truthy, so asking for at most 0 rows sends the query without a limit
    and behaves exactly like giving no limit at all. *)
Theorem optimizedFetch_limit_zero (table : string)
    (query : list (string * Val)) (o : Lib.Options) (e : Env) :
  Lib.limit o = Some 0 ->
  Lib.q_limit (Lib.build_query table query (Some o)) = None /\
  fetch table query (Some o) e
  = fetch table query
      (Some (Lib.mkOptions (Lib.single o) None (Lib.order o))) e.
Proof.
  intros H. destruct o as [sg lm od]. simpl in H. subst lm.
  split; reflexivity.
Qed.

End LibFacts.

Lemma optimizedFetch_missing_table_witness :
  fst (Lib.optimizedFetch unit nat string refusing_exec_sql head_missing
         one_row_select "profiles" [("id", "C")] None fresh_env)
  = Lib.Null.
Proof.
  exact (proj1 (optimizedFetch_missing_table unit nat string
                  refusing_exec_sql head_missing one_row_select "profiles"
                  [("id", "C")] None fresh_env (fun s => eq_refl))).
Defined.

Lemma optimizedFetch_existing_table_witness :
  let r := Lib.optimizedFetch unit nat string refusing_exec_sql head_found
             one_row_select "profiles" [("id", "C")] None fresh_env in
  Lib.calls (snd r)
  = [Lib.CallHead "profiles";
     Lib.CallSelect (Lib.mkQuery "profiles" [("id", "C")] None None) false].
Proof.
  intro r.
  destruct (optimizedFetch_existing_table unit nat string refusing_exec_sql
              head_found one_row_select "profiles" [("id", "C")] None
              fresh_env eq_refl) as (_ & A & _).
  exact A.
Defined.

Lemma optimizedFetch_limit_zero_witness :
  let o := Lib.mkOptions (Some true) (Some 0) None in
  Lib.optimizedFetch unit nat string refusing_exec_sql head_found
    one_row_select "profiles" [("id", "C")] (Some o) fresh_env
  = Lib.optimizedFetch unit nat string refusing_exec_sql head_found
      one_row_select "profiles" [("id", "C")]
      (Some (Lib.mkOptions (Some true) None None)) fresh_env.
Proof.
  intro o.
  exact (proj2 (optimizedFetch_limit_zero unit nat string refusing_exec_sql
                  head_found one_row_select "profiles" [("id", "C")] o
                  fresh_env eq_refl)).
Defined.

(* ================================================================== *)
(** ** The authentication context *)
(* ================================================================== *)

Ltac auth_run := unfold Auth.exec, Auth.bind, Auth.ret, Auth.on_db,
  Auth.notify, Auth.modify, Auth.getState, Auth.setProfile, Auth.setUser,
  Auth.setSession, Auth.setLoading, Auth.setDbInitialized, Auth.at_time,
  Auth.db in *; simpl in *.

(** On a provisioned database [initializeDatabase] touches no row and no
    state of the provider, and answers [true]. *)
Lemma auth_initializeDatabase_frame (w : Auth.World) :
  exists e',
    Auth.initializeDatabase w
    = (true, Auth.mkWorld e' (Auth.state w) (Auth.server_user w)
               (Auth.stored_session w) (Auth.sign_out_error w)
               (Auth.clock w) (Auth.notices w)) /\
    Lib.backend e' = Auth.db w.
Proof.
  unfold Auth.initializeDatabase.
  destruct (initializeDatabase_run Auth.Db unit
              (fun stmt d => (Auth.rpc_outcome d stmt, d)) (Auth.env w))
    as (msgs & E & _).
  rewrite E. eexists. split; reflexivity.
Qed.

Lemma username_of_nonempty (u : Auth.AuthUser) :
  Auth.username_of u <> "".
Proof.
  unfold Auth.username_of, Auth.or_else, truthy.
  destruct (Auth.meta_name u) as [[|c s]|]; simpl;
    destruct (Auth.meta_full_name u) as [[|c' s']|]; simpl; discriminate.
Qed.

(** What [fetchProfile] leaves behind, whichever [dbInitialized] the
    closure holds: the tables as [fetch_db] describes, the user, session
    and loading cells untouched, and at most the "failed to create" toast. *)
Lemma fetchProfile_effect (dI : bool) (userId : string) (w : Auth.World) :
  let w' := Auth.exec (Auth.fetchProfile dI userId) w in
  Auth.db w'
  = Auth.fetch_db userId (Auth.server_user w) (Auth.clock w) (Auth.db w) /\
  Auth.server_user w' = Auth.server_user w /\
  Auth.stored_session w' = Auth.stored_session w /\
  Auth.clock w' = Auth.clock w /\
  Auth.user (Auth.state w') = Auth.user (Auth.state w) /\
  Auth.session (Auth.state w') = Auth.session (Auth.state w) /\
  Auth.loading (Auth.state w') = Auth.loading (Auth.state w) /\
  (Auth.notices w' = Auth.notices w \/
   Auth.notices w'
   = Auth.notices w ++ [Auth.ToastError "Failed to create user profile"]) /\
  (forall row,
     fst (Auth.select_profile userId (Auth.db w)) = Ok row ->
     Auth.profile (Auth.state w') = Some row /\
     Auth.notices w' = Auth.notices w) /\
  (forall u,
     Auth.server_user w = Some u ->
     existsb (fun r => String.eqb (Auth.id r) (Auth.uid u))
       (Auth.profile_rows (Auth.db w)) = false ->
     (forall row, fst (Auth.select_profile userId (Auth.db w)) <> Ok row) ->
     Auth.profile (Auth.state w')
     = Some (Auth.newProfile u (Auth.clock w)) /\
     Auth.notices w' = Auth.notices w) /\
  Auth.dbInitialized (Auth.state w')
  = (Auth.dbInitialized (Auth.state w) || negb dI)%bool.
Proof.
  assert (Core : forall w0 : Auth.World,
    let c := Auth.bind (Auth.on_db (Auth.select_profile userId))
               (fun r => match r with
                         | Err _ => Auth.createUserProfile userId
                         | Ok data =>
                             Auth.bind (Auth.setProfile (Some data))
                               (fun _ => Auth.ensureRatingHistory userId)
                         end) in
    let w' := Auth.exec c w0 in
    Auth.db w'
    = Auth.fetch_db userId (Auth.server_user w0) (Auth.clock w0) (Auth.db w0)
    /\ Auth.server_user w' = Auth.server_user w0
    /\ Auth.stored_session w' = Auth.stored_session w0
    /\ Auth.clock w' = Auth.clock w0
    /\ Auth.user (Auth.state w') = Auth.user (Auth.state w0)
    /\ Auth.session (Auth.state w') = Auth.session (Auth.state w0)
    /\ Auth.loading (Auth.state w') = Auth.loading (Auth.state w0)
    /\ (Auth.notices w' = Auth.notices w0 \/
        Auth.notices w'
        = Auth.notices w0
          ++ [Auth.ToastError "Failed to create user profile"])
    /\ (forall row,
          fst (Auth.select_profile userId (Auth.db w0)) = Ok row ->
          Auth.profile (Auth.state w') = Some row /\
          Auth.notices w' = Auth.notices w0)
    /\ (forall u,
          Auth.server_user w0 = Some u ->
          existsb (fun r => String.eqb (Auth.id r) (Auth.uid u))
            (Auth.profile_rows (Auth.db w0)) = false ->
          (forall row,
             fst (Auth.select_profile userId (Auth.db w0)) <> Ok row) ->
          Auth.profile (Auth.state w')
          = Some (Auth.newProfile u (Auth.clock w0)) /\
          Auth.notices w' = Auth.notices w0)
    /\ Auth.dbInitialized (Auth.state w')
       = Auth.dbInitialized (Auth.state w0)).
  { intros w0. unfold Auth.fetch_db, Auth.createUserProfile,
      Auth.ensureRatingHistory, Auth.select_profile, Auth.count_ratings.
    auth_run.
    destruct (select_single (fun r => String.eqb (Auth.id r) userId)
                (Auth.profile_rows (Lib.backend (Auth.env w0))))
      as [data|err] eqn:Sel; simpl.
    - destruct (List.length
                  (filter (fun r => String.eqb (Auth.h_user_id r) userId)
                     (Auth.rating_rows (Lib.backend (Auth.env w0)))))
        eqn:Cnt; simpl.
      + rewrite Sel. simpl.
        destruct (Auth.insert_rating userId (Auth.rating data)
                    "Initial rating" (Auth.created_at data)
                    (Lib.backend (Auth.env w0))) as [[] d'] eqn:Ins.
        simpl.
        repeat match goal with |- _ /\ _ => split end; auto.
        * intros row [= <-]. auto.
        * intros u _ _ H. exfalso. now apply (H data).
      + repeat match goal with |- _ /\ _ => split end; auto.
        * intros row [= <-]. auto.
        * intros u _ _ H. exfalso. now apply (H data).
    - destruct (Auth.server_user w0) as [u|] eqn:SU; simpl.
      + unfold Auth.insert_profile. simpl.
        destruct (existsb (fun r => String.eqb (Auth.id r) (Auth.uid u))
                    (Auth.profile_rows (Lib.backend (Auth.env w0))))
          eqn:Ex; simpl.
        * repeat match goal with |- _ /\ _ => split end; auto;
            try discriminate.
          intros u' [= <-]. congruence.
        * destruct (Auth.insert_rating (Auth.uid u) 1000 "Initial rating"
                      (Auth.clock w0) _) as [[] d'] eqn:Ins.
          simpl.
          repeat match goal with |- _ /\ _ => split end; auto;
            try discriminate.
          intros u' [= <-]. auto.
      + repeat match goal with |- _ /\ _ => split end; auto;
          discriminate. }
  assert (E : exists w1,
    Auth.exec (Auth.fetchProfile dI userId) w
    = Auth.exec
        (Auth.bind (Auth.on_db (Auth.select_profile userId))
           (fun r => match r with
                     | Err _ => Auth.createUserProfile userId
                     | Ok data =>
                         Auth.bind (Auth.setProfile (Some data))
                           (fun _ => Auth.ensureRatingHistory userId)
                     end)) w1
    /\ Auth.db w1 = Auth.db w
    /\ Auth.server_user w1 = Auth.server_user w
    /\ Auth.stored_session w1 = Auth.stored_session w
    /\ Auth.clock w1 = Auth.clock w
    /\ Auth.notices w1 = Auth.notices w
    /\ Auth.user (Auth.state w1) = Auth.user (Auth.state w)
    /\ Auth.session (Auth.state w1) = Auth.session (Auth.state w)
    /\ Auth.loading (Auth.state w1) = Auth.loading (Auth.state w)
    /\ Auth.dbInitialized (Auth.state w1)
       = (Auth.dbInitialized (Auth.state w) || negb dI)%bool).
  { unfold Auth.fetchProfile. destruct dI; simpl negb; cbv iota.
    - exists w. unfold Auth.exec, Auth.bind at 1, Auth.ret at 1.
      cbv beta iota.
      repeat match goal with |- _ /\ _ => split end; try reflexivity.
      simpl. now rewrite orb_false_r.
    - unfold Auth.exec. unfold Auth.bind at 1. unfold Auth.bind at 1.
      destruct (auth_initializeDatabase_frame w) as (e' & -> & B).
      unfold Auth.setDbInitialized, Auth.modify. cbv beta iota.
      eexists. split; [reflexivity|].
      repeat match goal with |- _ /\ _ => split end; try reflexivity.
      + exact B.
      + simpl. now rewrite orb_true_r. }
  destruct E as (w1 & -> & D1 & S1 & SS1 & C1 & N1 & U1 & Se1 & L1 & I1).
  pose proof (Core w1) as H. cbv zeta in H. cbv zeta.
  rewrite D1, S1, SS1, C1, N1, U1, Se1, L1, I1 in H. exact H.
Qed.

Lemma existsb_filter_nil {A} (f : A -> bool) (l : list A) :
  filter f l = [] -> existsb f l = false.
Proof.
  induction l as [|a l IH]; simpl; [reflexivity|].
  destruct (f a); [discriminate|exact IH].
Qed.

Lemma select_single_ok {A} (f : A -> bool) (l : list A) (a : A) :
  select_single f l = Ok a -> filter f l = [a].
Proof.
  unfold select_single.
  destruct (filter f l) as [|x [|y r]]; try discriminate.
  now intros [= ->].
Qed.

Lemma select_single_of_filter {A} (f : A -> bool) (l : list A) (a : A) :
  filter f l = [a] -> select_single f l = Ok a.
Proof. unfold select_single. now intros ->. Qed.

Lemma filter_singleton_holds {A} (f : A -> bool) (l : list A) (a : A) :
  filter f l = [a] -> f a = true /\ In a l.
Proof.
  intros H. assert (I : In a (filter f l)) by (rewrite H; now left).
  apply filter_In in I. tauto.
Qed.

Section FetchDb.

Variables (userId : string) (su : option Auth.AuthUser) (now : Z)
  (d : Auth.Db).

Let by_id := fun r : Auth.ProfileRow => String.eqb (Auth.id r) userId.
Let by_user := fun r : Auth.RatingRow => String.eqb (Auth.h_user_id r) userId.

Lemma fetch_db_found_first (data : Auth.ProfileRow) :
  select_single by_id (Auth.profile_rows d) = Ok data ->
  List.length (filter by_user (Auth.rating_rows d)) = 0%nat ->
  Auth.fetch_db userId su now d
  = Auth.mkDb (Auth.profile_rows d)
      (Auth.rating_rows d
       ++ [Auth.mkRatingRow (Auth.fresh_rating_id (Auth.rating_rows d))
             userId (Auth.rating data) None (Some "Initial rating")
             (Auth.created_at data)])
      (Auth.rpc_outcome d).
Proof.
  intros Sel Cnt. unfold Auth.fetch_db, Auth.select_profile,
    Auth.count_ratings, Auth.insert_rating. simpl.
  fold by_id by_user. rewrite Sel, Cnt.
  now rewrite (existsb_filter_cons _ _ _ _ (select_single_ok _ _ _ Sel)).
Qed.

Lemma fetch_db_found_more (data : Auth.ProfileRow) :
  select_single by_id (Auth.profile_rows d) = Ok data ->
  List.length (filter by_user (Auth.rating_rows d)) <> 0%nat ->
  Auth.fetch_db userId su now d = d.
Proof.
  intros Sel Cnt. unfold Auth.fetch_db, Auth.select_profile,
    Auth.count_ratings. simpl. fold by_id by_user. rewrite Sel.
  destruct (List.length (filter by_user (Auth.rating_rows d)));
    [contradiction|reflexivity].
Qed.

Lemma fetch_db_missing_nobody (e : StoreError) :
  select_single by_id (Auth.profile_rows d) = Err e ->
  su = None ->
  Auth.fetch_db userId su now d = d.
Proof.
  intros Sel ->. unfold Auth.fetch_db, Auth.select_profile. simpl.
  fold by_id. now rewrite Sel.
Qed.

Lemma fetch_db_missing_taken (e : StoreError) (u : Auth.AuthUser) :
  select_single by_id (Auth.profile_rows d) = Err e ->
  su = Some u ->
  existsb (fun r => String.eqb (Auth.id r) (Auth.uid u)) (Auth.profile_rows d)
  = true ->
  Auth.fetch_db userId su now d = d.
Proof.
  intros Sel -> Ex. unfold Auth.fetch_db, Auth.select_profile,
    Auth.insert_profile. simpl. fold by_id. now rewrite Sel, Ex.
Qed.

Lemma fetch_db_missing_created (e : StoreError) (u : Auth.AuthUser) :
  select_single by_id (Auth.profile_rows d) = Err e ->
  su = Some u ->
  existsb (fun r => String.eqb (Auth.id r) (Auth.uid u)) (Auth.profile_rows d)
  = false ->
  Auth.fetch_db userId su now d
  = Auth.mkDb (Auth.profile_rows d ++ [Auth.newProfile u now])
      (Auth.rating_rows d
       ++ [Auth.mkRatingRow (Auth.fresh_rating_id (Auth.rating_rows d))
             (Auth.uid u) 1000 None (Some "Initial rating") now])
      (Auth.rpc_outcome d).
Proof.
  intros Sel -> Ex. unfold Auth.fetch_db, Auth.select_profile,
    Auth.insert_profile, Auth.insert_rating. simpl. fold by_id.
  rewrite Sel, Ex. simpl.
  rewrite existsb_app. simpl. now rewrite String.eqb_refl, orb_true_r.
Qed.

End FetchDb.

(** The tables after a second [fetchProfile] are the tables after the
    first. *)
Lemma fetch_db_idempotent (userId : string) (su : option Auth.AuthUser)
    (t1 t2 : Z) (d : Auth.Db) :
  Auth.fetch_db userId su t2 (Auth.fetch_db userId su t1 d)
  = Auth.fetch_db userId su t1 d.
Proof.
  destruct (select_single (fun r => String.eqb (Auth.id r) userId)
              (Auth.profile_rows d)) as [data|err] eqn:Sel.
  - destruct (List.length
                (filter (fun r => String.eqb (Auth.h_user_id r) userId)
                   (Auth.rating_rows d))) eqn:Cnt.
    + rewrite (fetch_db_found_first userId su t1 d data Sel Cnt).
      match goal with
      | |- Auth.fetch_db _ _ _ ?d1 = _ =>
          apply (fetch_db_found_more userId su t2 d1 data)
      end; simpl; [exact Sel|].
      rewrite filter_app, length_app. simpl.
      rewrite String.eqb_refl. simpl. lia.
    + assert (N : List.length
                    (filter (fun r => String.eqb (Auth.h_user_id r) userId)
                       (Auth.rating_rows d)) <> 0%nat) by lia.
      rewrite (fetch_db_found_more userId su t1 d data Sel N).
      apply (fetch_db_found_more _ _ _ _ data Sel N).
  - destruct su as [u|].
    2:{ rewrite (fetch_db_missing_nobody userId None t1 d err Sel eq_refl).
        apply (fetch_db_missing_nobody _ _ _ _ err Sel eq_refl). }
    destruct (existsb (fun r => String.eqb (Auth.id r) (Auth.uid u))
                (Auth.profile_rows d)) eqn:Ex.
    + rewrite (fetch_db_missing_taken userId _ t1 d err u Sel eq_refl Ex).
      apply (fetch_db_missing_taken _ _ _ _ err u Sel eq_refl Ex).
    + rewrite (fetch_db_missing_created userId _ t1 d err u Sel eq_refl Ex).
      destruct (String.eqb (Auth.uid u) userId) eqn:Q.
      * apply String.eqb_eq in Q. subst userId.
        match goal with
        | |- Auth.fetch_db _ _ _ ?d1 = _ =>
            apply (fetch_db_found_more (Auth.uid u) (Some u) t2 d1
                     (Auth.newProfile u t1))
        end; simpl.
        -- apply select_single_of_filter. rewrite filter_app.
           rewrite (filter_existsb_false _ _ Ex). simpl.
           now rewrite String.eqb_refl.
        -- rewrite filter_app, length_app. simpl.
           rewrite String.eqb_refl. simpl. lia.
      * assert (Sel' : select_single
                         (fun r => String.eqb (Auth.id r) userId)
                         (Auth.profile_rows d ++ [Auth.newProfile u t1])
                       = Err err).
        { unfold select_single in *. rewrite filter_app. simpl.
          rewrite Q, app_nil_r. exact Sel. }
        match goal with
        | |- Auth.fetch_db _ _ _ ?d1 = _ =>
            apply (fetch_db_missing_taken userId (Some u) t2 d1 err u
                     Sel' eq_refl)
        end. simpl.
        rewrite existsb_app. simpl. now rewrite String.eqb_refl, orb_true_r.
Qed.

(** [fetchProfile] twice is [fetchProfile] once, for the tables: a second
    call, at any later instant and whatever the closures hold, adds no
    profile and no rating entry. *)
Theorem fetchProfile_idempotent (dI1 dI2 : bool) (userId : string) (t : Z)
    (w : Auth.World) :
  let w1 := Auth.exec (Auth.fetchProfile dI1 userId) w in
  let w2 := Auth.exec (Auth.fetchProfile dI2 userId)
              (Auth.exec (Auth.at_time t) w1) in
  Auth.db w2 = Auth.db w1.
Proof.
  intros w1 w2.
  destruct (fetchProfile_effect dI1 userId w) as (D1 & S1 & _).
  destruct (fetchProfile_effect dI2 userId (Auth.exec (Auth.at_time t) w1))
    as (D2 & _).
  fold w1 in D1, S1. fold w2 in D2.
  rewrite D2. change (Auth.db (Auth.exec (Auth.at_time t) w1))
    with (Auth.db w1).
  change (Auth.server_user (Auth.exec (Auth.at_time t) w1))
    with (Auth.server_user w1).
  rewrite S1, D1. apply fetch_db_idempotent.
Qed.

(** First sign-in.  For a user the identity provider reports and who has
    no row in [profiles], [fetchProfile] creates the profile (their id, a
    non-empty user name, rating 1000, created at the instant of the call),
    records one "Initial rating" entry of 1000 for them, puts the new row
    in the [profile] cell and raises no toast. *)
Theorem fetchProfile_creates_profile (dI : bool) (u : Auth.AuthUser)
    (w : Auth.World) :
  Auth.server_user w = Some u ->
  existsb (fun r => String.eqb (Auth.id r) (Auth.uid u))
    (Auth.profile_rows (Auth.db w)) = false ->
  let w' := Auth.exec (Auth.fetchProfile dI (Auth.uid u)) w in
  let row := Auth.newProfile u (Auth.clock w) in
  Auth.profile_rows (Auth.db w') = Auth.profile_rows (Auth.db w) ++ [row] /\
  Auth.rating_rows (Auth.db w')
  = Auth.rating_rows (Auth.db w)
    ++ [Auth.mkRatingRow
          (Auth.fresh_rating_id (Auth.rating_rows (Auth.db w)))
          (Auth.uid u) 1000 None (Some "Initial rating") (Auth.clock w)] /\
  Auth.profile (Auth.state w') = Some row /\
  Auth.notices w' = Auth.notices w /\
  Auth.id row = Auth.uid u /\ Auth.rating row = 1000 /\
  Auth.username row <> "" /\ Auth.created_at row = Auth.clock w.
Proof.
  intros SU Ex w' row.
  assert (Sel : select_single
                  (fun r => String.eqb (Auth.id r) (Auth.uid u))
                  (Auth.profile_rows (Auth.db w)) = Err PGRST116).
  { unfold select_single. now rewrite (filter_existsb_false _ _ Ex). }
  destruct (fetchProfile_effect dI (Auth.uid u) w)
    as (D & _ & _ & _ & _ & _ & _ & _ & _ & P & _).
  fold w' in D, P.
  rewrite SU in D.
  rewrite (fetch_db_missing_created (Auth.uid u) (Some u) (Auth.clock w)
             (Auth.db w) PGRST116 u Sel eq_refl Ex) in D.
  destruct (P u SU Ex) as [Pr N].
  { intros r. unfold Auth.select_profile. simpl. rewrite Sel. discriminate. }
  rewrite D. simpl.
  repeat match goal with |- _ /\ _ => split end; auto.
  apply username_of_nonempty.
Qed.

Lemma fetchProfile_creates_profile_witness :
  let w := auth_world empty_db (Some carol) 1000 in
  let w' := Auth.exec (Auth.fetchProfile false "C") w in
  Auth.profile_rows (Auth.db w')
  = [Auth.mkProfileRow "C" "Carol" (Some "carol@example.org") None 1000
       1000 None] /\
  Auth.notices w' = [].
Proof.
  intros w w'.
  destruct (fetchProfile_creates_profile false carol w eq_refl eq_refl)
    as (A & _ & _ & B & _).
  split; [exact A|exact B].
Defined.

(** Nobody with a profile is left without a rating history.  After
    [fetchProfile], if the user's profile can be read then [rating_history]
    holds an entry for that user; when the profile was there and the
    history was empty, the entry added carries the profile's rating and
    creation instant. *)
Theorem fetchProfile_ensures_history (dI : bool) (userId : string)
    (w : Auth.World) :
  let w' := Auth.exec (Auth.fetchProfile dI userId) w in
  (forall row,
     fst (Auth.select_profile userId (Auth.db w')) = Ok row ->
     fst (Auth.count_ratings userId (Auth.db w')) <> 0%nat) /\
  (forall data,
     fst (Auth.select_profile userId (Auth.db w)) = Ok data ->
     fst (Auth.count_ratings userId (Auth.db w)) = 0%nat ->
     Auth.profile_rows (Auth.db w') = Auth.profile_rows (Auth.db w) /\
     Auth.rating_rows (Auth.db w')
     = Auth.rating_rows (Auth.db w)
       ++ [Auth.mkRatingRow
             (Auth.fresh_rating_id (Auth.rating_rows (Auth.db w)))
             userId (Auth.rating data) None (Some "Initial rating")
             (Auth.created_at data)]).
Proof.
  intros w'.
  destruct (fetchProfile_effect dI userId w) as (D & _).
  fold w' in D. rewrite D. clear D w'.
  set (d := Auth.db w). set (su := Auth.server_user w).
  set (now := Auth.clock w).
  unfold Auth.select_profile, Auth.count_ratings. simpl.
  split.
  - intros row.
    destruct (select_single (fun r => String.eqb (Auth.id r) userId)
                (Auth.profile_rows d)) as [data|err] eqn:Sel.
    + destruct (List.length
                  (filter (fun r => String.eqb (Auth.h_user_id r) userId)
                     (Auth.rating_rows d))) eqn:Cnt.
      * rewrite (fetch_db_found_first userId su now d data Sel Cnt). simpl.
        intros _. rewrite filter_app, length_app. simpl.
        rewrite String.eqb_refl. simpl. lia.
      * assert (N : List.length
                      (filter (fun r => String.eqb (Auth.h_user_id r) userId)
                         (Auth.rating_rows d)) <> 0%nat) by lia.
        rewrite (fetch_db_found_more userId su now d data Sel N).
        intros _. exact N.
    + destruct su as [u|].
      2:{ rewrite (fetch_db_missing_nobody userId None now d err Sel eq_refl).
          rewrite Sel. discriminate. }
      destruct (existsb (fun r => String.eqb (Auth.id r) (Auth.uid u))
                  (Auth.profile_rows d)) eqn:Ex.
      * rewrite (fetch_db_missing_taken userId _ now d err u Sel eq_refl Ex).
        rewrite Sel. discriminate.
      * rewrite (fetch_db_missing_created userId _ now d err u Sel eq_refl
                   Ex). simpl.
        destruct (String.eqb (Auth.uid u) userId) eqn:Q.
        -- intros _. rewrite filter_app, length_app. simpl. rewrite Q.
           simpl. lia.
        -- unfold select_single in *. rewrite filter_app. simpl.
           rewrite Q, app_nil_r.
           destruct (filter (fun r => String.eqb (Auth.id r) userId)
                       (Auth.profile_rows d)) as [|x [|y r]];
             discriminate.
  - intros data Sel Cnt.
    rewrite (fetch_db_found_first userId su now d data Sel Cnt). simpl.
    auto.
Qed.

Lemma auth_exec_bind {A B} (c : Auth.App A) (k : A -> Auth.App B)
    (w : Auth.World) :
  Auth.exec (Auth.bind c k) w = Auth.exec (k (fst (c w))) (snd (c w)).
Proof. unfold Auth.exec, Auth.bind. now destruct (c w). Qed.

Lemma readSession_fulfilled (dI : bool) (wc : Auth.World)
    (sess : option Auth.Session) :
  Auth.stored_session wc = Lib.Fulfilled sess ->
  Auth.exec (Auth.readSession dI) wc
  = match sess with
    | Some x =>
        Auth.exec (Auth.fetchProfile dI (Auth.uid (Auth.session_user x)))
          (Auth.mkWorld (Auth.env wc)
             (Auth.mkState (option_map Auth.session_user sess)
                (Auth.profile (Auth.state wc)) sess
                (Auth.loading (Auth.state wc))
                (Auth.dbInitialized (Auth.state wc)))
             (Auth.server_user wc) (Auth.stored_session wc)
             (Auth.sign_out_error wc) (Auth.clock wc) (Auth.notices wc))
    | None =>
        Auth.mkWorld (Auth.env wc)
          (Auth.mkState None (Auth.profile (Auth.state wc)) None
             (Auth.loading (Auth.state wc))
             (Auth.dbInitialized (Auth.state wc)))
          (Auth.server_user wc) (Auth.stored_session wc)
          (Auth.sign_out_error wc) (Auth.clock wc) (Auth.notices wc)
    end.
Proof.
  intros H.
  match goal with |- _ = ?r => set (rhs := r) end.
  unfold Auth.readSession, Auth.exec. rewrite H. subst rhs.
  destruct sess; reflexivity.
Qed.

Lemma readSession_threw (dI : bool) (wc : Auth.World) :
  Auth.stored_session wc = Lib.Threw ->
  Auth.exec (Auth.readSession dI) wc
  = Auth.mkWorld (Auth.env wc) (Auth.state wc) (Auth.server_user wc)
      (Auth.stored_session wc) (Auth.sign_out_error wc) (Auth.clock wc)
      (Auth.notices wc
       ++ [Auth.ToastError "Something went wrong. Please try again later."]).
Proof.
  intros H.
  match goal with |- _ = ?r => set (rhs := r) end.
  unfold Auth.readSession, Auth.exec. rewrite H. subst rhs.
  reflexivity.
Qed.

(** Start-up always settles.  Whatever the backend answers to the
    initialization, and whether reading the session succeeds or throws,
    [initApp] ends with [loading] cleared and [dbInitialized] set, and
    never raises the "Failed to initialize database" toast.  When reading
    the session throws, the only trace is the "Something went wrong" toast:
    tables and user are untouched.  Otherwise the [session] and [user]
    cells hold the session read. *)
Theorem initApp_settles (w : Auth.World) :
  let w' := Auth.exec Auth.initApp w in
  Auth.loading (Auth.state w') = false /\
  Auth.dbInitialized (Auth.state w') = true /\
  (exists ns,
     Auth.notices w' = Auth.notices w ++ ns /\
     ~ In (Auth.ToastError
             "Failed to initialize database. Please try again later.") ns) /\
  (Auth.stored_session w = Lib.Threw ->
   Auth.notices w'
   = Auth.notices w
     ++ [Auth.ToastError "Something went wrong. Please try again later."] /\
   Auth.db w' = Auth.db w /\
   Auth.user (Auth.state w') = Auth.user (Auth.state w)) /\
  (forall sess,
     Auth.stored_session w = Lib.Fulfilled sess ->
     Auth.session (Auth.state w') = sess /\
     Auth.user (Auth.state w') = option_map Auth.session_user sess).
Proof.
  assert (E : exists wc,
    Auth.exec Auth.initApp w
    = Auth.exec (Auth.setLoading false)
        (Auth.exec (Auth.readSession (Auth.dbInitialized (Auth.state w))) wc)
    /\ Auth.db wc = Auth.db w
    /\ Auth.notices wc = Auth.notices w
    /\ Auth.stored_session wc = Auth.stored_session w
    /\ Auth.user (Auth.state wc) = Auth.user (Auth.state w)
    /\ Auth.dbInitialized (Auth.state wc) = true).
  { unfold Auth.initApp.
    repeat rewrite auth_exec_bind.
    match goal with
    | |- context [Auth.initializeDatabase ?x] =>
        destruct (auth_initializeDatabase_frame x) as (e' & Ei & B);
        rewrite Ei
    end.
    cbn [fst snd negb].
    eexists. split; [reflexivity|].
    repeat match goal with |- _ /\ _ => split end; try reflexivity.
    exact B. }
  destruct E as (wc & E & Dc & Nc & Sc & Uc & Ic).
  intros w'. unfold w'. rewrite E. clear E w'.
  destruct (Auth.stored_session w) as [sess|] eqn:SS.
  - (* the session was read *)
    rewrite (readSession_fulfilled _ wc sess Sc).
    destruct sess as [x|].
    + set (we := Auth.mkWorld _ _ _ _ _ _ _).
      assert (Ne : Auth.notices we = Auth.notices w) by exact Nc.
      assert (Ie : Auth.dbInitialized (Auth.state we) = true) by exact Ic.
      assert (Ue : Auth.user (Auth.state we)
                   = option_map Auth.session_user (Some x)) by reflexivity.
      assert (Se : Auth.session (Auth.state we) = Some x) by reflexivity.
      destruct (fetchProfile_effect (Auth.dbInitialized (Auth.state w))
                  (Auth.uid (Auth.session_user x)) we)
        as (_ & _ & _ & _ & U & Se' & _ & N & _ & _ & I).
      set (wf := Auth.exec _ we) in *.
      split; [reflexivity|].
      split.
      { change (Auth.dbInitialized (Auth.state wf) = true).
        rewrite I, Ie. reflexivity. }
      split.
      { change (exists ns, Auth.notices wf = Auth.notices w ++ ns /\
                  ~ In (Auth.ToastError
                     "Failed to initialize database. Please try again later.")
                    ns).
        destruct N as [N|N]; rewrite N, Ne.
        - exists []. rewrite app_nil_r. split; [reflexivity|]. intros [].
        - eexists. split; [reflexivity|].
          intros [H|[]]. discriminate. }
      split; [discriminate|].
      intros s' [= <-]. split.
      { change (Auth.session (Auth.state wf) = Some x).
        rewrite Se'. exact Se. }
      { change (Auth.user (Auth.state wf)
                = option_map Auth.session_user (Some x)).
        rewrite U. exact Ue. }
    + split; [reflexivity|]. split; [exact Ic|].
      split.
      * exists []. rewrite app_nil_r. split; [exact Nc|]. intros [].
      * split; [discriminate|]. intros s' [= <-]. auto.
  - (* reading the session threw *)
    rewrite (readSession_threw _ wc Sc).
    split; [reflexivity|]. split; [exact Ic|].
    split.
    + eexists. split; [simpl; rewrite Nc; reflexivity|].
      intros [H|[]]. discriminate.
    + split; [|discriminate].
      intros _. simpl. rewrite Nc. repeat split; auto.
Qed.

Lemma filter_absent_id (l : list Auth.ProfileRow) (x : string) :
  ~ In x (map Auth.id l) ->
  filter (fun r => String.eqb (Auth.id r) x) l = [].
Proof.
  induction l as [|b l IH]; simpl; intros H; [reflexivity|].
  destruct (String.eqb (Auth.id b) x) eqn:E.
  - apply String.eqb_eq in E. exfalso. apply H. now left.
  - apply IH. intros I. apply H. now right.
Qed.

Lemma keyed_filter (l : list Auth.ProfileRow) (x : string) :
  NoDup (map Auth.id l) ->
  (List.length (filter (fun r => String.eqb (Auth.id r) x) l) <= 1)%nat.
Proof.
  induction l as [|a l IH]; simpl; intros H; [lia|].
  inversion H as [|y ys Hnin Hnd]; subst.
  destruct (String.eqb (Auth.id a) x) eqn:E; simpl; [|auto].
  apply String.eqb_eq in E. subst x.
  rewrite (filter_absent_id _ _ Hnin). simpl. lia.
Qed.

(** On a keyed table a failed read of one row means there is none. *)
Lemma keyed_select_err (l : list Auth.ProfileRow) (x : string)
    (e : StoreError) :
  NoDup (map Auth.id l) ->
  select_single (fun r => String.eqb (Auth.id r) x) l = Err e ->
  existsb (fun r => String.eqb (Auth.id r) x) l = false.
Proof.
  intros K Sel. pose proof (keyed_filter l x K) as Le.
  apply existsb_filter_nil. unfold select_single in Sel.
  destruct (filter (fun r => String.eqb (Auth.id r) x) l) as [|a [|b r]];
    [reflexivity|discriminate|simpl in Le; lia].
Qed.

Lemma fetch_db_keeps_profiles (userId : string) (su : option Auth.AuthUser)
    (now : Z) (d : Auth.Db) (r : Auth.ProfileRow) :
  In r (Auth.profile_rows d) ->
  In r (Auth.profile_rows (Auth.fetch_db userId su now d)).
Proof.
  intros H. unfold Auth.fetch_db, Auth.select_profile, Auth.count_ratings,
    Auth.insert_rating, Auth.insert_profile. simpl.
  destruct (select_single _ (Auth.profile_rows d)) as [data|err].
  - destruct (List.length _); [|exact H].
    destruct (existsb _ (Auth.profile_rows d)); exact H.
  - destruct su as [u|]; [|exact H].
    destruct (existsb _ (Auth.profile_rows d)); [exact H|]. simpl.
    destruct (existsb _ (Auth.profile_rows d ++ _)); simpl;
      apply in_or_app; now left.
Qed.

Lemma auth_snd_bind {A B} (c : Auth.App A) (k : A -> Auth.App B)
    (w : Auth.World) :
  snd (Auth.bind c k w) = snd (k (fst (c w)) (snd (c w))).
Proof. unfold Auth.bind. now destruct (c w). Qed.

Lemma onAuthStateChange_signed_in (x : Auth.Session) (w : Auth.World) :
  exists we,
    Auth.exec (Auth.onAuthStateChange "SIGNED_IN" (Some x)) w
    = Auth.exec (Auth.setLoading false)
        (Auth.exec (Auth.notify (Auth.Navigate "/"))
           (Auth.exec (Auth.notify (Auth.ToastSuccess
                                      "Signed in successfully!"))
              (Auth.exec
                 (Auth.fetchProfile (Auth.dbInitialized (Auth.state w))
                    (Auth.uid (Auth.session_user x))) we)))
    /\ Auth.db we = Auth.db w
    /\ Auth.server_user we = Auth.server_user w
    /\ Auth.notices we = Auth.notices w
    /\ Auth.clock we = Auth.clock w
    /\ Auth.user (Auth.state we) = Some (Auth.session_user x)
    /\ Auth.session (Auth.state we) = Some x.
Proof.
  unfold Auth.onAuthStateChange. simpl String.eqb. cbv iota.
  unfold Auth.exec.
  repeat rewrite auth_snd_bind.
  cbn [fst snd Auth.getState].
  destruct (Auth.dbInitialized (Auth.state w)) eqn:DI; cbn [negb].
  - cbn [fst snd Auth.ret].
    eexists. split; [reflexivity|].
    repeat match goal with |- _ /\ _ => split end; reflexivity.
  - repeat rewrite auth_snd_bind.
    match goal with
    | |- context [Auth.initializeDatabase ?y] =>
        destruct (auth_initializeDatabase_frame y) as (e' & Ei & B);
        rewrite Ei
    end.
    cbn [fst snd].
    eexists. split; [reflexivity|].
    repeat match goal with |- _ /\ _ => split end; try reflexivity.
    exact B.
Qed.

(** Signing in.  On a keyed [profiles] table, when the [SIGNED_IN] event
    arrives for the user the identity provider reports, the listener ends
    with that user and session in place, [loading] cleared, and a profile
    in the [profile] cell that is the row of that very user in the table,
    found or just created; the only notices are the sign-in toast and the
    navigation home. *)
Theorem signed_in_profile_matches_user (x : Auth.Session) (w : Auth.World) :
  Auth.server_user w = Some (Auth.session_user x) ->
  Auth.profiles_keyed (Auth.db w) ->
  let w' := Auth.exec (Auth.onAuthStateChange "SIGNED_IN" (Some x)) w in
  (exists row,
     Auth.profile (Auth.state w') = Some row /\
     Auth.id row = Auth.uid (Auth.session_user x) /\
     In row (Auth.profile_rows (Auth.db w'))) /\
  Auth.user (Auth.state w') = Some (Auth.session_user x) /\
  Auth.session (Auth.state w') = Some x /\
  Auth.loading (Auth.state w') = false /\
  Auth.notices w'
  = Auth.notices w ++ [Auth.ToastSuccess "Signed in successfully!";
                       Auth.Navigate "/"].
Proof.
  intros SU K w'.
  destruct (onAuthStateChange_signed_in x w)
    as (we & E & De & Se & Ne & Ce & Ue & Sse).
  unfold w'. rewrite E. clear E w'.
  set (u := Auth.session_user x) in *.
  destruct (fetchProfile_effect (Auth.dbInitialized (Auth.state w))
              (Auth.uid u) we)
    as (D & _ & _ & _ & U & Ss & _ & _ & Pf & Pc & _).
  set (wf := Auth.exec _ we) in *.
  rewrite De, Se, Ce in D. rewrite De in Pf, Pc. rewrite Se in Pc.
  assert (Main : exists row,
            Auth.profile (Auth.state wf) = Some row /\
            Auth.id row = Auth.uid u /\
            In row (Auth.profile_rows (Auth.db wf)) /\
            Auth.notices wf = Auth.notices w).
  { destruct (select_single (fun r => String.eqb (Auth.id r) (Auth.uid u))
                (Auth.profile_rows (Auth.db w))) as [row|err] eqn:Sel.
    - destruct (Pf row) as [P N].
      { unfold Auth.select_profile. simpl. exact Sel. }
      destruct (filter_singleton_holds _ _ _ (select_single_ok _ _ _ Sel))
        as [Hid Hin].
      exists row. split; [exact P|]. split; [now apply String.eqb_eq|].
      split; [|now rewrite N, Ne].
      rewrite D. now apply fetch_db_keeps_profiles.
    - pose proof (keyed_select_err _ _ _ K Sel) as Ex.
      destruct (Pc u SU Ex) as [P N].
      { intros r. unfold Auth.select_profile. simpl. rewrite Sel.
        discriminate. }
      exists (Auth.newProfile u (Auth.clock we)).
      split; [exact P|]. split; [reflexivity|].
      split; [|now rewrite N, Ne].
      rewrite D, SU.
      rewrite (fetch_db_missing_created (Auth.uid u) (Some u) (Auth.clock w)
                 (Auth.db w) err u Sel eq_refl Ex). simpl.
      apply in_or_app. right. rewrite Ce. now left. }
  destruct Main as (row & P & Hid & Hin & N).
  split.
  { exists row. split; [exact P|]. split; [exact Hid|exact Hin]. }
  split.
  { change (Auth.user (Auth.state wf) = Some u). now rewrite U. }
  split.
  { change (Auth.session (Auth.state wf) = Some x). now rewrite Ss. }
  split; [reflexivity|].
  change ((Auth.notices wf ++ [Auth.ToastSuccess "Signed in successfully!"])
          ++ [Auth.Navigate "/"]
          = Auth.notices w ++ [Auth.ToastSuccess "Signed in successfully!";
                               Auth.Navigate "/"]).
  rewrite N, <- app_assoc. reflexivity.
Qed.

Lemma signed_in_profile_matches_user_witness :
  let w := auth_world empty_db (Some carol) 1000 in
  let w' := Auth.exec
              (Auth.onAuthStateChange "SIGNED_IN" (Some (Auth.mkSession carol)))
              w in
  Auth.loading (Auth.state w') = false /\
  Auth.notices w' = [Auth.ToastSuccess "Signed in successfully!";
                     Auth.Navigate "/"].
Proof.
  intros w w'.
  destruct (signed_in_profile_matches_user (Auth.mkSession carol) w eq_refl
              (NoDup_nil string)) as (_ & _ & _ & A & B).
  split; [exact A|exact B].
Defined.
